(** * The graphics configuration tab: present-mode selection

    A shallow embedding of [src/yuzu/configuration/configure_graphics.cpp]:
    the conversions between the persisted VSync setting and Vulkan present
    modes, the naming of present modes per renderer backend, the rebuild of
    the VSync combobox ([PopulateVSyncModeSelection]), the two selection
    updates and the commit ([ApplyConfiguration]).

    Conventions of the embedding.
    - A C++ enumeration value is the integer it converts from and to ([Z]);
      a [static_cast] between [int] and an enumeration is the identity on
      this representation.  A [switch] is a chain of equality tests in the
      order of its [case] labels, its [default] the final [else].
    - [std::vector::operator[]] is unchecked: indexing outside the vector
      is undefined behaviour, the outcome [Undefined] of the model.
    - Member functions thread the object's state and the settings store
      through a state monad with that one failure.
    - The member [vulkan_device] is 32-bit unsigned, as the cast to [int]
      in [UpdateAPILayout] shows: an [int] assigned to it is converted
      ([to_u32]), and it is converted back where an [int] is wanted
      ([to_int]). *)

From Stdlib Require Import ZArith List String Bool Lia Sorted.
Import ListNotations.
Open Scope Z_scope.

Set Implicit Arguments.

(** ** Vulkan present modes

    [VkPresentModeKHR] is the C enumeration of [vulkan_core.h]; the four
    enumerators the source names have the values the Vulkan API fixes. *)

Definition VkPresentModeKHR : Type := Z.

Definition VK_PRESENT_MODE_IMMEDIATE_KHR : VkPresentModeKHR := 0.
Definition VK_PRESENT_MODE_MAILBOX_KHR : VkPresentModeKHR := 1.
Definition VK_PRESENT_MODE_FIFO_KHR : VkPresentModeKHR := 2.
Definition VK_PRESENT_MODE_FIFO_RELAXED_KHR : VkPresentModeKHR := 3.

(** [static const std::vector<VkPresentModeKHR> default_present_modes]. *)
Definition default_present_modes : list VkPresentModeKHR :=
  [VK_PRESENT_MODE_IMMEDIATE_KHR; VK_PRESENT_MODE_FIFO_KHR].

(** The present modes with a [case] label in the source's switches. *)
Definition mapped_present_modes : list VkPresentModeKHR :=
  [VK_PRESENT_MODE_IMMEDIATE_KHR; VK_PRESENT_MODE_MAILBOX_KHR;
   VK_PRESENT_MODE_FIFO_KHR; VK_PRESENT_MODE_FIFO_RELAXED_KHR].

(** ** Strings of the toolkit *)

Definition QString : Type := string.

Definition isEmpty (s : QString) : bool :=
  match s with
  | EmptyString => true
  | String _ _ => false
  end.

(** [QStringLiteral("prefix (%1)").arg(a)]: the single place marker is
    replaced by the argument. *)
Definition arg1 (prefix : string) (a : QString) : QString :=
  (prefix ++ " (" ++ a ++ ")")%string.

(** ** Declarations outside the file

    The enumerators of [Settings::VSyncMode] and [Settings::RendererBackend]
    ([common/settings.h]), the two combobox constants of
    [ConfigurationShared] and the translation catalogue [tr] are declared
    outside the sources at hand.  The embedding takes them as given and
    fixes no value for them. *)

Class Declarations : Type := {
  VSyncMode_Immediate : Z;
  VSyncMode_Mailbox : Z;
  VSyncMode_FIFO : Z;
  VSyncMode_FIFORelaxed : Z;
  RendererBackend_OpenGL : Z;
  RendererBackend_Vulkan : Z;
  RendererBackend_Null : Z;
  USE_GLOBAL_INDEX : Z;
  USE_GLOBAL_OFFSET : Z;
  tr : string -> QString
}.

(** The labels of one [switch] are pairwise distinct in a program that
    compiles: the four VSync modes (the switch of [VSyncSettingToMode]) and
    the three backends (the switch of [UpdateAPILayout]). *)
Definition distinct_VSyncModes `{Declarations} : Prop :=
  NoDup [VSyncMode_Immediate; VSyncMode_Mailbox; VSyncMode_FIFO; VSyncMode_FIFORelaxed].

Definition distinct_backends `{Declarations} : Prop :=
  NoDup [RendererBackend_OpenGL; RendererBackend_Vulkan; RendererBackend_Null].

(** One choice of the open declarations, used to run the model on concrete
    states: enumerators numbered in declaration order, an untranslated
    catalogue. *)
Definition declarations_in_order : Declarations := {|
  VSyncMode_Immediate := 0;
  VSyncMode_Mailbox := 1;
  VSyncMode_FIFO := 2;
  VSyncMode_FIFORelaxed := 3;
  RendererBackend_OpenGL := 0;
  RendererBackend_Vulkan := 1;
  RendererBackend_Null := 2;
  USE_GLOBAL_INDEX := 0;
  USE_GLOBAL_OFFSET := 2;
  tr := fun s => s
|}.

(** ** The settings store *)

Module Settings.

(** Modelled from the spec: [Settings::SwitchableSetting], whose class is
    declared in [common/settings.h] and is not among the sources at hand.
    The spec's settings store keeps a persisted value per setting and has
    two configuration modes, global and per-profile override; a setting
    therefore carries its global value, its override and the flag that
    says which of the two is in force.  The accessors are the ones the
    source calls, modelled after their names. *)
Record SwitchableSetting : Type := {
  value : Z;
  custom : Z;
  use_global : bool
}.

Definition GetValue (s : SwitchableSetting) : Z :=
  if use_global s then value s else custom s.

Definition SetValue (val : Z) (s : SwitchableSetting) : SwitchableSetting :=
  if use_global s
  then {| value := val; custom := custom s; use_global := use_global s |}
  else {| value := value s; custom := val; use_global := use_global s |}.

Definition SetGlobal (to_global : bool) (s : SwitchableSetting) : SwitchableSetting :=
  {| value := value s; custom := custom s; use_global := to_global |}.

(** [Settings::values], restricted to the settings the file names. *)
Record Values : Type := {
  renderer_backend : SwitchableSetting;
  vulkan_device : SwitchableSetting;
  shader_backend : SwitchableSetting;
  vsync_mode : SwitchableSetting
}.

Definition set_renderer_backend (s : SwitchableSetting) (v : Values) : Values :=
  {| renderer_backend := s;
     vulkan_device := vulkan_device v;
     shader_backend := shader_backend v;
     vsync_mode := vsync_mode v |}.

Definition set_vsync_mode (s : SwitchableSetting) (v : Values) : Values :=
  {| renderer_backend := renderer_backend v;
     vulkan_device := vulkan_device v;
     shader_backend := shader_backend v;
     vsync_mode := s |}.

End Settings.

(** ** The toolkit's combobox

    [QComboBox] as far as the source uses it.  [clear] leaves no current
    item ([-1]); [setCurrentIndex] with an index that names no item does the
    same; [insertItem] bounds the position to the items present, moves a
    current item at or after the position along with it, and makes the first
    item inserted into an empty box current unless the box has a placeholder
    text. *)

Module QComboBox.

Record t : Type := {
  enabled : bool;
  items : list QString;
  currentIndex : Z;
  placeholder : bool
}.

Definition count (cb : t) : Z := Z.of_nat (List.length (items cb)).

Definition setEnabled (b : bool) (cb : t) : t :=
  {| enabled := b; items := items cb;
     currentIndex := currentIndex cb; placeholder := placeholder cb |}.

Definition clear (cb : t) : t :=
  {| enabled := enabled cb; items := [];
     currentIndex := -1; placeholder := placeholder cb |}.

Definition setCurrentIndex (index : Z) (cb : t) : t :=
  {| enabled := enabled cb; items := items cb;
     currentIndex := if (0 <=? index) && (index <? count cb) then index else -1;
     placeholder := placeholder cb |}.

Definition insertItem (index : Z) (text : QString) (cb : t) : t :=
  let pos := Z.max 0 (Z.min index (count cb)) in
  {| enabled := enabled cb;
     items := (firstn (Z.to_nat pos) (items cb) ++ text :: skipn (Z.to_nat pos) (items cb))%list;
     currentIndex :=
       if currentIndex cb <? 0 then
         if (count cb =? 0) && negb (placeholder cb) then 0 else -1
       else if pos <=? currentIndex cb then currentIndex cb + 1
       else currentIndex cb;
     placeholder := placeholder cb |}.

(** The calls the source makes on a combobox, as data: the state keeps
    the sequence of calls made on the VSync combobox. *)
Inductive call : Type :=
| call_setEnabled (b : bool)
| call_clear
| call_insertItem (index : Z) (text : QString)
| call_setCurrentIndex (index : Z).

Definition perform (c : call) (cb : t) : t :=
  match c with
  | call_setEnabled b => setEnabled b cb
  | call_clear => clear cb
  | call_insertItem index text => insertItem index text cb
  | call_setCurrentIndex index => setCurrentIndex index cb
  end.

Definition perform_all (calls : list call) (cb : t) : t :=
  fold_left (fun box c => perform c box) calls cb.

End QComboBox.

(** ** The state the member functions work on

    The members of [ConfigureGraphics] the modelled functions read or write,
    together with the part of the [Settings] namespace they reach:
    [Settings::IsConfiguringGlobal()] and [Settings::values].
    [vsync_mode_combobox_calls] records, oldest first, the calls made on
    [vsync_mode_combobox]; it is not a member of the class.  An entry of
    [apply_funcs] is a closure built by [ConfigurationShared::CreateWidget];
    it takes the power state and writes settings. *)

Record State : Type := {
  configuring_global : bool;
  values : Settings.Values;
  powered_on : bool;
  apply_funcs : list (bool -> Settings.Values -> Settings.Values);
  api_combobox : QComboBox.t;
  vulkan_device_combobox : QComboBox.t;
  vsync_mode_combobox : QComboBox.t;
  vsync_mode_combobox_calls : list QComboBox.call;
  vsync_mode_combobox_enum_map : list VkPresentModeKHR;
  device_present_modes : list (list VkPresentModeKHR);
  vulkan_device : Z;
  shader_backend : Z
}.

Definition set_values (v : Settings.Values) (st : State) : State :=
  {| configuring_global := configuring_global st;
     values := v;
     powered_on := powered_on st;
     apply_funcs := apply_funcs st;
     api_combobox := api_combobox st;
     vulkan_device_combobox := vulkan_device_combobox st;
     vsync_mode_combobox := vsync_mode_combobox st;
     vsync_mode_combobox_calls := vsync_mode_combobox_calls st;
     vsync_mode_combobox_enum_map := vsync_mode_combobox_enum_map st;
     device_present_modes := device_present_modes st;
     vulkan_device := vulkan_device st;
     shader_backend := shader_backend st |}.

Definition set_api_index (index : Z) (st : State) : State :=
  {| configuring_global := configuring_global st;
     values := values st;
     powered_on := powered_on st;
     apply_funcs := apply_funcs st;
     api_combobox := QComboBox.setCurrentIndex index (api_combobox st);
     vulkan_device_combobox := vulkan_device_combobox st;
     vsync_mode_combobox := vsync_mode_combobox st;
     vsync_mode_combobox_calls := vsync_mode_combobox_calls st;
     vsync_mode_combobox_enum_map := vsync_mode_combobox_enum_map st;
     device_present_modes := device_present_modes st;
     vulkan_device := vulkan_device st;
     shader_backend := shader_backend st |}.

(** A call on [vsync_mode_combobox]: performed on the widget and recorded. *)
Definition call_vsync_mode_combobox (c : QComboBox.call) (st : State) : State :=
  {| configuring_global := configuring_global st;
     values := values st;
     powered_on := powered_on st;
     apply_funcs := apply_funcs st;
     api_combobox := api_combobox st;
     vulkan_device_combobox := vulkan_device_combobox st;
     vsync_mode_combobox := QComboBox.perform c (vsync_mode_combobox st);
     vsync_mode_combobox_calls := (vsync_mode_combobox_calls st ++ [c])%list;
     vsync_mode_combobox_enum_map := vsync_mode_combobox_enum_map st;
     device_present_modes := device_present_modes st;
     vulkan_device := vulkan_device st;
     shader_backend := shader_backend st |}.

Definition set_enum_map (m : list VkPresentModeKHR) (st : State) : State :=
  {| configuring_global := configuring_global st;
     values := values st;
     powered_on := powered_on st;
     apply_funcs := apply_funcs st;
     api_combobox := api_combobox st;
     vulkan_device_combobox := vulkan_device_combobox st;
     vsync_mode_combobox := vsync_mode_combobox st;
     vsync_mode_combobox_calls := vsync_mode_combobox_calls st;
     vsync_mode_combobox_enum_map := m;
     device_present_modes := device_present_modes st;
     vulkan_device := vulkan_device st;
     shader_backend := shader_backend st |}.

Definition set_vulkan_device (device : Z) (st : State) : State :=
  {| configuring_global := configuring_global st;
     values := values st;
     powered_on := powered_on st;
     apply_funcs := apply_funcs st;
     api_combobox := api_combobox st;
     vulkan_device_combobox := vulkan_device_combobox st;
     vsync_mode_combobox := vsync_mode_combobox st;
     vsync_mode_combobox_calls := vsync_mode_combobox_calls st;
     vsync_mode_combobox_enum_map := vsync_mode_combobox_enum_map st;
     device_present_modes := device_present_modes st;
     vulkan_device := device;
     shader_backend := shader_backend st |}.

Definition set_shader_backend (backend : Z) (st : State) : State :=
  {| configuring_global := configuring_global st;
     values := values st;
     powered_on := powered_on st;
     apply_funcs := apply_funcs st;
     api_combobox := api_combobox st;
     vulkan_device_combobox := vulkan_device_combobox st;
     vsync_mode_combobox := vsync_mode_combobox st;
     vsync_mode_combobox_calls := vsync_mode_combobox_calls st;
     vsync_mode_combobox_enum_map := vsync_mode_combobox_enum_map st;
     device_present_modes := device_present_modes st;
     vulkan_device := vulkan_device st;
     shader_backend := backend |}.

(** ** The monad of member functions *)

Inductive outcome (A : Type) : Type :=
| Returns (a : A) (st : State)
| Undefined.

Arguments Undefined {A}.

Definition M (A : Type) : Type := State -> outcome A.

Definition ret {A : Type} (a : A) : M A := fun st => Returns a st.

Definition bind {A B : Type} (m : M A) (k : A -> M B) : M B :=
  fun st =>
    match m st with
    | Returns a st' => k a st'
    | Undefined => Undefined
    end.

Definition gets {A : Type} (f : State -> A) : M A := fun st => Returns (f st) st.

Definition modify (f : State -> State) : M unit := fun st => Returns tt (f st).

Declare Scope monad_scope.
Delimit Scope monad_scope with monad.
Notation "x <- m ;; k" := (bind m (fun x => k))
  (at level 61, m at next level, right associativity) : monad_scope.
Notation "m ;; k" := (bind m (fun _ => k))
  (at level 61, right associativity) : monad_scope.
Open Scope monad_scope.

(** The value a run returns, when it returns. *)
Definition returned {A : Type} (o : outcome A) : option A :=
  match o with
  | Returns a _ => Some a
  | Undefined => None
  end.

(** [v[index]] on a [std::vector], the [int] index converted to [size_t]:
    a negative index is as far out of range as a large one. *)
Definition vector_at {A : Type} (v : list A) (index : Z) : M A :=
  fun st =>
    if (0 <=? index) && (index <? Z.of_nat (List.length v)) then
      match nth_error v (Z.to_nat index) with
      | Some a => Returns a st
      | None => Undefined
      end
    else Undefined.

(** The conversion of an [int] to the 32-bit unsigned type of the member
    [vulkan_device]: the representative of the value in the range of
    [u32]. *)
Definition to_u32 (z : Z) : Z := z mod 2 ^ 32.

Section MemberFunctions.

Context `{Declarations}.

(** [static constexpr VkPresentModeKHR VSyncSettingToMode(Settings::VSyncMode)]. *)
Definition VSyncSettingToMode (mode : Z) : VkPresentModeKHR :=
  if mode =? VSyncMode_Immediate then VK_PRESENT_MODE_IMMEDIATE_KHR
  else if mode =? VSyncMode_Mailbox then VK_PRESENT_MODE_MAILBOX_KHR
  else if mode =? VSyncMode_FIFO then VK_PRESENT_MODE_FIFO_KHR
  else if mode =? VSyncMode_FIFORelaxed then VK_PRESENT_MODE_FIFO_RELAXED_KHR
  else VK_PRESENT_MODE_FIFO_KHR.

(** [static constexpr Settings::VSyncMode PresentModeToSetting(VkPresentModeKHR)]. *)
Definition PresentModeToSetting (mode : VkPresentModeKHR) : Z :=
  if mode =? VK_PRESENT_MODE_IMMEDIATE_KHR then VSyncMode_Immediate
  else if mode =? VK_PRESENT_MODE_MAILBOX_KHR then VSyncMode_Mailbox
  else if mode =? VK_PRESENT_MODE_FIFO_KHR then VSyncMode_FIFO
  else if mode =? VK_PRESENT_MODE_FIFO_RELAXED_KHR then VSyncMode_FIFORelaxed
  else VSyncMode_FIFO.

(** [ConfigureGraphics::TranslateVSyncMode]. *)
Definition TranslateVSyncMode (mode : VkPresentModeKHR) (backend : Z) : QString :=
  if mode =? VK_PRESENT_MODE_IMMEDIATE_KHR then
    if backend =? RendererBackend_OpenGL
    then tr "Off"
    else arg1 "Immediate" (tr "VSync Off")
  else if mode =? VK_PRESENT_MODE_MAILBOX_KHR then
    arg1 "Mailbox" (tr "Recommended")
  else if mode =? VK_PRESENT_MODE_FIFO_KHR then
    if backend =? RendererBackend_OpenGL
    then tr "On"
    else arg1 "FIFO" (tr "VSync On")
  else if mode =? VK_PRESENT_MODE_FIFO_RELAXED_KHR then
    "FIFO Relaxed"%string
  else EmptyString.

(** [ConfigureGraphics::GetCurrentGraphicsBackend]. *)
Definition GetCurrentGraphicsBackend : M Z :=
  global <- gets configuring_global ;;
  index <- gets (fun st => QComboBox.currentIndex (api_combobox st)) ;;
  if global : bool then ret index
  else if index =? USE_GLOBAL_INDEX then
    modify (fun st => set_values
      (Settings.set_renderer_backend
         (Settings.SetGlobal true (Settings.renderer_backend (values st)))
         (values st)) st) ;;
    gets (fun st => Settings.GetValue (Settings.renderer_backend (values st)))
  else
    modify (fun st => set_values
      (Settings.set_renderer_backend
         (Settings.SetGlobal false (Settings.renderer_backend (values st)))
         (values st)) st) ;;
    ret (index - USE_GLOBAL_OFFSET).

(** The body of the [for] loop of [PopulateVSyncModeSelection], over the
    present modes still to visit; [index] is the loop's counter. *)
Fixpoint populate_loop (backend : Z) (current_mode : VkPresentModeKHR)
         (present_modes : list VkPresentModeKHR) (index : Z) : M unit :=
  match present_modes with
  | [] => ret tt
  | present_mode :: rest =>
    let mode_name := TranslateVSyncMode present_mode backend in
    if isEmpty mode_name then populate_loop backend current_mode rest index
    else
      modify (call_vsync_mode_combobox (QComboBox.call_insertItem index mode_name)) ;;
      modify (fun st => set_enum_map
                (vsync_mode_combobox_enum_map st ++ [present_mode])%list st) ;;
      (if present_mode =? current_mode
       then modify (call_vsync_mode_combobox (QComboBox.call_setCurrentIndex index))
       else ret tt) ;;
      populate_loop backend current_mode rest (index + 1)
  end.

(** [ConfigureGraphics::PopulateVSyncModeSelection]. *)
Definition PopulateVSyncModeSelection : M unit :=
  backend <- GetCurrentGraphicsBackend ;;
  if backend =? RendererBackend_Null then
    modify (call_vsync_mode_combobox (QComboBox.call_setEnabled false))
  else
    modify (call_vsync_mode_combobox (QComboBox.call_setEnabled true)) ;;
    current_index <- gets (fun st => QComboBox.currentIndex (vsync_mode_combobox st)) ;;
    current_mode <-
      (if current_index =? -1
       then gets (fun st => VSyncSettingToMode
                              (Settings.GetValue (Settings.vsync_mode (values st))))
       else enum_map <- gets vsync_mode_combobox_enum_map ;;
            vector_at enum_map current_index) ;;
    device <- gets (fun st => QComboBox.currentIndex (vulkan_device_combobox st)) ;;
    present_modes <-
      (if backend =? RendererBackend_Vulkan
       then modes <- gets device_present_modes ;; vector_at modes device
       else ret default_present_modes) ;;
    modify (call_vsync_mode_combobox QComboBox.call_clear) ;;
    modify (set_enum_map []) ;;
    populate_loop backend current_mode present_modes 0.

(** [ConfigureGraphics::UpdateDeviceSelection].  The assignment
    [vulkan_device = device] converts the [int] to the unsigned member. *)
Definition UpdateDeviceSelection (device : Z) : M unit :=
  if device =? -1 then ret tt
  else
    backend <- GetCurrentGraphicsBackend ;;
    if backend =? RendererBackend_Vulkan
    then modify (set_vulkan_device (to_u32 device))
    else ret tt.

(** [ConfigureGraphics::UpdateShaderBackendSelection]. *)
Definition UpdateShaderBackendSelection (backend : Z) : M unit :=
  if backend =? -1 then ret tt
  else
    current <- GetCurrentGraphicsBackend ;;
    if current =? RendererBackend_OpenGL
    then modify (set_shader_backend backend)
    else ret tt.

(** The first loop of [ApplyConfiguration]: every apply function in turn. *)
Fixpoint run_apply_funcs (funcs : list (bool -> Settings.Values -> Settings.Values))
         (powered : bool) : M unit :=
  match funcs with
  | [] => ret tt
  | func :: rest =>
    modify (fun st => set_values (func powered (values st)) st) ;;
    run_apply_funcs rest powered
  end.

(** [ConfigureGraphics::ApplyConfiguration]. *)
Definition ApplyConfiguration : M unit :=
  powered <- gets powered_on ;;
  funcs <- gets apply_funcs ;;
  run_apply_funcs funcs powered ;;
  global <- gets configuring_global ;;
  if global : bool then
    enum_map <- gets vsync_mode_combobox_enum_map ;;
    index <- gets (fun st => QComboBox.currentIndex (vsync_mode_combobox st)) ;;
    mode <- vector_at enum_map index ;;
    let vsync_mode := PresentModeToSetting mode in
    modify (fun st => set_values
      (Settings.set_vsync_mode
         (Settings.SetValue vsync_mode (Settings.vsync_mode (values st)))
         (values st)) st)
  else ret tt.

End MemberFunctions.

(** ** Notions used to state the properties *)

Section Notions.

Context `{Declarations}.

(** A present mode is offered under a backend when its display name there
    is not empty. *)
Definition nameable (backend : Z) (mode : VkPresentModeKHR) : bool :=
  negb (isEmpty (TranslateVSyncMode mode backend)).

(** The mode selected before a rebuild, as the rebuild determines it: the
    persisted setting converted when the box has no current item, else the
    entry of the enum map at the current index, if there is one. *)
Definition previous_mode (st : State) : option VkPresentModeKHR :=
  let current_index := QComboBox.currentIndex (vsync_mode_combobox st) in
  if current_index =? -1
  then Some (VSyncSettingToMode (Settings.GetValue (Settings.vsync_mode (values st))))
  else if 0 <=? current_index
       then nth_error (vsync_mode_combobox_enum_map st) (Z.to_nat current_index)
       else None.

(** The source list of a rebuild: the present modes of the device current
    in the device box under the Vulkan backend, if that device exists,
    else the default list. *)
Definition source_list (backend : Z) (st : State) : option (list VkPresentModeKHR) :=
  if backend =? RendererBackend_Vulkan
  then let device := QComboBox.currentIndex (vulkan_device_combobox st) in
       if 0 <=? device
       then nth_error (device_present_modes st) (Z.to_nat device)
       else None
  else Some default_present_modes.

(** The calls the loop of a rebuild makes on the VSync box for the present
    modes still to visit, [index] being the loop's counter. *)
Fixpoint loop_calls (backend : Z) (current_mode : VkPresentModeKHR)
         (present_modes : list VkPresentModeKHR) (index : Z) : list QComboBox.call :=
  match present_modes with
  | [] => []
  | present_mode :: rest =>
    let mode_name := TranslateVSyncMode present_mode backend in
    if isEmpty mode_name then loop_calls backend current_mode rest index
    else
      (QComboBox.call_insertItem index mode_name ::
       (if present_mode =? current_mode
        then [QComboBox.call_setCurrentIndex index] else []) ++
       loop_calls backend current_mode rest (index + 1))%list
  end.

(** The use-global flag of the renderer-backend setting is in step with
    the API box: in per-profile configuration it is set exactly when the
    box shows the use-global entry.  This is how the backend query leaves
    the flag, and with it [UpdateAPILayout], which the constructor and the
    slot of the API box run before anything else reads the backend. *)
Definition backend_flag_in_step (st : State) : Prop :=
  configuring_global st = false ->
  Settings.use_global (Settings.renderer_backend (values st))
  = (QComboBox.currentIndex (api_combobox st) =? USE_GLOBAL_INDEX).

End Notions.

(** The index of the last [setCurrentIndex] among calls, if any: the
    selection those calls make. *)
Fixpoint selection_made (calls : list QComboBox.call) : option Z :=
  match calls with
  | [] => None
  | c :: rest =>
    match selection_made rest with
    | Some index => Some index
    | None =>
      match c with
      | QComboBox.call_setCurrentIndex index => Some index
      | _ => None
      end
    end
  end.

(** The calls made on the VSync box between two states of one run. *)
Definition calls_between (st st' : State) : list QComboBox.call :=
  skipn (List.length (vsync_mode_combobox_calls st)) (vsync_mode_combobox_calls st').

(** Everything but the settings store and the VSync box with its enum map
    is the same in two states. *)
Definition same_apart_from_vsync_and_values (st st' : State) : Prop :=
  configuring_global st' = configuring_global st /\
  powered_on st' = powered_on st /\
  apply_funcs st' = apply_funcs st /\
  api_combobox st' = api_combobox st /\
  vulkan_device_combobox st' = vulkan_device_combobox st /\
  device_present_modes st' = device_present_modes st /\
  vulkan_device st' = vulkan_device st /\
  shader_backend st' = shader_backend st.

(** Everything but the settings store and the two stored selections is the
    same in two states. *)
Definition same_apart_from_selections_and_values (st st' : State) : Prop :=
  configuring_global st' = configuring_global st /\
  powered_on st' = powered_on st /\
  apply_funcs st' = apply_funcs st /\
  api_combobox st' = api_combobox st /\
  vulkan_device_combobox st' = vulkan_device_combobox st /\
  vsync_mode_combobox st' = vsync_mode_combobox st /\
  vsync_mode_combobox_calls st' = vsync_mode_combobox_calls st /\
  vsync_mode_combobox_enum_map st' = vsync_mode_combobox_enum_map st /\
  device_present_modes st' = device_present_modes st.

(** The settings after the apply functions have run in turn. *)
Definition applied (funcs : list (bool -> Settings.Values -> Settings.Values))
           (powered : bool) (v : Settings.Values) : Settings.Values :=
  fold_left (fun settings func => func powered settings) funcs v.

(** The settings store is the same up to the use-global flag of the
    renderer backend: every value, global or override, and every other flag
    is kept. *)
Definition same_values_up_to_backend_flag (v v' : Settings.Values) : Prop :=
  Settings.value (Settings.renderer_backend v') = Settings.value (Settings.renderer_backend v) /\
  Settings.custom (Settings.renderer_backend v') = Settings.custom (Settings.renderer_backend v) /\
  Settings.vulkan_device v' = Settings.vulkan_device v /\
  Settings.shader_backend v' = Settings.shader_backend v /\
  Settings.vsync_mode v' = Settings.vsync_mode v.

(** ** Concrete states

    States of the tab under [declarations_in_order], on which the model is
    run: a machine with one device offering Immediate, Mailbox and FIFO. *)

Definition combobox (its : list QString) (index : Z) (with_placeholder : bool) : QComboBox.t :=
  {| QComboBox.enabled := true;
     QComboBox.items := its;
     QComboBox.currentIndex := index;
     QComboBox.placeholder := with_placeholder |}.

Definition setting (global override : Z) (flag : bool) : Settings.SwitchableSetting :=
  {| Settings.value := global; Settings.custom := override; Settings.use_global := flag |}.

(** The settings store: backend Vulkan globally and OpenGL as override,
    device 0, VSync FIFO; [flag] is the use-global flag of every setting. *)
Definition sample_values (flag : bool) : Settings.Values :=
  {| Settings.renderer_backend := setting 1 0 flag;
     Settings.vulkan_device := setting 0 0 flag;
     Settings.shader_backend := setting 0 0 flag;
     Settings.vsync_mode := setting 2 2 flag |}.

Definition three_modes : list VkPresentModeKHR :=
  [VK_PRESENT_MODE_IMMEDIATE_KHR; VK_PRESENT_MODE_MAILBOX_KHR; VK_PRESENT_MODE_FIFO_KHR].

Definition three_names : list QString :=
  ["Immediate (VSync Off)"; "Mailbox (Recommended)"; "FIFO (VSync On)"]%string.

(** Global configuration; the API box shows [api]; the VSync box offers the
    three modes of the device with the entry [selected] current. *)
Definition global_state (api selected : Z) (with_placeholder : bool) : State :=
  {| configuring_global := true;
     values := sample_values true;
     powered_on := false;
     apply_funcs := [];
     api_combobox := combobox ["OpenGL"; "Vulkan"; "Null"]%string api false;
     vulkan_device_combobox := combobox ["GPU 0"%string] 0 false;
     vsync_mode_combobox := combobox three_names selected with_placeholder;
     vsync_mode_combobox_calls := [];
     vsync_mode_combobox_enum_map := three_modes;
     device_present_modes := [three_modes];
     vulkan_device := 0;
     shader_backend := 0 |}.

(** Per-profile configuration: the API box has the use-global entry at
    index 0 and a separator before the backends; here it shows the
    use-global entry while the renderer-backend setting still has its
    override in force. *)
Definition profile_state : State :=
  {| configuring_global := false;
     values := sample_values false;
     powered_on := false;
     apply_funcs := [];
     api_combobox :=
       combobox ["Use global"; "-"; "OpenGL"; "Vulkan"; "Null"]%string 0 false;
     vulkan_device_combobox := combobox ["GPU 0"%string] 0 false;
     vsync_mode_combobox := combobox three_names 1 false;
     vsync_mode_combobox_calls := [];
     vsync_mode_combobox_enum_map := three_modes;
     device_present_modes := [three_modes];
     vulkan_device := 0;
     shader_backend := 0 |}.

(** Per-profile configuration with the API box at Vulkan, past the
    use-global entry and the separator, the overrides being in force: the
    use-global flag of the renderer backend is in step with the box. *)
Definition profile_vulkan_state : State :=
  {| configuring_global := false;
     values := sample_values false;
     powered_on := false;
     apply_funcs := [];
     api_combobox :=
       combobox ["Use global"; "-"; "OpenGL"; "Vulkan"; "Null"]%string 3 false;
     vulkan_device_combobox := combobox ["GPU 0"%string] 0 false;
     vsync_mode_combobox := combobox three_names 1 false;
     vsync_mode_combobox_calls := [];
     vsync_mode_combobox_enum_map := three_modes;
     device_present_modes := [three_modes];
     vulkan_device := 0;
     shader_backend := 0 |}.

(** A machine without a Vulkan device: the device box is empty and has no
    current item, the backend chosen is Vulkan. *)
Definition no_device_state : State :=
  {| configuring_global := true;
     values := sample_values true;
     powered_on := false;
     apply_funcs := [];
     api_combobox := combobox ["OpenGL"; "Vulkan"; "Null"]%string 1 false;
     vulkan_device_combobox := combobox [] (-1) false;
     vsync_mode_combobox := combobox [] (-1) false;
     vsync_mode_combobox_calls := [];
     vsync_mode_combobox_enum_map := [];
     device_present_modes := [];
     vulkan_device := 0;
     shader_backend := 0 |}.

(** The global state with one apply function, Mailbox being selected. *)
Definition commit_state (funcs : list (bool -> Settings.Values -> Settings.Values)) : State :=
  {| configuring_global := true;
     values := sample_values true;
     powered_on := false;
     apply_funcs := funcs;
     api_combobox := combobox ["OpenGL"; "Vulkan"; "Null"]%string 1 false;
     vulkan_device_combobox := combobox ["GPU 0"%string] 0 false;
     vsync_mode_combobox := combobox three_names 1 false;
     vsync_mode_combobox_calls := [];
     vsync_mode_combobox_enum_map := three_modes;
     device_present_modes := [three_modes];
     vulkan_device := 0;
     shader_backend := 0 |}.

(** An apply function as [CreateWidget] builds them: it writes a setting
    from its widget, here the shader backend. *)
Definition write_shader_backend (powered : bool) (v : Settings.Values) : Settings.Values :=
  {| Settings.renderer_backend := Settings.renderer_backend v;
     Settings.vulkan_device := Settings.vulkan_device v;
     Settings.shader_backend := Settings.SetValue 1 (Settings.shader_backend v);
     Settings.vsync_mode := Settings.vsync_mode v |}.

(** One run after another, as the signal handlers of the tab chain them. *)
Definition and_then {A B : Type} (o : outcome A) (k : State -> outcome B) : outcome B :=
  match o with
  | Returns _ st => k st
  | Undefined => Undefined
  end.

(** * The rest of the tab

    The functions of the file the rebuild and the commit work with: the
    seeding of the VSync selection in the constructor, the retrieval of the
    devices, the filling of the device box, [UpdateAPILayout] and the
    signal handlers.  The constructor itself follows the wiring of the
    widgets, further down. *)

(** ** Seeding the VSync selection (constructor, lines 100-113) *)

(** The search loop: the counter where the loop breaks, or the number of
    entries visited when it does not. *)
Fixpoint seed_loop (modes : list VkPresentModeKHR) (vsync_mode : VkPresentModeKHR)
         (index : Z) : Z :=
  match modes with
  | [] => index
  | mode :: rest =>
    if mode =? vsync_mode then index else seed_loop rest vsync_mode (index + 1)
  end.

Section Seeding.

Context `{Declarations}.

Definition seed_vsync_selection : M unit :=
  global <- gets configuring_global ;;
  if global : bool then
    vsync_mode_setting <- gets (fun st => Settings.GetValue (Settings.vsync_mode (values st))) ;;
    let vsync_mode := VSyncSettingToMode vsync_mode_setting in
    enum_map <- gets vsync_mode_combobox_enum_map ;;
    let index := seed_loop enum_map vsync_mode 0 in
    if index <? Z.of_nat (List.length enum_map)
    then modify (call_vsync_mode_combobox (QComboBox.call_setCurrentIndex index))
    else ret tt
  else ret tt.

End Seeding.

(** ** Integers and settings as [UpdateAPILayout] reads them *)

(** The conversion to [int] of a 32-bit value, [static_cast<int>] or
    implicit: the representative of the value in the range of [int]. *)
Definition to_int (z : Z) : Z := (z + 2 ^ 31) mod 2 ^ 32 - 2 ^ 31.

(** Modelled from the spec: [SwitchableSetting::GetValue(bool need_global)],
    declared with the class in [common/settings.h], which is not among the
    sources at hand.  The global value is read when the setting is global
    or when the caller asks for the global value, else the override. *)
Definition GetValue_global (need_global : bool) (s : Settings.SwitchableSetting) : Z :=
  if Settings.use_global s || need_global then Settings.value s else Settings.custom s.

(** ** Widgets and device records *)

Module QWidget.

(** A widget as far as the source uses it: the flags [setEnabled] and
    [setVisible] set. *)
Record t : Type := {
  enabled : bool;
  visible : bool
}.

Definition setEnabled (b : bool) (w : t) : t :=
  {| enabled := b; visible := visible w |}.

Definition setVisible (b : bool) (w : t) : t :=
  {| enabled := enabled w; visible := b |}.

End QWidget.

(** [QComboBox::addItem]: the item is inserted after the items present. *)
Definition addItem (text : QString) (cb : QComboBox.t) : QComboBox.t :=
  QComboBox.insertItem (QComboBox.count cb) text cb.

(** [VkDeviceInfo::Record], by the members the source reads. *)
Record DeviceRecord : Type := {
  name : string;
  vsync_support : list VkPresentModeKHR;
  has_broken_compute : bool
}.

(** The tab: the state of the rebuild and commit together with the members
    the other functions use.  [expose_compute_option_calls] counts the
    calls of the callback [expose_compute_option]; [has_broken_vulkan] is
    [UISettings::values.has_broken_vulkan]. *)
Record Tab : Type := {
  core : State;
  records : list DeviceRecord;
  vulkan_devices : list QString;
  expose_compute_option_calls : nat;
  shader_backend_combobox : QComboBox.t;
  vulkan_device_widget : QWidget.t;
  shader_backend_widget : QWidget.t;
  api_widget : QWidget.t;
  has_broken_vulkan : bool
}.

Definition set_core (st : State) (t : Tab) : Tab :=
  {| core := st;
     records := records t;
     vulkan_devices := vulkan_devices t;
     expose_compute_option_calls := expose_compute_option_calls t;
     shader_backend_combobox := shader_backend_combobox t;
     vulkan_device_widget := vulkan_device_widget t;
     shader_backend_widget := shader_backend_widget t;
     api_widget := api_widget t;
     has_broken_vulkan := has_broken_vulkan t |}.

Definition set_vulkan_devices (devices : list QString) (t : Tab) : Tab :=
  {| core := core t;
     records := records t;
     vulkan_devices := devices;
     expose_compute_option_calls := expose_compute_option_calls t;
     shader_backend_combobox := shader_backend_combobox t;
     vulkan_device_widget := vulkan_device_widget t;
     shader_backend_widget := shader_backend_widget t;
     api_widget := api_widget t;
     has_broken_vulkan := has_broken_vulkan t |}.

Definition expose_compute_option (t : Tab) : Tab :=
  {| core := core t;
     records := records t;
     vulkan_devices := vulkan_devices t;
     expose_compute_option_calls := S (expose_compute_option_calls t);
     shader_backend_combobox := shader_backend_combobox t;
     vulkan_device_widget := vulkan_device_widget t;
     shader_backend_widget := shader_backend_widget t;
     api_widget := api_widget t;
     has_broken_vulkan := has_broken_vulkan t |}.

Definition set_shader_backend_combobox (cb : QComboBox.t) (t : Tab) : Tab :=
  {| core := core t;
     records := records t;
     vulkan_devices := vulkan_devices t;
     expose_compute_option_calls := expose_compute_option_calls t;
     shader_backend_combobox := cb;
     vulkan_device_widget := vulkan_device_widget t;
     shader_backend_widget := shader_backend_widget t;
     api_widget := api_widget t;
     has_broken_vulkan := has_broken_vulkan t |}.

Definition set_vulkan_device_widget (w : QWidget.t) (t : Tab) : Tab :=
  {| core := core t;
     records := records t;
     vulkan_devices := vulkan_devices t;
     expose_compute_option_calls := expose_compute_option_calls t;
     shader_backend_combobox := shader_backend_combobox t;
     vulkan_device_widget := w;
     shader_backend_widget := shader_backend_widget t;
     api_widget := api_widget t;
     has_broken_vulkan := has_broken_vulkan t |}.

Definition set_shader_backend_widget (w : QWidget.t) (t : Tab) : Tab :=
  {| core := core t;
     records := records t;
     vulkan_devices := vulkan_devices t;
     expose_compute_option_calls := expose_compute_option_calls t;
     shader_backend_combobox := shader_backend_combobox t;
     vulkan_device_widget := vulkan_device_widget t;
     shader_backend_widget := w;
     api_widget := api_widget t;
     has_broken_vulkan := has_broken_vulkan t |}.

Definition set_api_widget (w : QWidget.t) (t : Tab) : Tab :=
  {| core := core t;
     records := records t;
     vulkan_devices := vulkan_devices t;
     expose_compute_option_calls := expose_compute_option_calls t;
     shader_backend_combobox := shader_backend_combobox t;
     vulkan_device_widget := vulkan_device_widget t;
     shader_backend_widget := shader_backend_widget t;
     api_widget := w;
     has_broken_vulkan := has_broken_vulkan t |}.

Definition set_vulkan_device_combobox (cb : QComboBox.t) (st : State) : State :=
  {| configuring_global := configuring_global st;
     values := values st;
     powered_on := powered_on st;
     apply_funcs := apply_funcs st;
     api_combobox := api_combobox st;
     vulkan_device_combobox := cb;
     vsync_mode_combobox := vsync_mode_combobox st;
     vsync_mode_combobox_calls := vsync_mode_combobox_calls st;
     vsync_mode_combobox_enum_map := vsync_mode_combobox_enum_map st;
     device_present_modes := device_present_modes st;
     vulkan_device := vulkan_device st;
     shader_backend := shader_backend st |}.

Definition set_api_combobox (cb : QComboBox.t) (st : State) : State :=
  {| configuring_global := configuring_global st;
     values := values st;
     powered_on := powered_on st;
     apply_funcs := apply_funcs st;
     api_combobox := cb;
     vulkan_device_combobox := vulkan_device_combobox st;
     vsync_mode_combobox := vsync_mode_combobox st;
     vsync_mode_combobox_calls := vsync_mode_combobox_calls st;
     vsync_mode_combobox_enum_map := vsync_mode_combobox_enum_map st;
     device_present_modes := device_present_modes st;
     vulkan_device := vulkan_device st;
     shader_backend := shader_backend st |}.

Definition set_device_present_modes (modes : list (list VkPresentModeKHR)) (st : State) : State :=
  {| configuring_global := configuring_global st;
     values := values st;
     powered_on := powered_on st;
     apply_funcs := apply_funcs st;
     api_combobox := api_combobox st;
     vulkan_device_combobox := vulkan_device_combobox st;
     vsync_mode_combobox := vsync_mode_combobox st;
     vsync_mode_combobox_calls := vsync_mode_combobox_calls st;
     vsync_mode_combobox_enum_map := vsync_mode_combobox_enum_map st;
     device_present_modes := modes;
     vulkan_device := vulkan_device st;
     shader_backend := shader_backend st |}.

(** ** The monad of the tab's member functions *)

Inductive tab_outcome (A : Type) : Type :=
| TabReturns (a : A) (t : Tab)
| TabUndefined.

Arguments TabUndefined {A}.

Definition MT (A : Type) : Type := Tab -> tab_outcome A.

Definition tret {A : Type} (a : A) : MT A := fun t => TabReturns a t.

Definition tbind {A B : Type} (m : MT A) (k : A -> MT B) : MT B :=
  fun t =>
    match m t with
    | TabReturns a t' => k a t'
    | TabUndefined => TabUndefined
    end.

Definition tgets {A : Type} (f : Tab -> A) : MT A := fun t => TabReturns (f t) t.

Definition tmodify (f : Tab -> Tab) : MT unit := fun t => TabReturns tt (f t).

(** A member function of the rebuild's state run on the tab. *)
Definition lift {A : Type} (m : M A) : MT A :=
  fun t =>
    match m (core t) with
    | Returns a st => TabReturns a (set_core st t)
    | Undefined => TabUndefined
    end.

(** A change of the rebuild's state made on the tab. *)
Definition on_core (f : State -> State) : MT unit :=
  tmodify (fun t => set_core (f (core t)) t).

Declare Scope tab_scope.
Delimit Scope tab_scope with tab.
Notation "x <- m ;; k" := (tbind m (fun x => k))
  (at level 61, m at next level, right associativity) : tab_scope.
Notation "m ;; k" := (tbind m (fun _ => k))
  (at level 61, right associativity) : tab_scope.

Section TabFunctions.

Context `{Declarations}.

(** [QString::fromStdString], the toolkit's decoding of a device name. *)
Variable fromStdString : string -> QString.

Local Open Scope tab_scope.

(** The loop of [RetrieveVulkanDevices] over the records still to visit. *)
Fixpoint retrieve_loop (rest : list DeviceRecord) : MT unit :=
  match rest with
  | [] => tret tt
  | record :: rest' =>
    tmodify (fun t => set_vulkan_devices
               (vulkan_devices t ++ [fromStdString (name record)])%list t) ;;
    on_core (fun st => set_device_present_modes
               (device_present_modes st ++ [vsync_support record])%list st) ;;
    (if has_broken_compute record then tmodify expose_compute_option else tret tt) ;;
    retrieve_loop rest'
  end.

(** [ConfigureGraphics::RetrieveVulkanDevices]. *)
Definition RetrieveVulkanDevices : MT unit :=
  tmodify (set_vulkan_devices []) ;;
  on_core (set_device_present_modes []) ;;
  all <- tgets records ;;
  retrieve_loop all.

(** The loop of the constructor over [vulkan_devices] (lines 88-90). *)
Fixpoint add_devices (devices : list QString) : MT unit :=
  match devices with
  | [] => tret tt
  | device :: rest =>
    on_core (fun st => set_vulkan_device_combobox
               (addItem device (vulkan_device_combobox st)) st) ;;
    add_devices rest
  end.

Definition fill_device_combobox : MT unit :=
  devices <- tgets vulkan_devices ;;
  add_devices devices.

(** [ConfigureGraphics::UpdateAPILayout]. *)
Definition UpdateAPILayout : MT unit :=
  global <- tgets (fun t => configuring_global (core t)) ;;
  index <- tgets (fun t => QComboBox.currentIndex (api_combobox (core t))) ;;
  (if negb global && (index =? USE_GLOBAL_INDEX) then
     on_core (fun st => set_vulkan_device
                (GetValue_global true (Settings.vulkan_device (values st))) st) ;;
     on_core (fun st => set_shader_backend
                (GetValue_global true (Settings.shader_backend (values st))) st) ;;
     tmodify (fun t => set_vulkan_device_widget
                (QWidget.setEnabled false (vulkan_device_widget t)) t) ;;
     tmodify (fun t => set_shader_backend_widget
                (QWidget.setEnabled false (shader_backend_widget t)) t)
   else
     on_core (fun st => set_vulkan_device
                (Settings.GetValue (Settings.vulkan_device (values st))) st) ;;
     on_core (fun st => set_shader_backend
                (Settings.GetValue (Settings.shader_backend (values st))) st) ;;
     tmodify (fun t => set_vulkan_device_widget
                (QWidget.setEnabled true (vulkan_device_widget t)) t) ;;
     tmodify (fun t => set_shader_backend_widget
                (QWidget.setEnabled true (shader_backend_widget t)) t)) ;;
  backend <- lift GetCurrentGraphicsBackend ;;
  if backend =? RendererBackend_OpenGL then
    tmodify (fun t => set_shader_backend_combobox
               (QComboBox.setCurrentIndex (to_int (shader_backend (core t)))
                                          (shader_backend_combobox t)) t) ;;
    tmodify (fun t => set_vulkan_device_widget
               (QWidget.setVisible false (vulkan_device_widget t)) t) ;;
    tmodify (fun t => set_shader_backend_widget
               (QWidget.setVisible true (shader_backend_widget t)) t)
  else if backend =? RendererBackend_Vulkan then
    device <- tgets (fun t => vulkan_device (core t)) ;;
    count <- tgets (fun t => QComboBox.count (vulkan_device_combobox (core t))) ;;
    (if to_int device <? count
     then on_core (fun st => set_vulkan_device_combobox
                     (QComboBox.setCurrentIndex (to_int device)
                                                (vulkan_device_combobox st)) st)
     else tret tt) ;;
    tmodify (fun t => set_vulkan_device_widget
               (QWidget.setVisible true (vulkan_device_widget t)) t) ;;
    tmodify (fun t => set_shader_backend_widget
               (QWidget.setVisible false (shader_backend_widget t)) t)
  else if backend =? RendererBackend_Null then
    tmodify (fun t => set_vulkan_device_widget
               (QWidget.setVisible false (vulkan_device_widget t)) t) ;;
    tmodify (fun t => set_shader_backend_widget
               (QWidget.setVisible false (shader_backend_widget t)) t)
  else tret tt.

(** The slot of [api_combobox]'s [currentIndexChanged] (lines 115-118). *)
Definition api_combobox_currentIndexChanged : MT unit :=
  UpdateAPILayout ;;
  lift PopulateVSyncModeSelection.

(** The slot of [vulkan_device_combobox]'s [activated] (lines 119-123). *)
Definition vulkan_device_combobox_activated (device : Z) : MT unit :=
  lift (UpdateDeviceSelection device) ;;
  lift PopulateVSyncModeSelection.

(** The slot of [shader_backend_combobox]'s [activated] (lines 124-125). *)
Definition shader_backend_combobox_activated (backend : Z) : MT unit :=
  lift (UpdateShaderBackendSelection backend).

(** The end of the constructor (lines 135-138). *)
Definition restrict_api_widgets : MT unit :=
  broken <- tgets has_broken_vulkan ;;
  on_core (fun st => set_api_combobox
             (QComboBox.setEnabled
                (negb broken && QComboBox.enabled (api_combobox st))
                (api_combobox st)) st) ;;
  global <- tgets (fun t => configuring_global (core t)) ;;
  tmodify (fun t => set_api_widget
             (QWidget.setEnabled
                ((negb broken || global) && QWidget.enabled (api_widget t))
                (api_widget t)) t).

End TabFunctions.

(** Whether the API box shows the use-global entry of a per-profile
    configuration, and the device and the shader backend [UpdateAPILayout]
    stores in the members: the global values at that entry, else the values
    in force. *)
Definition at_use_global_entry `{Declarations} (st : State) : bool :=
  negb (configuring_global st) &&
  (QComboBox.currentIndex (api_combobox st) =? USE_GLOBAL_INDEX).

Definition layout_device `{Declarations} (st : State) : Z :=
  if at_use_global_entry st
  then GetValue_global true (Settings.vulkan_device (values st))
  else Settings.GetValue (Settings.vulkan_device (values st)).

Definition layout_shader `{Declarations} (st : State) : Z :=
  if at_use_global_entry st
  then GetValue_global true (Settings.shader_backend (values st))
  else Settings.GetValue (Settings.shader_backend (values st)).

(** The state the tab's run leaves, when it returns. *)
Definition tab_after {A : Type} (o : tab_outcome A) : option Tab :=
  match o with
  | TabReturns _ t => Some t
  | TabUndefined => None
  end.

(** The box and the enum map of the VSync selection are in step: one item
    per entry, and the current index at an entry or at -1. *)
Definition in_step (st : State) : Prop :=
  QComboBox.count (vsync_mode_combobox st)
    = Z.of_nat (List.length (vsync_mode_combobox_enum_map st)) /\
  -1 <= QComboBox.currentIndex (vsync_mode_combobox st)
     < Z.of_nat (List.length (vsync_mode_combobox_enum_map st)).

(** Membership in the four mapped present modes, as a test. *)
Definition is_mapped (mode : VkPresentModeKHR) : bool :=
  existsb (Z.eqb mode) mapped_present_modes.

(** ** Wiring the widgets ([SetConfiguration])

    The pointers, layouts and holding containers [SetConfiguration] fills.
    A pointer is [None] when null and else names its widget; a layout is
    the sequence of widgets added to it.  A setting of the linkage is taken
    by the three members the function reads. *)

Definition pointer : Type := option nat.

Record BasicSetting : Type := {
  Id : Z;
  GetLabel : string;
  IsEnum : bool
}.

(** What a call of [ConfigurationShared::CreateWidget] gives: the widget
    and the extra pointer of the returned pair, and the functions the call
    has pushed on [apply_funcs]. *)
Record Created : Type := {
  created_widget : pointer;
  created_extra : pointer;
  created_apply_funcs : list (bool -> Settings.Values -> Settings.Values)
}.

(** [std::map<std::string, QWidget*>]: the entries in the order of their
    keys, which is the order of iteration. *)
Definition label_map : Type := list (string * nat).

(** [m[label] = widget]. *)
Fixpoint assign (label : string) (widget : nat) (m : label_map) : label_map :=
  match m with
  | [] => [(label, widget)]
  | (key, held) :: rest =>
    match String.compare label key with
    | Lt => (label, widget) :: m
    | Eq => (label, widget) :: rest
    | Gt => (key, held) :: assign label widget rest
    end
  end.

(** [m.find(label)]. *)
Fixpoint lookup (label : string) (m : label_map) : option nat :=
  match m with
  | [] => None
  | (key, held) :: rest =>
    if String.eqb label key then Some held else lookup label rest
  end.

Record Wiring : Type := {
  api_layout : list nat;
  graphics_layout : list nat;
  wired_apply_funcs : list (bool -> Settings.Values -> Settings.Values);
  api_combobox_pointer : pointer;
  vulkan_device_combobox_pointer : pointer;
  vulkan_device_widget_pointer : pointer;
  shader_backend_combobox_pointer : pointer;
  shader_backend_widget_pointer : pointer;
  vsync_mode_combobox_pointer : pointer
}.

(** The locals [hold_graphics], by its two keys, and [hold_api]. *)
Record Held : Type := {
  hold_graphics_false : label_map;
  hold_graphics_true : label_map;
  hold_api : list nat
}.

Definition api_layout_addWidget (widget : nat) (w : Wiring) : Wiring :=
  {| api_layout := (api_layout w ++ [widget])%list;
     graphics_layout := graphics_layout w;
     wired_apply_funcs := wired_apply_funcs w;
     api_combobox_pointer := api_combobox_pointer w;
     vulkan_device_combobox_pointer := vulkan_device_combobox_pointer w;
     vulkan_device_widget_pointer := vulkan_device_widget_pointer w;
     shader_backend_combobox_pointer := shader_backend_combobox_pointer w;
     shader_backend_widget_pointer := shader_backend_widget_pointer w;
     vsync_mode_combobox_pointer := vsync_mode_combobox_pointer w |}.

Definition graphics_layout_addWidget (widget : nat) (w : Wiring) : Wiring :=
  {| api_layout := api_layout w;
     graphics_layout := (graphics_layout w ++ [widget])%list;
     wired_apply_funcs := wired_apply_funcs w;
     api_combobox_pointer := api_combobox_pointer w;
     vulkan_device_combobox_pointer := vulkan_device_combobox_pointer w;
     vulkan_device_widget_pointer := vulkan_device_widget_pointer w;
     shader_backend_combobox_pointer := shader_backend_combobox_pointer w;
     shader_backend_widget_pointer := shader_backend_widget_pointer w;
     vsync_mode_combobox_pointer := vsync_mode_combobox_pointer w |}.

Definition push_apply_funcs (funcs : list (bool -> Settings.Values -> Settings.Values))
           (w : Wiring) : Wiring :=
  {| api_layout := api_layout w;
     graphics_layout := graphics_layout w;
     wired_apply_funcs := (wired_apply_funcs w ++ funcs)%list;
     api_combobox_pointer := api_combobox_pointer w;
     vulkan_device_combobox_pointer := vulkan_device_combobox_pointer w;
     vulkan_device_widget_pointer := vulkan_device_widget_pointer w;
     shader_backend_combobox_pointer := shader_backend_combobox_pointer w;
     shader_backend_widget_pointer := shader_backend_widget_pointer w;
     vsync_mode_combobox_pointer := vsync_mode_combobox_pointer w |}.

Definition set_api_combobox_pointer (p : pointer) (w : Wiring) : Wiring :=
  {| api_layout := api_layout w;
     graphics_layout := graphics_layout w;
     wired_apply_funcs := wired_apply_funcs w;
     api_combobox_pointer := p;
     vulkan_device_combobox_pointer := vulkan_device_combobox_pointer w;
     vulkan_device_widget_pointer := vulkan_device_widget_pointer w;
     shader_backend_combobox_pointer := shader_backend_combobox_pointer w;
     shader_backend_widget_pointer := shader_backend_widget_pointer w;
     vsync_mode_combobox_pointer := vsync_mode_combobox_pointer w |}.

Definition set_vulkan_device_pointers (combobox widget : pointer) (w : Wiring) : Wiring :=
  {| api_layout := api_layout w;
     graphics_layout := graphics_layout w;
     wired_apply_funcs := wired_apply_funcs w;
     api_combobox_pointer := api_combobox_pointer w;
     vulkan_device_combobox_pointer := combobox;
     vulkan_device_widget_pointer := widget;
     shader_backend_combobox_pointer := shader_backend_combobox_pointer w;
     shader_backend_widget_pointer := shader_backend_widget_pointer w;
     vsync_mode_combobox_pointer := vsync_mode_combobox_pointer w |}.

Definition set_shader_backend_pointers (combobox widget : pointer) (w : Wiring) : Wiring :=
  {| api_layout := api_layout w;
     graphics_layout := graphics_layout w;
     wired_apply_funcs := wired_apply_funcs w;
     api_combobox_pointer := api_combobox_pointer w;
     vulkan_device_combobox_pointer := vulkan_device_combobox_pointer w;
     vulkan_device_widget_pointer := vulkan_device_widget_pointer w;
     shader_backend_combobox_pointer := combobox;
     shader_backend_widget_pointer := widget;
     vsync_mode_combobox_pointer := vsync_mode_combobox_pointer w |}.

Definition set_vsync_mode_combobox_pointer (p : pointer) (w : Wiring) : Wiring :=
  {| api_layout := api_layout w;
     graphics_layout := graphics_layout w;
     wired_apply_funcs := wired_apply_funcs w;
     api_combobox_pointer := api_combobox_pointer w;
     vulkan_device_combobox_pointer := vulkan_device_combobox_pointer w;
     vulkan_device_widget_pointer := vulkan_device_widget_pointer w;
     shader_backend_combobox_pointer := shader_backend_combobox_pointer w;
     shader_backend_widget_pointer := shader_backend_widget_pointer w;
     vsync_mode_combobox_pointer := p |}.

(** [hold_graphics[is_enum][label] = widget]. *)
Definition hold_graphics_assign (is_enum : bool) (label : string) (widget : nat)
           (h : Held) : Held :=
  if is_enum
  then {| hold_graphics_false := hold_graphics_false h;
          hold_graphics_true := assign label widget (hold_graphics_true h);
          hold_api := hold_api h |}
  else {| hold_graphics_false := assign label widget (hold_graphics_false h);
          hold_graphics_true := hold_graphics_true h;
          hold_api := hold_api h |}.

(** [hold_api.push_front(widget)]. *)
Definition hold_api_push_front (widget : nat) (h : Held) : Held :=
  {| hold_graphics_false := hold_graphics_false h;
     hold_graphics_true := hold_graphics_true h;
     hold_api := widget :: hold_api h |}.

Section Wiring.

(** The identities [Settings::values.vulkan_device.Id()],
    [shader_backend.Id()] and [vsync_mode.Id()], and
    [ConfigurationShared::CreateWidget] by the setting, the runtime lock
    and whether the call asks for an unmanaged combobox: all declared
    outside the sources at hand. *)
Variables vulkan_device_Id shader_backend_Id vsync_mode_Id : Z.
Variable CreateWidget : BasicSetting -> bool -> bool -> Created.

(** The lambda at the head of the loop body. *)
Definition create_for (setting : BasicSetting) (runtime_lock : bool) : Created :=
  if (Id setting =? vulkan_device_Id) || (Id setting =? shader_backend_Id)
     || (Id setting =? vsync_mode_Id)
  then CreateWidget setting runtime_lock true
  else CreateWidget setting runtime_lock false.

(** The body of the first loop of [SetConfiguration]. *)
Definition wire_setting (runtime_lock : bool) (state : Wiring * Held)
           (setting : BasicSetting) : Wiring * Held :=
  let (w0, h) := state in
  let setting_label := GetLabel setting in
  let created := create_for setting runtime_lock in
  let w := push_apply_funcs (created_apply_funcs created) w0 in
  match created_widget created with
  | None => (w, h)
  | Some widget =>
    if Id setting =? vulkan_device_Id then
      (set_api_combobox_pointer (created_extra created) (api_layout_addWidget widget w), h)
    else if Id setting =? vulkan_device_Id then
      (set_vulkan_device_pointers (created_extra created) (Some widget) w,
       hold_api_push_front widget h)
    else if Id setting =? shader_backend_Id then
      (set_shader_backend_pointers (created_extra created) (Some widget) w,
       hold_api_push_front widget h)
    else if Id setting =? vsync_mode_Id then
      (set_vsync_mode_combobox_pointer (created_extra created) w,
       hold_graphics_assign (IsEnum setting) setting_label widget h)
    else
      (w, hold_graphics_assign (IsEnum setting) setting_label widget h)
  end.

(** [ConfigureGraphics::SetConfiguration], over the settings of the
    renderer category; [powered] is [system.IsPoweredOn()]. *)
Definition SetConfiguration (settings : list BasicSetting) (powered : bool)
           (w : Wiring) : Wiring :=
  let runtime_lock := negb powered in
  let hold := {| hold_graphics_false := []; hold_graphics_true := []; hold_api := [] |} in
  let (w1, h) := fold_left (wire_setting runtime_lock) settings (w, hold) in
  let w2 := fold_left (fun layout entry => graphics_layout_addWidget (snd entry) layout)
                      (hold_graphics_false h ++ hold_graphics_true h)%list w1 in
  fold_left (fun layout widget => api_layout_addWidget widget layout) (hold_api h) w2.

(** The settings whose widget goes through [hold_graphics]: those with a
    widget that are neither the device nor the shader-backend setting. *)
Definition held_in_graphics (runtime_lock : bool) (setting : BasicSetting) : bool :=
  match created_widget (create_for setting runtime_lock) with
  | None => false
  | Some _ =>
    negb (Id setting =? vulkan_device_Id) && negb (Id setting =? shader_backend_Id)
  end.

(** The widget [hold_graphics] ends with under a key and label: that of
    the last setting held there, if any. *)
Definition held_widget (settings : list BasicSetting) (runtime_lock : bool)
           (is_enum : bool) (label : string) : option nat :=
  match find (fun setting => held_in_graphics runtime_lock setting
                             && Bool.eqb (IsEnum setting) is_enum
                             && String.eqb (GetLabel setting) label)
             (rev settings) with
  | Some setting => created_widget (create_for setting runtime_lock)
  | None => None
  end.

(** The widgets of the settings satisfying [select], in order. *)
Definition widgets_of (select : BasicSetting -> bool) (runtime_lock : bool)
           (settings : list BasicSetting) : list nat :=
  flat_map (fun setting =>
              if select setting
              then match created_widget (create_for setting runtime_lock) with
                   | Some widget => [widget]
                   | None => []
                   end
              else [])
           settings.

End Wiring.

(** The keys of a map strictly increase. *)
Definition keys_increase (m : label_map) : Prop :=
  Sorted (fun a b => String.compare (fst a) (fst b) = Lt) m.

(** ** The constructor (lines 73-146)

    [SetConfiguration] fills the member pointers and the statements after
    it call through them.  A call through a member that names no widget
    is undefined; where a member names a widget, the widget is the one
    the tab holds for that member. *)

Definition set_apply_funcs (funcs : list (bool -> Settings.Values -> Settings.Values))
           (st : State) : State :=
  {| configuring_global := configuring_global st;
     values := values st;
     powered_on := powered_on st;
     apply_funcs := funcs;
     api_combobox := api_combobox st;
     vulkan_device_combobox := vulkan_device_combobox st;
     vsync_mode_combobox := vsync_mode_combobox st;
     vsync_mode_combobox_calls := vsync_mode_combobox_calls st;
     vsync_mode_combobox_enum_map := vsync_mode_combobox_enum_map st;
     device_present_modes := device_present_modes st;
     vulkan_device := vulkan_device st;
     shader_backend := shader_backend st |}.

(** Statements that call through the member pointer [p]. *)
Definition through {A : Type} (p : pointer) (m : MT A) : MT A :=
  fun t =>
    match p with
    | Some _ => m t
    | None => TabUndefined
    end.

Section Constructor.

Context `{Declarations}.

Variable fromStdString : string -> QString.
Variables vulkan_device_Id shader_backend_Id vsync_mode_Id : Z.
Variable CreateWidget : BasicSetting -> bool -> bool -> Created.

Local Open Scope tab_scope.

(** Statements that depend on the backend the query returns; the query
    reads the index of [api_combobox] through the member (lines 375, 378). *)
Definition by_backend {A : Type} (w : Wiring) (k : Z -> MT A) : MT A :=
  through (api_combobox_pointer w)
    (fun t =>
       match returned (GetCurrentGraphicsBackend (core t)) with
       | Some backend => k backend t
       | None => TabUndefined
       end).

(** The loop at lines 88-90: each round calls [addItem] through
    [vulkan_device_combobox]. *)
Fixpoint add_devices_through (p : pointer) (devices : list QString) : MT unit :=
  match devices with
  | [] => tret tt
  | device :: rest =>
    through p (on_core (fun st => set_vulkan_device_combobox
                          (addItem device (vulkan_device_combobox st)) st)) ;;
    add_devices_through p rest
  end.

(** [UpdateAPILayout] through the members: on every path it calls through
    [vulkan_device_widget] and [shader_backend_widget] (lines 329-330 or
    333-334) and reads [api_combobox]; under OpenGL it calls through
    [shader_backend_combobox] (line 339), under Vulkan through
    [vulkan_device_combobox] (line 345). *)
Definition UpdateAPILayout_through (w : Wiring) : MT unit :=
  through (vulkan_device_widget_pointer w)
    (through (shader_backend_widget_pointer w)
       (by_backend w (fun backend =>
          if backend =? RendererBackend_OpenGL
          then through (shader_backend_combobox_pointer w) UpdateAPILayout
          else if backend =? RendererBackend_Vulkan
               then through (vulkan_device_combobox_pointer w) UpdateAPILayout
               else UpdateAPILayout))).

(** [PopulateVSyncModeSelection] through the members: it reads
    [api_combobox], calls through [vsync_mode_combobox] under every
    backend (lines 151, 154) and reads [vulkan_device_combobox] under
    every backend other than Null (line 163). *)
Definition PopulateVSyncModeSelection_through (w : Wiring) : MT unit :=
  through (vsync_mode_combobox_pointer w)
    (by_backend w (fun backend =>
       if backend =? RendererBackend_Null
       then lift PopulateVSyncModeSelection
       else through (vulkan_device_combobox_pointer w)
                    (lift PopulateVSyncModeSelection))).

(** The seeding (lines 100-113) calls through [vsync_mode_combobox] where
    it sets the current index (line 111). *)
Definition seed_vsync_selection_through (w : Wiring) : MT unit :=
  fun t =>
    let st := core t in
    let vsync_mode :=
      VSyncSettingToMode (Settings.GetValue (Settings.vsync_mode (values st))) in
    if configuring_global st
       && (seed_loop (vsync_mode_combobox_enum_map st) vsync_mode 0
           <? Z.of_nat (List.length (vsync_mode_combobox_enum_map st)))
    then through (vsync_mode_combobox_pointer w) (lift seed_vsync_selection) t
    else lift seed_vsync_selection t.

(** The body of the constructor, from the members as they are when it
    starts, [apply_funcs] among them; it returns the members as wired.
    [setupUi] builds the widgets of [ui], [UpdateBackgroundColorButton]
    stores a colour and the [connect] calls register the slots modelled
    above: none of them reads or writes the modelled state. *)
Definition constructor (settings : list BasicSetting) (members : Wiring) : MT Wiring :=
  on_core (fun st => set_vulkan_device
             (Settings.GetValue (Settings.vulkan_device (values st))) st) ;;
  RetrieveVulkanDevices fromStdString ;;
  powered <- tgets (fun t => powered_on (core t)) ;;
  let w := SetConfiguration vulkan_device_Id shader_backend_Id vsync_mode_Id
                            CreateWidget settings powered members in
  on_core (set_apply_funcs (wired_apply_funcs w)) ;;
  devices <- tgets vulkan_devices ;;
  add_devices_through (vulkan_device_combobox_pointer w) devices ;;
  UpdateAPILayout_through w ;;
  PopulateVSyncModeSelection_through w ;;
  seed_vsync_selection_through w ;;
  through (api_combobox_pointer w) restrict_api_widgets ;;
  tret w.

End Constructor.

(** ** Concrete tabs and settings

    Tabs over the concrete states, and a category of five settings with
    the widgets a [CreateWidget] numbering them by identity returns. *)

Definition shown_widget : QWidget.t :=
  {| QWidget.enabled := true; QWidget.visible := true |}.

(** The device of the concrete states. *)
Definition one_record : list DeviceRecord :=
  [{| name := "GPU 0"; vsync_support := three_modes; has_broken_compute := false |}].

(** A second device, with FIFO and FIFO Relaxed and a broken compute. *)
Definition two_records : list DeviceRecord :=
  [{| name := "GPU 0"; vsync_support := three_modes; has_broken_compute := false |};
   {| name := "GPU 1";
      vsync_support := [VK_PRESENT_MODE_FIFO_KHR; VK_PRESENT_MODE_FIFO_RELAXED_KHR];
      has_broken_compute := true |}].

Definition tab_of (st : State) (devices : list DeviceRecord) (broken : bool) : Tab :=
  {| core := st;
     records := devices;
     vulkan_devices := [];
     expose_compute_option_calls := 0;
     shader_backend_combobox := combobox ["GLSL"; "GLASM"; "SPIRV"]%string 0 false;
     vulkan_device_widget := shown_widget;
     shader_backend_widget := shown_widget;
     api_widget := shown_widget;
     has_broken_vulkan := broken |}.

(** The tab in global configuration with the API box at Vulkan and
    Mailbox selected; the tab of a machine with two devices before the
    constructor has filled its boxes; the tab of a per-profile
    configuration at the use-global entry, Vulkan being broken. *)
Definition vulkan_tab : Tab := tab_of (global_state 1 1 false) one_record false.

Definition fresh_tab : Tab := tab_of no_device_state two_records false.

Definition profile_tab : Tab := tab_of profile_state one_record true.

(** The category: the device, the shader backend and the VSync mode under
    the identities 10, 11 and 12, and two settings of the common kind. *)
Definition renderer_settings : list BasicSetting :=
  [{| Id := 10; GetLabel := "vulkan_device"; IsEnum := false |};
   {| Id := 11; GetLabel := "shader_backend"; IsEnum := true |};
   {| Id := 12; GetLabel := "use_vsync"; IsEnum := true |};
   {| Id := 13; GetLabel := "use_asynchronous_shaders"; IsEnum := false |};
   {| Id := 14; GetLabel := "nvdec_emulation"; IsEnum := true |}]%string.

(** A [CreateWidget] that names the widget by the identity of the setting
    and the extra pointer by the identity plus 100. *)
Definition widget_by_Id (setting : BasicSetting) (runtime_lock unmanaged : bool) : Created :=
  {| created_widget := Some (Z.to_nat (Id setting));
     created_extra := Some (100 + Z.to_nat (Id setting))%nat;
     created_apply_funcs := [] |}.

(** Members that all name a widget, as no run of this constructor finds
    them: the model of the constructor is run on them for comparison. *)
Definition assigned : Wiring :=
  {| api_layout := [];
     graphics_layout := [];
     wired_apply_funcs := [];
     api_combobox_pointer := Some 1%nat;
     vulkan_device_combobox_pointer := Some 2%nat;
     vulkan_device_widget_pointer := Some 3%nat;
     shader_backend_combobox_pointer := Some 4%nat;
     shader_backend_widget_pointer := Some 5%nat;
     vsync_mode_combobox_pointer := Some 6%nat |}.

(** The members before [SetConfiguration]: empty layouts, null pointers. *)
Definition unwired : Wiring :=
  {| api_layout := [];
     graphics_layout := [];
     wired_apply_funcs := [];
     api_combobox_pointer := None;
     vulkan_device_combobox_pointer := None;
     vulkan_device_widget_pointer := None;
     shader_backend_combobox_pointer := None;
     shader_backend_widget_pointer := None;
     vsync_mode_combobox_pointer := None |}.

(** * Properties *)

Ltac run_monad := unfold bind, ret, gets, modify in *; simpl in *.

Section Properties.

Context `{Declarations}.

(** ** The conversions *)

Lemma VSyncSettingToMode_mapped (mode : Z) :
  In (VSyncSettingToMode mode) mapped_present_modes.
Proof.
  unfold VSyncSettingToMode, mapped_present_modes.
  repeat match goal with
         | |- context [if ?a =? ?b then _ else _] => destruct (Z.eqb_spec a b)
         end; simpl; auto.
Qed.

Lemma PresentModeToSetting_defined (mode : VkPresentModeKHR) :
  In (PresentModeToSetting mode)
     [VSyncMode_Immediate; VSyncMode_Mailbox; VSyncMode_FIFO; VSyncMode_FIFORelaxed].
Proof.
  unfold PresentModeToSetting.
  repeat match goal with
         | |- context [if ?a =? ?b then _ else _] => destruct (Z.eqb_spec a b)
         end; simpl; auto.
Qed.

Lemma PresentModeToSetting_default (mode : VkPresentModeKHR) :
  ~ In mode mapped_present_modes -> PresentModeToSetting mode = VSyncMode_FIFO.
Proof.
  intros Hout. unfold PresentModeToSetting.
  repeat match goal with
         | |- context [if ?a =? ?b then _ else _] =>
           destruct (Z.eqb_spec a b) as [->|]
         end; try reflexivity; exfalso; apply Hout; simpl; auto.
Qed.

Lemma VSyncSettingToMode_default (mode : Z) :
  ~ In mode [VSyncMode_Immediate; VSyncMode_Mailbox; VSyncMode_FIFO; VSyncMode_FIFORelaxed] ->
  VSyncSettingToMode mode = VK_PRESENT_MODE_FIFO_KHR.
Proof.
  intros Hout. unfold VSyncSettingToMode.
  repeat match goal with
         | |- context [if ?a =? ?b then _ else _] =>
           destruct (Z.eqb_spec a b) as [->|]
         end; try reflexivity; exfalso; apply Hout; simpl; auto.
Qed.

(** With distinct enumerators the conversions are inverse to each other on
    the four mapped present modes as well. *)
Lemma mode_setting_roundtrip (mode : VkPresentModeKHR) :
  distinct_VSyncModes ->
  In mode mapped_present_modes ->
  VSyncSettingToMode (PresentModeToSetting mode) = mode.
Proof.
  unfold distinct_VSyncModes. intros Hnodup Hin.
  inversion Hnodup as [|? ? H1 Hnodup1]; subst.
  inversion Hnodup1 as [|? ? H2 Hnodup2]; subst.
  inversion Hnodup2 as [|? ? H3 _]; subst.
  cbn in H1, H2, H3.
  unfold VSyncSettingToMode.
  destruct Hin as [<-|[<-|[<-|[<-|[]]]]]; cbn;
    repeat match goal with
           | |- context [if ?a =? ?b then _ else _] =>
             destruct (Z.eqb_spec a b) as [?|?]
           end; try reflexivity; exfalso; intuition congruence.
Qed.

(** C4. For each of the four defined values [s] of the VSync setting,
    converting [s] to a present mode and back gives [s] again:
    [PresentModeToSetting (VSyncSettingToMode s) = s]. *)
Theorem setting_mode_roundtrip (s : Z) :
  In s [VSyncMode_Immediate; VSyncMode_Mailbox; VSyncMode_FIFO; VSyncMode_FIFORelaxed] ->
  PresentModeToSetting (VSyncSettingToMode s) = s.
Proof.
  intros Hin. unfold VSyncSettingToMode.
  destruct (Z.eqb_spec s VSyncMode_Immediate) as [->|n1]; [reflexivity|].
  destruct (Z.eqb_spec s VSyncMode_Mailbox) as [->|n2]; [reflexivity|].
  destruct (Z.eqb_spec s VSyncMode_FIFO) as [->|n3]; [reflexivity|].
  destruct (Z.eqb_spec s VSyncMode_FIFORelaxed) as [->|n4]; [reflexivity|].
  simpl in Hin. intuition congruence.
Qed.

(** C5. Both conversions are total and never fail: every setting value
    converts to one of the four mapped present modes, every present mode
    converts to one of the four setting values, and a present mode that is
    none of the four mapped ones converts to the FIFO setting, the default
    branch. *)
Theorem conversions_total :
  (forall s : Z, exists m, VSyncSettingToMode s = m /\ In m mapped_present_modes) /\
  (forall m : VkPresentModeKHR, exists s,
      PresentModeToSetting m = s /\
      In s [VSyncMode_Immediate; VSyncMode_Mailbox; VSyncMode_FIFO; VSyncMode_FIFORelaxed]) /\
  (forall m : VkPresentModeKHR,
      ~ In m mapped_present_modes -> PresentModeToSetting m = VSyncMode_FIFO).
Proof.
  repeat split.
  - intros s. eexists. split; [reflexivity | apply VSyncSettingToMode_mapped].
  - intros m. eexists. split; [reflexivity | apply PresentModeToSetting_defined].
  - apply PresentModeToSetting_default.
Qed.

(** ** The backend query *)

Lemma set_values_same (st : State) : set_values (values st) st = st.
Proof. destruct st; reflexivity. Qed.

(** The query always returns; it leaves everything but the settings store
    alone, and in the store at most the use-global flag of the renderer
    backend changes. *)
Lemma GetCurrentGraphicsBackend_returns (st : State) :
  exists backend v,
    GetCurrentGraphicsBackend st = Returns backend (set_values v st) /\
    same_values_up_to_backend_flag (values st) v /\
    (configuring_global st = true -> v = values st) /\
    (configuring_global st = false ->
     v = Settings.set_renderer_backend
           (Settings.SetGlobal
              (QComboBox.currentIndex (api_combobox st) =? USE_GLOBAL_INDEX)
              (Settings.renderer_backend (values st)))
           (values st)).
Proof.
  unfold GetCurrentGraphicsBackend, same_values_up_to_backend_flag. run_monad.
  destruct (configuring_global st) eqn:Hglobal.
  - exists (QComboBox.currentIndex (api_combobox st)), (values st).
    rewrite set_values_same. repeat split; try reflexivity; discriminate.
  - destruct (QComboBox.currentIndex (api_combobox st) =? USE_GLOBAL_INDEX);
      run_monad; do 2 eexists; repeat split; try reflexivity; discriminate.
Qed.

(** ** The loop of a rebuild *)

Lemma populate_loop_returns (backend : Z) (current_mode : VkPresentModeKHR)
      (present_modes : list VkPresentModeKHR) :
  forall (index : Z) (st : State),
  exists st',
    populate_loop backend current_mode present_modes index st = Returns tt st' /\
    vsync_mode_combobox_enum_map st' =
      (vsync_mode_combobox_enum_map st ++ filter (nameable backend) present_modes)%list /\
    vsync_mode_combobox_calls st' =
      (vsync_mode_combobox_calls st ++
       loop_calls backend current_mode present_modes index)%list /\
    vsync_mode_combobox st' =
      QComboBox.perform_all (loop_calls backend current_mode present_modes index)
                            (vsync_mode_combobox st) /\
    values st' = values st /\
    same_apart_from_vsync_and_values st st'.
Proof.
  induction present_modes as [|present_mode rest IH]; intros index st.
  - exists st. simpl. unfold ret, same_apart_from_vsync_and_values.
    rewrite !app_nil_r. repeat split; reflexivity.
  - simpl. unfold nameable at 1.
    destruct (isEmpty (TranslateVSyncMode present_mode backend)) eqn:Hname; simpl.
    + apply IH.
    + run_monad.
      destruct (present_mode =? current_mode); simpl;
        match goal with
        | |- context [populate_loop _ _ _ _ ?s] =>
          destruct (IH (index + 1) s)
            as (st' & Hrun & Hmap & Hcalls & Hbox & Hvalues & Hframe)
        end;
        exists st'; (split; [exact Hrun|]);
        unfold same_apart_from_vsync_and_values in *;
        rewrite Hmap, Hcalls, Hbox, Hvalues; simpl;
        rewrite <- !app_assoc; simpl;
        repeat split; try reflexivity; try tauto.
Qed.

(** ** The calls of the loop and the selection they make *)

Lemma selection_made_app (calls calls' : list QComboBox.call) :
  selection_made (calls ++ calls') =
  match selection_made calls' with
  | Some index => Some index
  | None => selection_made calls
  end.
Proof.
  induction calls as [|c rest IH]; simpl.
  - destruct (selection_made calls'); reflexivity.
  - rewrite IH. destruct (selection_made calls'); reflexivity.
Qed.

Lemma selection_made_None (calls : list QComboBox.call) :
  selection_made calls = None <->
  (forall index, ~ In (QComboBox.call_setCurrentIndex index) calls).
Proof.
  induction calls as [|c rest IH]; simpl.
  - split; [intros _ index []|reflexivity].
  - destruct (selection_made rest) as [i|].
    + split; [discriminate|]. intros Hno. exfalso.
      assert (Hsome : Some i <> None) by discriminate.
      apply Hsome, IH. intros index Hin. apply (Hno index). now right.
    + destruct IH as [IH _]. specialize (IH eq_refl).
      destruct c; (split; [intros Hnone | intros Hno]);
        try discriminate; try reflexivity;
        try (intros index0 [Heq|Hin]; [discriminate|exact (IH _ Hin)]).
      exfalso. apply (Hno index). now left.
Qed.

(** The loop selects the last entry of the offered list that equals the
    previous mode, and selects nothing when there is none. *)
Lemma loop_calls_selection (backend : Z) (current_mode : VkPresentModeKHR)
      (present_modes : list VkPresentModeKHR) :
  forall index : Z,
    (In current_mode (filter (nameable backend) present_modes) ->
     exists k : nat,
       selection_made (loop_calls backend current_mode present_modes index)
         = Some (index + Z.of_nat k) /\
       nth_error (filter (nameable backend) present_modes) k = Some current_mode /\
       (forall j : nat, (k < j)%nat ->
          nth_error (filter (nameable backend) present_modes) j <> Some current_mode)) /\
    (~ In current_mode (filter (nameable backend) present_modes) ->
     selection_made (loop_calls backend current_mode present_modes index) = None).
Proof.
  induction present_modes as [|present_mode rest IH]; intros index;
    cbn [filter loop_calls].
  - split; [intros []|reflexivity].
  - assert (Hn : nameable backend present_mode =
                 negb (isEmpty (TranslateVSyncMode present_mode backend)))
      by reflexivity.
    destruct (isEmpty (TranslateVSyncMode present_mode backend)) eqn:Hname;
      rewrite Hn; cbn [negb].
    + apply IH.
    + destruct (IH (index + 1)) as [IHin IHout].
      cbn [selection_made]. rewrite selection_made_app.
      destruct (in_dec Z.eq_dec current_mode (filter (nameable backend) rest))
        as [Hin|Hnotin].
      * destruct (IHin Hin) as (k & Hsel & Hnth & Hlast).
        split; [intros _|intros Hno; exfalso; apply Hno; now right].
        exists (S k). rewrite Hsel. split; [f_equal; lia|]. split; [exact Hnth|].
        intros [|j] Hlt; [lia|]. cbn [nth_error]. apply Hlast. lia.
      * rewrite (IHout Hnotin).
        destruct (Z.eqb_spec present_mode current_mode) as [->|Hneq]; simpl.
        -- split; [intros _|intros Hno; exfalso; apply Hno; now left].
           exists 0%nat. split; [f_equal; lia|]. split; [reflexivity|].
           intros [|j] Hlt; [lia|]. cbn [nth_error]. intros Hnth.
           apply Hnotin. eapply nth_error_In. exact Hnth.
        -- split; [|reflexivity]. intros [Heq|Hin]; [congruence|contradiction].
Qed.

(** ** The loop's calls performed on the box *)

Lemma insertItem_at_end (index : Z) (text : QString) (cb : QComboBox.t) :
  QComboBox.count cb = index ->
  QComboBox.insertItem index text cb =
  {| QComboBox.enabled := QComboBox.enabled cb;
     QComboBox.items := (QComboBox.items cb ++ [text])%list;
     QComboBox.currentIndex :=
       if QComboBox.currentIndex cb <? 0 then
         if (index =? 0) && negb (QComboBox.placeholder cb) then 0 else -1
       else if index <=? QComboBox.currentIndex cb
            then QComboBox.currentIndex cb + 1
            else QComboBox.currentIndex cb;
     QComboBox.placeholder := QComboBox.placeholder cb |}.
Proof.
  intros Hcount. unfold QComboBox.insertItem. rewrite Hcount.
  assert (Hpos : Z.max 0 (Z.min index index) = index).
  { unfold QComboBox.count in Hcount. lia. }
  rewrite Hpos.
  assert (Hlen : Z.to_nat index = List.length (QComboBox.items cb)).
  { unfold QComboBox.count in Hcount. lia. }
  rewrite Hlen, firstn_all, skipn_all. reflexivity.
Qed.

Lemma perform_all_cons (c : QComboBox.call) (calls : list QComboBox.call)
      (cb : QComboBox.t) :
  QComboBox.perform_all (c :: calls) cb =
  QComboBox.perform_all calls (QComboBox.perform c cb).
Proof. reflexivity. Qed.

Lemma perform_all_loop_calls (backend : Z) (current_mode : VkPresentModeKHR)
      (present_modes : list VkPresentModeKHR) :
  forall (index : Z) (cb : QComboBox.t),
    QComboBox.count cb = index ->
    -1 <= QComboBox.currentIndex cb < index ->
    let calls := loop_calls backend current_mode present_modes index in
    let cb' := QComboBox.perform_all calls cb in
    QComboBox.items cb' =
      (QComboBox.items cb ++
       map (fun mode => TranslateVSyncMode mode backend)
           (filter (nameable backend) present_modes))%list /\
    QComboBox.enabled cb' = QComboBox.enabled cb /\
    QComboBox.placeholder cb' = QComboBox.placeholder cb /\
    match selection_made calls with
    | Some selected => QComboBox.currentIndex cb' = selected
    | None =>
      QComboBox.currentIndex cb' = QComboBox.currentIndex cb \/
      (QComboBox.currentIndex cb = -1 /\ QComboBox.currentIndex cb' = 0 /\
       QComboBox.placeholder cb = false)
    end.
Proof.
  induction present_modes as [|present_mode rest IH]; intros index cb Hcount Hcur;
    cbn [filter loop_calls].
  - cbn. rewrite app_nil_r. auto.
  - assert (Hn : nameable backend present_mode =
                 negb (isEmpty (TranslateVSyncMode present_mode backend)))
      by reflexivity.
    destruct (isEmpty (TranslateVSyncMode present_mode backend)) eqn:Hname;
      rewrite Hn; cbn [negb].
    + apply IH; assumption.
    + assert (Hindex : 0 <= index) by (unfold QComboBox.count in Hcount; lia).
      cbn zeta. rewrite perform_all_cons. cbn [QComboBox.perform].
      cbn [selection_made]. rewrite selection_made_app.
      rewrite insertItem_at_end by exact Hcount.
      set (cb1 := {| QComboBox.enabled := QComboBox.enabled cb;
                     QComboBox.items := (QComboBox.items cb ++
                        [TranslateVSyncMode present_mode backend])%list;
                     QComboBox.currentIndex := _;
                     QComboBox.placeholder := QComboBox.placeholder cb |}).
      assert (Hcount1 : QComboBox.count cb1 = index + 1).
      { unfold QComboBox.count in *. subst cb1. cbn. rewrite length_app. cbn. lia. }
      assert (Hcur1 : -1 <= QComboBox.currentIndex cb1 < index + 1).
      { subst cb1. cbn.
        destruct (Z.ltb_spec (QComboBox.currentIndex cb) 0) as [Hneg|Hpos];
          [destruct ((index =? 0) && negb (QComboBox.placeholder cb)); lia|].
        destruct (Z.leb_spec index (QComboBox.currentIndex cb)); lia. }
      destruct (present_mode =? current_mode) eqn:Heq.
      * cbn [app]. rewrite perform_all_cons. cbn [QComboBox.perform].
        set (cb2 := QComboBox.setCurrentIndex index cb1).
        assert (Hsel2 : QComboBox.currentIndex cb2 = index).
        { subst cb2. unfold QComboBox.setCurrentIndex. cbn [QComboBox.currentIndex].
          rewrite Hcount1.
          destruct (Z.leb_spec 0 index); [|lia].
          destruct (Z.ltb_spec index (index + 1)); [reflexivity|lia]. }
        assert (Hcount2 : QComboBox.count cb2 = index + 1) by exact Hcount1.
        destruct (IH (index + 1) cb2 Hcount2 ltac:(lia))
          as (Hitems & Henabled & Hplaceholder & Hselection).
        cbn zeta in Hitems, Henabled, Hplaceholder, Hselection.
        rewrite Hitems, Henabled, Hplaceholder.
        subst cb2 cb1. cbn [QComboBox.items QComboBox.enabled QComboBox.placeholder
                            QComboBox.setCurrentIndex].
        rewrite <- app_assoc. cbn [map app].
        repeat split.
        cbn [selection_made].
        destruct (selection_made (loop_calls backend current_mode rest (index + 1)));
          [exact Hselection|].
        destruct Hselection as [Hsame|(Hminus & _)]; lia.
      * cbn [app].
        destruct (IH (index + 1) cb1 Hcount1 Hcur1)
          as (Hitems & Henabled & Hplaceholder & Hselection).
        cbn zeta in Hitems, Henabled, Hplaceholder, Hselection.
        rewrite Hitems, Henabled, Hplaceholder.
        subst cb1. cbn [QComboBox.items QComboBox.enabled QComboBox.placeholder].
        rewrite <- app_assoc. cbn [map app].
        repeat split.
        cbn [selection_made].
        destruct (selection_made (loop_calls backend current_mode rest (index + 1)));
          [exact Hselection|].
        cbn [QComboBox.currentIndex] in Hselection.
        destruct (Z.ltb_spec (QComboBox.currentIndex cb) 0) as [Hneg|Hpos];
          [destruct (Z.eqb_spec index 0) as [Hzero|Hzero];
           destruct (QComboBox.placeholder cb) eqn:Hph
          |destruct (Z.leb_spec index (QComboBox.currentIndex cb)) as [Hle|Hgt]];
          cbn [andb negb] in Hselection |- *;
          destruct Hselection as [Hsame|(Hminus & Hzero' & Hfalse)];
          first [ lia | congruence | left; lia
                | right; repeat split; first [lia | assumption | reflexivity] ].
Qed.

(** ** Indexing a vector *)

Lemma vector_at_in_range {A : Type} (v : list A) (index : Z) (a : A) (st : State) :
  0 <= index -> nth_error v (Z.to_nat index) = Some a ->
  vector_at v index st = Returns a st.
Proof.
  intros Hindex Hnth. unfold vector_at.
  assert (Hlt : (Z.to_nat index < List.length v)%nat).
  { apply nth_error_Some. congruence. }
  destruct (Z.leb_spec 0 index); [|lia].
  destruct (Z.ltb_spec index (Z.of_nat (List.length v))); [|lia].
  cbn [andb]. now rewrite Hnth.
Qed.

Lemma vector_at_out_of_range {A : Type} (v : list A) (index : Z) (st : State) :
  index < 0 \/ Z.of_nat (List.length v) <= index ->
  vector_at v index st = Undefined.
Proof.
  intros Hout. unfold vector_at.
  destruct (Z.leb_spec 0 index); cbn [andb]; [|reflexivity].
  destruct (Z.ltb_spec index (Z.of_nat (List.length v))); [lia|reflexivity].
Qed.

(** ** The rebuild as a whole *)

(** The first steps of a rebuild under a backend other than Null: the
    query has returned [backend] and the settings [v]; what remains is
    the body after the early return, run from the state the query left. *)
Ltac enter_rebuild st backend Hbackend Hnot_null :=
  let backend' := fresh "backend'" in
  let Hquery := fresh "Hquery" in
  destruct (GetCurrentGraphicsBackend_returns st)
    as (backend' & v & Hquery & (Hv1 & Hv2 & Hv3 & Hv4 & Hv5) & Hglobal & Hprofile);
  rewrite Hquery in Hbackend; cbn in Hbackend;
  injection Hbackend as ->;
  unfold PopulateVSyncModeSelection, bind at 1; rewrite Hquery;
  destruct (Z.eqb_spec backend RendererBackend_Null) as [|_]; [contradiction|];
  unfold bind, modify, gets, ret; cbn.

(** Under a backend other than Null, with a previous mode and a source
    list to read, the rebuild returns: the enum map is the source list
    filtered by nameability, the calls on the box are [setEnabled(true)],
    [clear] and the calls of the loop, and nothing else changes but,
    possibly, the use-global flag of the renderer backend. *)
Lemma PopulateVSyncModeSelection_returns (st : State) (backend : Z)
      (previous : VkPresentModeKHR) (source : list VkPresentModeKHR) :
  returned (GetCurrentGraphicsBackend st) = Some backend ->
  backend <> RendererBackend_Null ->
  previous_mode st = Some previous ->
  source_list backend st = Some source ->
  exists st',
    PopulateVSyncModeSelection st = Returns tt st' /\
    vsync_mode_combobox_enum_map st' = filter (nameable backend) source /\
    vsync_mode_combobox_calls st' =
      (vsync_mode_combobox_calls st ++
       QComboBox.call_setEnabled true :: QComboBox.call_clear ::
       loop_calls backend previous source 0)%list /\
    vsync_mode_combobox st' =
      QComboBox.perform_all (loop_calls backend previous source 0)
        (QComboBox.clear (QComboBox.setEnabled true (vsync_mode_combobox st))) /\
    same_values_up_to_backend_flag (values st) (values st') /\
    (configuring_global st = true -> values st' = values st) /\
    (configuring_global st = false ->
     values st' = Settings.set_renderer_backend
                    (Settings.SetGlobal
                       (QComboBox.currentIndex (api_combobox st) =? USE_GLOBAL_INDEX)
                       (Settings.renderer_backend (values st)))
                    (values st)) /\
    same_apart_from_vsync_and_values st st'.
Proof.
  intros Hbackend Hnot_null Hprevious Hsource.
  enter_rebuild st backend Hbackend Hnot_null.
  unfold previous_mode in Hprevious. unfold source_list in Hsource.
  set (s1 := call_vsync_mode_combobox (QComboBox.call_setEnabled true)
                                      (set_values v st)).
  match goal with
  | |- exists _, match ?c with Returns _ _ => _ | Undefined => _ end = _ /\ _ =>
    assert (Hmode : c = Returns previous s1)
  end.
  { destruct (QComboBox.currentIndex (vsync_mode_combobox st) =? -1).
    - injection Hprevious as <-. subst s1. cbn. now rewrite Hv5.
    - destruct (Z.leb_spec 0 (QComboBox.currentIndex (vsync_mode_combobox st)));
        [|discriminate].
      apply vector_at_in_range; assumption. }
  rewrite Hmode.
  match goal with
  | |- exists _, match ?c with Returns _ _ => _ | Undefined => _ end = _ /\ _ =>
    assert (Hmodes : c = Returns source s1)
  end.
  { destruct (backend =? RendererBackend_Vulkan).
    - subst s1. cbn [vulkan_device_combobox call_vsync_mode_combobox set_values].
      destruct (Z.leb_spec 0 (QComboBox.currentIndex (vulkan_device_combobox st)));
        [|discriminate].
      apply vector_at_in_range; assumption.
    - now injection Hsource as <-. }
  rewrite Hmodes.
  destruct (populate_loop_returns backend previous source 0
              (set_enum_map [] (call_vsync_mode_combobox QComboBox.call_clear s1)))
    as (st' & Hrun & Hmap & Hcalls & Hbox & Hvalues' & Hframe).
  exists st'. split; [exact Hrun|].
  unfold same_apart_from_vsync_and_values in *.
  rewrite Hmap, Hcalls, Hbox, Hvalues'. subst s1. cbn.
  rewrite <- !app_assoc. cbn.
  repeat split; tauto.
Qed.

(** Without a previous mode to read, the enum map is indexed out of
    range. *)
Lemma PopulateVSyncModeSelection_no_previous (st : State) (backend : Z) :
  returned (GetCurrentGraphicsBackend st) = Some backend ->
  backend <> RendererBackend_Null ->
  previous_mode st = None ->
  PopulateVSyncModeSelection st = Undefined.
Proof.
  intros Hbackend Hnot_null Hprevious.
  enter_rebuild st backend Hbackend Hnot_null.
  unfold previous_mode in Hprevious.
  destruct (QComboBox.currentIndex (vsync_mode_combobox st) =? -1); [discriminate|].
  rewrite vector_at_out_of_range; [reflexivity|]. cbn.
  destruct (Z.leb_spec 0 (QComboBox.currentIndex (vsync_mode_combobox st)));
    [|left; assumption].
  right. apply nth_error_None in Hprevious. lia.
Qed.

(** Without a source list to read, the device list is indexed out of
    range. *)
Lemma PopulateVSyncModeSelection_no_source (st : State) (backend : Z) :
  returned (GetCurrentGraphicsBackend st) = Some backend ->
  backend <> RendererBackend_Null ->
  source_list backend st = None ->
  PopulateVSyncModeSelection st = Undefined.
Proof.
  intros Hbackend Hnot_null Hsource.
  destruct (previous_mode st) as [previous|] eqn:Hprevious;
    [|eapply PopulateVSyncModeSelection_no_previous; eassumption].
  enter_rebuild st backend Hbackend Hnot_null.
  unfold previous_mode in Hprevious. unfold source_list in Hsource.
  set (s1 := call_vsync_mode_combobox (QComboBox.call_setEnabled true)
                                      (set_values v st)).
  match goal with
  | |- match ?c with Returns _ _ => _ | Undefined => _ end = _ =>
    assert (Hmode : c = Returns previous s1)
  end.
  { destruct (QComboBox.currentIndex (vsync_mode_combobox st) =? -1).
    - injection Hprevious as <-. subst s1. cbn. now rewrite Hv5.
    - destruct (Z.leb_spec 0 (QComboBox.currentIndex (vsync_mode_combobox st)));
        [|discriminate].
      apply vector_at_in_range; assumption. }
  rewrite Hmode.
  destruct (backend =? RendererBackend_Vulkan); [|discriminate].
  rewrite vector_at_out_of_range; [reflexivity|].
  subst s1. cbn.
  destruct (Z.leb_spec 0 (QComboBox.currentIndex (vulkan_device_combobox st)));
    [|left; assumption].
  right. apply nth_error_None in Hsource. lia.
Qed.

(** Under the Null backend the rebuild makes one call, [setEnabled(false)],
    and returns. *)
Lemma PopulateVSyncModeSelection_Null (st : State) :
  returned (GetCurrentGraphicsBackend st) = Some RendererBackend_Null ->
  exists v,
    GetCurrentGraphicsBackend st = Returns RendererBackend_Null (set_values v st) /\
    PopulateVSyncModeSelection st =
      Returns tt (call_vsync_mode_combobox (QComboBox.call_setEnabled false)
                                           (set_values v st)).
Proof.
  intros Hbackend.
  destruct (GetCurrentGraphicsBackend_returns st)
    as (backend & v & Hquery & _).
  rewrite Hquery in Hbackend. cbn in Hbackend. injection Hbackend as ->.
  exists v. split; [exact Hquery|].
  unfold PopulateVSyncModeSelection, bind at 1. rewrite Hquery.
  now rewrite Z.eqb_refl.
Qed.

Lemma calls_between_app (st st' : State) (calls : list QComboBox.call) :
  vsync_mode_combobox_calls st' = (vsync_mode_combobox_calls st ++ calls)%list ->
  calls_between st st' = calls.
Proof.
  intros Hcalls. unfold calls_between. rewrite Hcalls.
  rewrite skipn_app, skipn_all, Nat.sub_diag. reflexivity.
Qed.

(** ** The offered list *)

(** C1. Under every backend other than Null, the list a rebuild offers is
    the source list (the modes of the selected device under the Vulkan
    backend, else the default list Immediate, FIFO) in source order, with
    exactly the modes kept whose display name under the backend is not
    empty; the box shows their names in the same order. *)
Theorem rebuild_offers_nameable_source (st : State) (backend : Z)
        (previous : VkPresentModeKHR) (source : list VkPresentModeKHR) :
  returned (GetCurrentGraphicsBackend st) = Some backend ->
  backend <> RendererBackend_Null ->
  previous_mode st = Some previous ->
  source_list backend st = Some source ->
  (backend = RendererBackend_Vulkan ->
   nth_error (device_present_modes st)
             (Z.to_nat (QComboBox.currentIndex (vulkan_device_combobox st)))
     = Some source) /\
  (backend <> RendererBackend_Vulkan -> source = default_present_modes) /\
  exists st',
    PopulateVSyncModeSelection st = Returns tt st' /\
    vsync_mode_combobox_enum_map st' = filter (nameable backend) source /\
    QComboBox.items (vsync_mode_combobox st') =
      map (fun mode => TranslateVSyncMode mode backend)
          (filter (nameable backend) source).
Proof.
  intros Hbackend Hnot_null Hprevious Hsource.
  split; [|split].
  { intros ->. unfold source_list in Hsource. rewrite Z.eqb_refl in Hsource.
    destruct (0 <=? QComboBox.currentIndex (vulkan_device_combobox st));
      [exact Hsource|discriminate]. }
  { intros Hother. unfold source_list in Hsource.
    destruct (Z.eqb_spec backend RendererBackend_Vulkan); [contradiction|].
    now injection Hsource as <-. }
  destruct (PopulateVSyncModeSelection_returns st Hbackend Hnot_null Hprevious Hsource)
    as (st' & Hrun & Hmap & _ & Hbox & _).
  exists st'. repeat split; try assumption.
  rewrite Hbox.
  destruct (@perform_all_loop_calls backend previous source 0
              (QComboBox.clear (QComboBox.setEnabled true (vsync_mode_combobox st))))
    as (Hitems & _); [reflexivity | cbn; lia |].
  exact Hitems.
Qed.

(** Where the loop makes no selection the box keeps its current index,
    except that the first item inserted into an empty box without a
    placeholder text becomes current. *)
Lemma perform_all_loop_calls_unselected (backend : Z) (current_mode : VkPresentModeKHR)
      (present_modes : list VkPresentModeKHR) :
  forall (index : Z) (cb : QComboBox.t),
    QComboBox.count cb = index ->
    -1 <= QComboBox.currentIndex cb < index ->
    selection_made (loop_calls backend current_mode present_modes index) = None ->
    QComboBox.currentIndex
      (QComboBox.perform_all (loop_calls backend current_mode present_modes index) cb) =
    match filter (nameable backend) present_modes with
    | [] => QComboBox.currentIndex cb
    | _ :: _ =>
      if (QComboBox.currentIndex cb <? 0) && (index =? 0) && negb (QComboBox.placeholder cb)
      then 0 else QComboBox.currentIndex cb
    end.
Proof.
  induction present_modes as [|present_mode rest IH]; intros index cb Hcount Hcur Hnone;
    cbn [filter loop_calls] in *.
  - reflexivity.
  - assert (Hn : nameable backend present_mode =
                 negb (isEmpty (TranslateVSyncMode present_mode backend)))
      by reflexivity.
    destruct (isEmpty (TranslateVSyncMode present_mode backend)) eqn:Hname;
      rewrite Hn; cbn [negb].
    + apply IH; assumption.
    + assert (Hindex : 0 <= index) by (unfold QComboBox.count in Hcount; lia).
      cbn [selection_made] in Hnone. rewrite selection_made_app in Hnone.
      destruct (present_mode =? current_mode).
      { cbn [selection_made] in Hnone.
        destruct (selection_made (loop_calls backend current_mode rest (index + 1)));
          discriminate. }
      cbn [app] in *.
      assert (Hrest : selection_made (loop_calls backend current_mode rest (index + 1)) = None).
      { destruct (selection_made (loop_calls backend current_mode rest (index + 1)));
          [discriminate|reflexivity]. }
      rewrite perform_all_cons. cbn [QComboBox.perform].
      rewrite insertItem_at_end by exact Hcount.
      rewrite IH; [| | |exact Hrest].
      * cbn [QComboBox.currentIndex QComboBox.placeholder].
        destruct (Z.ltb_spec (QComboBox.currentIndex cb) 0) as [Hneg|Hpos];
          [destruct (Z.eqb_spec index 0) as [Hzero|Hzero];
           destruct (QComboBox.placeholder cb)
          |destruct (Z.leb_spec index (QComboBox.currentIndex cb)) as [Hle|Hgt]];
          cbn [andb negb];
          destruct (filter (nameable backend) rest);
          repeat match goal with
                 | |- context [?a <? ?b] => destruct (Z.ltb_spec a b)
                 | |- context [?a =? ?b] => destruct (Z.eqb_spec a b)
                 end; cbn [andb negb]; lia.
      * unfold QComboBox.count in *. cbn. rewrite length_app. cbn. lia.
      * cbn.
        destruct (Z.ltb_spec (QComboBox.currentIndex cb) 0) as [Hneg|Hpos];
          [destruct ((index =? 0) && negb (QComboBox.placeholder cb)); lia|].
        destruct (Z.leb_spec index (QComboBox.currentIndex cb)); lia.
Qed.

(** C2, as the code has it. After a rebuild under a backend other than
    Null: if the mode selected before occurs in the offered list, the
    rebuild selects the position of an entry equal to it (the last such
    entry) and that position is the box's current index.  If it does not
    occur, the rebuild makes no [setCurrentIndex] call, but the box is not
    left without a selection: the first item inserted into the cleared
    box becomes current, so that the current index is 0 whenever a mode
    is offered and the box has no placeholder text; it is -1 only when
    nothing is offered or the box has a placeholder text. *)
Theorem rebuild_selection_continuity (st : State) (backend : Z)
        (previous : VkPresentModeKHR) (source : list VkPresentModeKHR) :
  returned (GetCurrentGraphicsBackend st) = Some backend ->
  backend <> RendererBackend_Null ->
  previous_mode st = Some previous ->
  source_list backend st = Some source ->
  exists st',
    PopulateVSyncModeSelection st = Returns tt st' /\
    (In previous (vsync_mode_combobox_enum_map st') ->
     exists k : nat,
       selection_made (calls_between st st') = Some (Z.of_nat k) /\
       QComboBox.currentIndex (vsync_mode_combobox st') = Z.of_nat k /\
       nth_error (vsync_mode_combobox_enum_map st') k = Some previous /\
       (forall j : nat, (k < j)%nat ->
          nth_error (vsync_mode_combobox_enum_map st') j <> Some previous)) /\
    (~ In previous (vsync_mode_combobox_enum_map st') ->
     selection_made (calls_between st st') = None /\
     (forall index, ~ In (QComboBox.call_setCurrentIndex index) (calls_between st st')) /\
     QComboBox.currentIndex (vsync_mode_combobox st') =
       match vsync_mode_combobox_enum_map st' with
       | [] => -1
       | _ :: _ => if QComboBox.placeholder (vsync_mode_combobox st) then -1 else 0
       end).
Proof.
  intros Hbackend Hnot_null Hprevious Hsource.
  destruct (PopulateVSyncModeSelection_returns st Hbackend Hnot_null Hprevious Hsource)
    as (st' & Hrun & Hmap & Hcalls & Hbox & _).
  exists st'. split; [exact Hrun|].
  rewrite (@calls_between_app st st' _ Hcalls), Hmap, Hbox.
  cbn [selection_made].
  destruct (loop_calls_selection backend previous source 0) as [Hin Hout].
  destruct (@perform_all_loop_calls backend previous source 0
              (QComboBox.clear (QComboBox.setEnabled true (vsync_mode_combobox st))))
    as (_ & _ & _ & Hselected); [reflexivity | cbn; lia |].
  cbn zeta in Hselected. split.
  - intros Hoccurs. destruct (Hin Hoccurs) as (k & Hsel & Hnth & Hlast).
    rewrite Hsel in Hselected |- *. exists k. repeat split; assumption.
  - intros Habsent. specialize (Hout Habsent). rewrite Hout.
    split; [reflexivity|]. split.
    + intros index [Heq|[Heq|Hcall]]; try discriminate.
      revert Hcall. now apply selection_made_None.
    + rewrite (@perform_all_loop_calls_unselected backend previous source 0
                 (QComboBox.clear (QComboBox.setEnabled true (vsync_mode_combobox st))));
        [|reflexivity|cbn; lia|exact Hout].
      cbn [QComboBox.clear QComboBox.setEnabled QComboBox.currentIndex
           QComboBox.placeholder].
      destruct (filter (nameable backend) source); [reflexivity|].
      destruct (QComboBox.placeholder (vsync_mode_combobox st)); reflexivity.
Qed.

(** C3, as the code has it. Under the Null backend a rebuild returns after
    one call, which disables the VSync box: the offered list, the items of
    the box and its current index are those from before the rebuild,
    whatever the device list holds, and nothing is computed from it. *)
Theorem rebuild_under_Null_only_disables (st : State) :
  returned (GetCurrentGraphicsBackend st) = Some RendererBackend_Null ->
  exists st',
    PopulateVSyncModeSelection st = Returns tt st' /\
    QComboBox.enabled (vsync_mode_combobox st') = false /\
    calls_between st st' = [QComboBox.call_setEnabled false] /\
    vsync_mode_combobox_enum_map st' = vsync_mode_combobox_enum_map st /\
    QComboBox.items (vsync_mode_combobox st') = QComboBox.items (vsync_mode_combobox st) /\
    QComboBox.currentIndex (vsync_mode_combobox st') =
      QComboBox.currentIndex (vsync_mode_combobox st) /\
    device_present_modes st' = device_present_modes st.
Proof.
  intros Hbackend.
  destruct (PopulateVSyncModeSelection_Null st Hbackend) as (v & _ & Hrun).
  eexists. split; [exact Hrun|].
  repeat split. apply calls_between_app. reflexivity.
Qed.

(** Under the Vulkan backend a device index outside the device list makes
    the rebuild index [device_present_modes] out of range. *)
Lemma rebuild_device_out_of_range (st : State) :
  returned (GetCurrentGraphicsBackend st) = Some RendererBackend_Vulkan ->
  RendererBackend_Vulkan <> RendererBackend_Null ->
  QComboBox.currentIndex (vulkan_device_combobox st) < 0 \/
  Z.of_nat (List.length (device_present_modes st)) <=
    QComboBox.currentIndex (vulkan_device_combobox st) ->
  PopulateVSyncModeSelection st = Undefined.
Proof.
  intros Hbackend Hnot_null Hout.
  apply PopulateVSyncModeSelection_no_source with (backend := RendererBackend_Vulkan);
    try assumption.
  unfold source_list. rewrite Z.eqb_refl.
  destruct (Z.leb_spec 0 (QComboBox.currentIndex (vulkan_device_combobox st)));
    [|reflexivity].
  apply nth_error_None. lia.
Qed.

(** ** The commit *)

Lemma run_apply_funcs_returns (funcs : list (bool -> Settings.Values -> Settings.Values))
      (powered : bool) :
  forall st : State,
    run_apply_funcs funcs powered st =
    Returns tt (set_values (applied funcs powered (values st)) st).
Proof.
  induction funcs as [|func rest IH]; intros st; cbn.
  - unfold ret. now rewrite set_values_same.
  - unfold bind, modify. rewrite IH. reflexivity.
Qed.

Lemma GetValue_SetValue (val : Z) (s : Settings.SwitchableSetting) :
  Settings.GetValue (Settings.SetValue val s) = val.
Proof.
  unfold Settings.GetValue, Settings.SetValue.
  destruct (Settings.use_global s); reflexivity.
Qed.

(** C7. The commit writes the setting converted from the selected present
    mode exactly in global configuration mode: there, with a mode selected
    in the box, the VSync setting read back after the commit is
    [PresentModeToSetting] of that mode and the store is otherwise as the
    apply functions left it; in per-profile mode the store is as the apply
    functions left it and no VSync write is made. *)
Theorem commit_writes_vsync_only_in_global_mode (st : State) :
  let after_apply := applied (apply_funcs st) (powered_on st) (values st) in
  (configuring_global st = true ->
   forall mode : VkPresentModeKHR,
     0 <= QComboBox.currentIndex (vsync_mode_combobox st) ->
     nth_error (vsync_mode_combobox_enum_map st)
               (Z.to_nat (QComboBox.currentIndex (vsync_mode_combobox st))) = Some mode ->
     exists st',
       ApplyConfiguration st = Returns tt st' /\
       st' = set_values (values st') st /\
       values st' =
         Settings.set_vsync_mode
           (Settings.SetValue (PresentModeToSetting mode) (Settings.vsync_mode after_apply))
           after_apply /\
       Settings.GetValue (Settings.vsync_mode (values st')) = PresentModeToSetting mode) /\
  (configuring_global st = false ->
   ApplyConfiguration st = Returns tt (set_values after_apply st)).
Proof.
  intros after_apply. split.
  - intros Hglobal mode Hindex Hmode.
    unfold ApplyConfiguration, bind, gets. rewrite run_apply_funcs_returns.
    cbn. rewrite Hglobal.
    rewrite vector_at_in_range with (a := mode) by assumption.
    unfold modify. eexists. split; [reflexivity|].
    cbn. fold after_apply. repeat split. apply GetValue_SetValue.
  - intros Hprofile.
    unfold ApplyConfiguration, bind, gets. rewrite run_apply_funcs_returns.
    cbn. rewrite Hprofile. reflexivity.
Qed.

(** ** What a rebuild and the selection updates leave alone *)

(** In whatever state it is run, a rebuild changes no value of the settings
    store: every setting keeps its global value and its override, and the
    VSync, device and shader-backend settings are kept whole.  In global
    configuration mode the store is left exactly as it was; in per-profile
    mode the backend query sets the use-global flag of the renderer
    backend to whether the API box shows the use-global entry. *)
Lemma rebuild_values_up_to_backend_flag (st st' : State) :
  PopulateVSyncModeSelection st = Returns tt st' ->
  configuring_global st' = configuring_global st /\
  api_combobox st' = api_combobox st /\
  same_values_up_to_backend_flag (values st) (values st') /\
  (configuring_global st = true -> values st' = values st) /\
  (configuring_global st = false ->
   values st' = Settings.set_renderer_backend
                  (Settings.SetGlobal
                     (QComboBox.currentIndex (api_combobox st) =? USE_GLOBAL_INDEX)
                     (Settings.renderer_backend (values st)))
                  (values st)).
Proof.
  intros Hrun.
  destruct (GetCurrentGraphicsBackend_returns st)
    as (backend & v & Hquery & Hvalues & Hglobal & Hprofile).
  assert (Hbackend : returned (GetCurrentGraphicsBackend st) = Some backend)
    by now rewrite Hquery.
  destruct (Z.eq_dec backend RendererBackend_Null) as [->|Hnot_null].
  - destruct (PopulateVSyncModeSelection_Null st Hbackend) as (v' & Hquery' & Hrun').
    rewrite Hquery in Hquery'. injection Hquery' as ->.
    rewrite Hrun' in Hrun. injection Hrun as <-. cbn. tauto.
  - destruct (previous_mode st) as [previous|] eqn:Hprevious.
    + destruct (source_list backend st) as [source|] eqn:Hsource.
      * destruct (PopulateVSyncModeSelection_returns
                    st Hbackend Hnot_null Hprevious Hsource)
          as (st'' & Hrun' & _ & _ & _ & Hsame & Hg & Hp & Hframe).
        rewrite Hrun' in Hrun. injection Hrun as <-.
        unfold same_apart_from_vsync_and_values in Hframe. tauto.
      * rewrite (PopulateVSyncModeSelection_no_source st Hbackend Hnot_null Hsource)
          in Hrun. discriminate.
    + rewrite (PopulateVSyncModeSelection_no_previous st Hbackend Hnot_null Hprevious)
        in Hrun. discriminate.
Qed.

(** ** The use-global flag of the renderer backend *)

Lemma SetGlobal_same (s : Settings.SwitchableSetting) :
  Settings.SetGlobal (Settings.use_global s) s = s.
Proof. destruct s; reflexivity. Qed.

Lemma set_renderer_backend_same (v : Settings.Values) :
  Settings.set_renderer_backend (Settings.renderer_backend v) v = v.
Proof. destruct v; reflexivity. Qed.

(** The backend query leaves the flag in step with the API box, whatever
    it was before. *)
Lemma backend_query_leaves_flag_in_step (st st1 : State) (backend : Z) :
  GetCurrentGraphicsBackend st = Returns backend st1 ->
  backend_flag_in_step st1.
Proof.
  intros Hquery.
  destruct (GetCurrentGraphicsBackend_returns st)
    as (backend' & v & Hquery' & _ & Hglobal & Hprofile).
  rewrite Hquery' in Hquery. injection Hquery as _ <-.
  unfold backend_flag_in_step. cbn [configuring_global values api_combobox set_values].
  intros Hmode. rewrite (Hprofile Hmode). reflexivity.
Qed.

(** With the flag in step the backend query changes nothing. *)
Lemma backend_query_in_step (st : State) :
  backend_flag_in_step st ->
  exists backend, GetCurrentGraphicsBackend st = Returns backend st.
Proof.
  unfold backend_flag_in_step. intros Hflag.
  destruct (GetCurrentGraphicsBackend_returns st)
    as (backend & v & Hquery & _ & Hglobal & Hprofile).
  exists backend. rewrite Hquery. f_equal.
  destruct (configuring_global st) eqn:Hmode.
  - rewrite (Hglobal eq_refl). apply set_values_same.
  - rewrite (Hprofile eq_refl), <- (Hflag eq_refl), SetGlobal_same,
      set_renderer_backend_same.
    apply set_values_same.
Qed.

(** With the flag in step a rebuild that returns leaves the settings store
    as it was. *)
Lemma rebuild_keeps_store_in_step (st st' : State) :
  backend_flag_in_step st ->
  PopulateVSyncModeSelection st = Returns tt st' ->
  values st' = values st.
Proof.
  intros Hflag Hrun.
  destruct (@rebuild_values_up_to_backend_flag st st' Hrun)
    as (_ & _ & _ & Hglobal & Hprofile).
  unfold backend_flag_in_step in Hflag.
  destruct (configuring_global st) eqn:Hg; [exact (Hglobal eq_refl)|].
  rewrite (Hprofile eq_refl), <- (Hflag eq_refl), SetGlobal_same.
  apply set_renderer_backend_same.
Qed.


(** In whatever state they are run: called with index -1 either update
    returns with the state untouched.  Otherwise the device selection is
    stored, converted to the unsigned member, under the Vulkan backend and
    kept under any other, the shader-backend selection is stored under the
    OpenGL backend and kept under any other; each update leaves the other
    selection, every widget and every value of the settings store alone,
    and the whole store in global configuration mode; in per-profile mode
    the backend query may set the use-global flag of the renderer
    backend. *)
Lemma selection_updates_up_to_backend_flag (st : State) (index : Z) :
  UpdateDeviceSelection (-1) st = Returns tt st /\
  UpdateShaderBackendSelection (-1) st = Returns tt st /\
  (exists st',
      UpdateDeviceSelection index st = Returns tt st' /\
      (returned (GetCurrentGraphicsBackend st) <> Some RendererBackend_Vulkan ->
       vulkan_device st' = vulkan_device st) /\
      (index <> -1 ->
       returned (GetCurrentGraphicsBackend st) = Some RendererBackend_Vulkan ->
       vulkan_device st' = to_u32 index) /\
      shader_backend st' = shader_backend st /\
      same_apart_from_selections_and_values st st' /\
      same_values_up_to_backend_flag (values st) (values st') /\
      (configuring_global st = true -> values st' = values st)) /\
  (exists st',
      UpdateShaderBackendSelection index st = Returns tt st' /\
      (returned (GetCurrentGraphicsBackend st) <> Some RendererBackend_OpenGL ->
       shader_backend st' = shader_backend st) /\
      (index <> -1 ->
       returned (GetCurrentGraphicsBackend st) = Some RendererBackend_OpenGL ->
       shader_backend st' = index) /\
      vulkan_device st' = vulkan_device st /\
      same_apart_from_selections_and_values st st' /\
      same_values_up_to_backend_flag (values st) (values st') /\
      (configuring_global st = true -> values st' = values st)).
Proof.
  assert (Hrefl : same_values_up_to_backend_flag (values st) (values st))
    by (unfold same_values_up_to_backend_flag; tauto).
  destruct (GetCurrentGraphicsBackend_returns st)
    as (backend & v & Hquery & Hvalues & Hglobal & _).
  split; [reflexivity|]. split; [reflexivity|].
  unfold UpdateDeviceSelection, UpdateShaderBackendSelection,
    same_apart_from_selections_and_values, same_values_up_to_backend_flag in *.
  split.
  - destruct (Z.eqb_spec index (-1)) as [Hminus|Hindex].
    + exists st. unfold ret. repeat split; try tauto; try reflexivity.
    + unfold bind. rewrite Hquery. cbn.
      destruct (Z.eqb_spec backend RendererBackend_Vulkan) as [->|Hother];
        eexists; (split; [reflexivity|]); cbn;
        repeat split; try tauto; try reflexivity;
        try (intros; reflexivity); try (cbn; intros; congruence).
  - destruct (Z.eqb_spec index (-1)) as [Hminus|Hindex].
    + exists st. unfold ret. repeat split; try tauto; try reflexivity.
    + unfold bind. rewrite Hquery. cbn.
      destruct (Z.eqb_spec backend RendererBackend_OpenGL) as [->|Hother];
        eexists; (split; [reflexivity|]); cbn;
        repeat split; try tauto; try reflexivity;
        try (cbn; intros; congruence).
Qed.

(** C10. In a state in which the use-global flag of the renderer backend
    is in step with the API box, as every slot of the tab finds it: called
    with index -1 either update returns with the state untouched;
    otherwise the device update stores the index, converted to the
    unsigned member, under the Vulkan backend and the shader-backend
    update stores it under the OpenGL backend, and that stored selection
    is all that changes; under any other backend the whole state is left
    as it was. *)
Theorem selection_updates_frame (st : State) (index : Z) :
  backend_flag_in_step st ->
  UpdateDeviceSelection (-1) st = Returns tt st /\
  UpdateShaderBackendSelection (-1) st = Returns tt st /\
  (index <> -1 ->
   exists backend,
     returned (GetCurrentGraphicsBackend st) = Some backend /\
     UpdateDeviceSelection index st =
       Returns tt (if backend =? RendererBackend_Vulkan
                   then set_vulkan_device (to_u32 index) st else st) /\
     UpdateShaderBackendSelection index st =
       Returns tt (if backend =? RendererBackend_OpenGL
                   then set_shader_backend index st else st)).
Proof.
  intros Hflag.
  destruct (@backend_query_in_step st Hflag) as (backend & Hquery).
  split; [reflexivity|]. split; [reflexivity|].
  intros Hindex. exists backend. split; [now rewrite Hquery|].
  unfold UpdateDeviceSelection, UpdateShaderBackendSelection, bind.
  destruct (Z.eqb_spec index (-1)) as [Hminus|_]; [contradiction|].
  rewrite Hquery. split.
  - destruct (backend =? RendererBackend_Vulkan); reflexivity.
  - destruct (backend =? RendererBackend_OpenGL); reflexivity.
Qed.

(** ** A round trip of backends *)

Lemma perform_all_loop_calls_range (backend : Z) (current_mode : VkPresentModeKHR)
      (present_modes : list VkPresentModeKHR) :
  forall (index : Z) (cb : QComboBox.t),
    QComboBox.count cb = index ->
    -1 <= QComboBox.currentIndex cb < index ->
    let cb' := QComboBox.perform_all
                 (loop_calls backend current_mode present_modes index) cb in
    -1 <= QComboBox.currentIndex cb' < QComboBox.count cb'.
Proof.
  induction present_modes as [|present_mode rest IH]; intros index cb Hcount Hcur;
    cbn [loop_calls].
  - cbn. lia.
  - destruct (isEmpty (TranslateVSyncMode present_mode backend)) eqn:Hname.
    + apply IH; assumption.
    + assert (Hindex : 0 <= index) by (unfold QComboBox.count in Hcount; lia).
      cbn zeta. rewrite perform_all_cons. cbn [QComboBox.perform].
      rewrite insertItem_at_end by exact Hcount.
      set (cb1 := {| QComboBox.enabled := QComboBox.enabled cb;
                     QComboBox.items := (QComboBox.items cb ++
                        [TranslateVSyncMode present_mode backend])%list;
                     QComboBox.currentIndex := _;
                     QComboBox.placeholder := QComboBox.placeholder cb |}).
      assert (Hcount1 : QComboBox.count cb1 = index + 1).
      { unfold QComboBox.count in *. subst cb1. cbn. rewrite length_app. cbn. lia. }
      assert (Hcur1 : -1 <= QComboBox.currentIndex cb1 < index + 1).
      { subst cb1. cbn.
        destruct (Z.ltb_spec (QComboBox.currentIndex cb) 0) as [Hneg|Hpos];
          [destruct ((index =? 0) && negb (QComboBox.placeholder cb)); lia|].
        destruct (Z.leb_spec index (QComboBox.currentIndex cb)); lia. }
      destruct (present_mode =? current_mode); cbn [app].
      * rewrite perform_all_cons. cbn [QComboBox.perform].
        apply IH; [exact Hcount1|].
        unfold QComboBox.setCurrentIndex. cbn [QComboBox.currentIndex].
        rewrite Hcount1.
        destruct (Z.leb_spec 0 index); [|lia].
        destruct (Z.ltb_spec index (index + 1)); cbn [andb]; lia.
      * apply IH; assumption.
Qed.

(** The box after a rebuild: it shows the names of the offered modes, its
    current index names an offered mode or is -1, and when the previous
    mode is offered the current index is the selection the loop made, an
    entry equal to the previous mode. *)
Lemma rebuilt_box (backend : Z) (previous : VkPresentModeKHR)
      (source : list VkPresentModeKHR) (cb : QComboBox.t) :
  let offered := filter (nameable backend) source in
  let cb' := QComboBox.perform_all (loop_calls backend previous source 0)
               (QComboBox.clear (QComboBox.setEnabled true cb)) in
  QComboBox.items cb' = map (fun mode => TranslateVSyncMode mode backend) offered /\
  -1 <= QComboBox.currentIndex cb' < Z.of_nat (List.length offered) /\
  (In previous offered ->
   exists k : nat,
     selection_made (loop_calls backend previous source 0) = Some (Z.of_nat k) /\
     QComboBox.currentIndex cb' = Z.of_nat k /\
     nth_error offered k = Some previous).
Proof.
  intros offered cb'.
  destruct (@perform_all_loop_calls backend previous source 0
              (QComboBox.clear (QComboBox.setEnabled true cb)))
    as (Hitems & _ & _ & Hselected); [reflexivity | cbn; lia |].
  pose proof (@perform_all_loop_calls_range backend previous source 0
                (QComboBox.clear (QComboBox.setEnabled true cb))
                eq_refl ltac:(cbn; lia)) as Hrange.
  cbn zeta in Hitems, Hselected, Hrange. fold cb' in Hitems, Hselected, Hrange.
  cbn [QComboBox.items QComboBox.clear app] in Hitems. fold offered in Hitems.
  split; [exact Hitems|]. split.
  - unfold QComboBox.count in Hrange. rewrite Hitems, length_map in Hrange.
    exact Hrange.
  - intros Hin.
    destruct (loop_calls_selection backend previous source 0) as [Hsel _].
    destruct (Hsel Hin) as (k & Hmade & Hnth & _).
    rewrite Hmade in Hselected. exists k. repeat split; assumption.
Qed.

(** The backend the query returns depends on the configuration mode, the
    index the API box shows and the global value of the renderer-backend
    setting only. *)
Lemma backend_query_stable (st st' : State) :
  configuring_global st' = configuring_global st ->
  QComboBox.currentIndex (api_combobox st') = QComboBox.currentIndex (api_combobox st) ->
  Settings.value (Settings.renderer_backend (values st')) =
    Settings.value (Settings.renderer_backend (values st)) ->
  returned (GetCurrentGraphicsBackend st') = returned (GetCurrentGraphicsBackend st).
Proof.
  intros Hmode Hindex Hvalue.
  unfold GetCurrentGraphicsBackend, bind, gets, modify, ret.
  rewrite Hmode, Hindex.
  destruct (configuring_global st); [reflexivity|].
  destruct (QComboBox.currentIndex (api_combobox st) =? USE_GLOBAL_INDEX);
    cbn; congruence.
Qed.

(** With the current index of the VSync box at -1 or at an entry of the
    enum map, there is a previous mode to read. *)
Lemma previous_mode_defined (st : State) :
  -1 <= QComboBox.currentIndex (vsync_mode_combobox st)
     < Z.of_nat (List.length (vsync_mode_combobox_enum_map st)) ->
  exists previous, previous_mode st = Some previous.
Proof.
  intros Hrange. unfold previous_mode.
  destruct (Z.eqb_spec (QComboBox.currentIndex (vsync_mode_combobox st)) (-1));
    [eexists; reflexivity|].
  destruct (Z.leb_spec 0 (QComboBox.currentIndex (vsync_mode_combobox st))); [|lia].
  destruct (nth_error (vsync_mode_combobox_enum_map st)
              (Z.to_nat (QComboBox.currentIndex (vsync_mode_combobox st))))
    as [mode|] eqn:Hnth; [eexists; reflexivity|].
  apply nth_error_None in Hnth. lia.
Qed.

Lemma previous_mode_at (st : State) (k : nat) (mode : VkPresentModeKHR) :
  QComboBox.currentIndex (vsync_mode_combobox st) = Z.of_nat k ->
  nth_error (vsync_mode_combobox_enum_map st) k = Some mode ->
  previous_mode st = Some mode.
Proof.
  intros Hindex Hnth. unfold previous_mode. rewrite Hindex.
  destruct (Z.eqb_spec (Z.of_nat k) (-1)); [lia|].
  destruct (Z.leb_spec 0 (Z.of_nat k)); [|lia].
  now rewrite Nat2Z.id.
Qed.

Lemma distinct_backends_inv :
  distinct_backends ->
  RendererBackend_OpenGL <> RendererBackend_Vulkan /\
  RendererBackend_OpenGL <> RendererBackend_Null /\
  RendererBackend_Vulkan <> RendererBackend_Null.
Proof.
  unfold distinct_backends. intros Hnodup.
  inversion Hnodup as [|? ? Hfirst Hrest]; subst.
  inversion Hrest as [|? ? Hsecond _]; subst.
  cbn in Hfirst, Hsecond. repeat split; intros Heq; [apply Hfirst|apply Hfirst|apply Hsecond];
    rewrite Heq; auto.
Qed.

(** C9, as the code has it. Start from a rebuild under the Vulkan backend;
    switch the API box to the OpenGL backend and rebuild, switch it back
    and rebuild, the device box, the device list and the settings being
    left alone in between.  The three rebuilds return, the offered list
    and the names shown after the round trip are those from before it,
    and the current index is the one from before it whenever the mode
    selected before the round trip is offered under both backends. *)
Theorem backend_round_trip (st : State) (opengl_index : Z)
        (previous : VkPresentModeKHR) (source : list VkPresentModeKHR) :
  distinct_backends ->
  0 <= QComboBox.currentIndex (api_combobox st) < QComboBox.count (api_combobox st) ->
  returned (GetCurrentGraphicsBackend st) = Some RendererBackend_Vulkan ->
  returned (GetCurrentGraphicsBackend (set_api_index opengl_index st))
    = Some RendererBackend_OpenGL ->
  previous_mode st = Some previous ->
  source_list RendererBackend_Vulkan st = Some source ->
  exists before under_opengl after : State,
    PopulateVSyncModeSelection st = Returns tt before /\
    PopulateVSyncModeSelection (set_api_index opengl_index before)
      = Returns tt under_opengl /\
    PopulateVSyncModeSelection
      (set_api_index (QComboBox.currentIndex (api_combobox st)) under_opengl)
      = Returns tt after /\
    vsync_mode_combobox_enum_map under_opengl =
      filter (nameable RendererBackend_OpenGL) default_present_modes /\
    vsync_mode_combobox_enum_map after = vsync_mode_combobox_enum_map before /\
    QComboBox.items (vsync_mode_combobox after) =
      QComboBox.items (vsync_mode_combobox before) /\
    (In previous (vsync_mode_combobox_enum_map before) ->
     In previous (vsync_mode_combobox_enum_map under_opengl) ->
     QComboBox.currentIndex (vsync_mode_combobox after) =
       QComboBox.currentIndex (vsync_mode_combobox before)).
Proof.
  intros Hdistinct Hapi Hvulkan Hopengl Hprevious Hsource.
  destruct (distinct_backends_inv Hdistinct) as (Hgv & Hgn & Hvn).
  (* the rebuild before the round trip *)
  destruct (PopulateVSyncModeSelection_returns st Hvulkan Hvn Hprevious Hsource)
    as (s1 & Hrun1 & Hmap1 & _ & Hbox1 & Hvalues1 & _ & _ & Hframe1).
  destruct Hframe1 as (Hmode1 & _ & _ & Hapi1 & Hdevice1 & Hmodes1 & _).
  destruct Hvalues1 as (Hvalue1 & _).
  destruct (@rebuilt_box RendererBackend_Vulkan previous source (vsync_mode_combobox st))
    as (Hitems1 & Hrange1 & Hselected1).
  cbn zeta in Hitems1, Hrange1, Hselected1.
  rewrite <- Hbox1, <- Hmap1 in Hitems1, Hrange1, Hselected1.
  (* under OpenGL *)
  set (t1 := set_api_index opengl_index s1).
  assert (Hquery1 : returned (GetCurrentGraphicsBackend t1) = Some RendererBackend_OpenGL).
  { rewrite <- Hopengl. apply backend_query_stable; subst t1; cbn;
      [exact Hmode1 | now rewrite Hapi1 | exact Hvalue1]. }
  destruct (@previous_mode_defined t1) as (p1 & Hp1); [exact Hrange1|].
  assert (Hsource1 : source_list RendererBackend_OpenGL t1 = Some default_present_modes).
  { unfold source_list.
    destruct (Z.eqb_spec RendererBackend_OpenGL RendererBackend_Vulkan);
      [contradiction|reflexivity]. }
  destruct (PopulateVSyncModeSelection_returns t1 Hquery1 Hgn Hp1 Hsource1)
    as (s2 & Hrun2 & Hmap2 & _ & Hbox2 & Hvalues2 & _ & _ & Hframe2).
  destruct Hframe2 as (Hmode2 & _ & _ & Hapi2 & Hdevice2 & Hmodes2 & _).
  destruct Hvalues2 as (Hvalue2 & _).
  destruct (@rebuilt_box RendererBackend_OpenGL p1 default_present_modes
                         (vsync_mode_combobox t1))
    as (_ & Hrange2 & Hselected2).
  cbn zeta in Hrange2, Hselected2.
  rewrite <- Hbox2, <- Hmap2 in Hrange2, Hselected2.
  (* back under Vulkan *)
  set (t2 := set_api_index (QComboBox.currentIndex (api_combobox st)) s2).
  assert (Hquery2 : returned (GetCurrentGraphicsBackend t2) = Some RendererBackend_Vulkan).
  { rewrite <- Hvulkan. apply backend_query_stable; subst t2 t1; cbn in *.
    - congruence.
    - rewrite Hapi2, Hapi1. unfold QComboBox.count. cbn.
      unfold QComboBox.count in Hapi.
      destruct (Z.leb_spec 0 (QComboBox.currentIndex (api_combobox st))); [|lia].
      destruct (Z.ltb_spec (QComboBox.currentIndex (api_combobox st))
                           (Z.of_nat (List.length (QComboBox.items (api_combobox st)))));
        [reflexivity|lia].
    - congruence. }
  destruct (@previous_mode_defined t2) as (p2 & Hp2); [exact Hrange2|].
  assert (Hsource2 : source_list RendererBackend_Vulkan t2 = Some source).
  { rewrite <- Hsource. unfold source_list. subst t2 t1. cbn in *.
    now rewrite Hdevice2, Hdevice1, Hmodes2, Hmodes1. }
  destruct (PopulateVSyncModeSelection_returns t2 Hquery2 Hvn Hp2 Hsource2)
    as (s3 & Hrun3 & Hmap3 & _ & Hbox3 & _).
  destruct (@rebuilt_box RendererBackend_Vulkan p2 source (vsync_mode_combobox t2))
    as (Hitems3 & _ & Hselected3).
  cbn zeta in Hitems3, Hselected3.
  rewrite <- Hbox3, <- Hmap3 in Hitems3, Hselected3.
  exists s1, s2, s3.
  split; [exact Hrun1|]. split; [exact Hrun2|]. split; [exact Hrun3|].
  split; [exact Hmap2|]. split; [congruence|]. split; [congruence|].
  intros Hin1 Hin2.
  destruct (Hselected1 Hin1) as (k1 & Hmade1 & Hindex1 & Hnth1).
  assert (Hp1' : p1 = previous).
  { assert (Hat : previous_mode t1 = Some previous)
      by (eapply previous_mode_at; [exact Hindex1|exact Hnth1]).
    congruence. }
  subst p1.
  destruct (Hselected2 Hin2) as (k2 & _ & Hindex2 & Hnth2).
  assert (Hp2' : p2 = previous).
  { assert (Hat : previous_mode t2 = Some previous)
      by (eapply previous_mode_at; [exact Hindex2|exact Hnth2]).
    congruence. }
  subst p2.
  assert (Hin3 : In previous (vsync_mode_combobox_enum_map s3)) by congruence.
  destruct (Hselected3 Hin3) as (k3 & Hmade3 & Hindex3 & _).
  rewrite Hindex1, Hindex3. congruence.
Qed.

End Properties.

(** * The model run on concrete states

    The properties above applied to the concrete states, under
    [declarations_in_order]: backend OpenGL is 0, Vulkan 1, Null 2; the
    use-global entry of the per-profile API box is at index 0 and the
    backends start at index 2. *)

Lemma distinct_backends_in_order : @distinct_backends declarations_in_order.
Proof.
  unfold distinct_backends. cbn.
  repeat constructor; cbn; intuition discriminate.
Qed.

(** ** Conversions *)

Lemma setting_mode_roundtrip_witness :
  In 1 [0; 1; 2; 3] /\
  @PresentModeToSetting declarations_in_order (@VSyncSettingToMode declarations_in_order 1) = 1.
Proof.
  split; [cbn; lia|].
  apply (@setting_mode_roundtrip declarations_in_order 1). cbn. lia.
Defined.

Lemma conversions_total_witness :
  ~ In 7 mapped_present_modes /\ @PresentModeToSetting declarations_in_order 7 = 2.
Proof.
  assert (Hout : ~ In 7 mapped_present_modes) by (cbv; lia).
  split; [exact Hout|].
  exact (proj2 (proj2 (@conversions_total declarations_in_order)) 7 Hout).
Defined.

(** ** Rebuilds *)

Lemma rebuild_offers_nameable_source_witness :
  (1 = 1 -> nth_error [three_modes] 0 = Some three_modes) /\
  (1 <> 1 -> three_modes = default_present_modes) /\
  exists st',
    @PopulateVSyncModeSelection declarations_in_order (global_state 1 1 false)
      = Returns tt st' /\
    vsync_mode_combobox_enum_map st' = three_modes /\
    QComboBox.items (vsync_mode_combobox st') = three_names.
Proof.
  apply (@rebuild_offers_nameable_source declarations_in_order
           (global_state 1 1 false) 1 VK_PRESENT_MODE_MAILBOX_KHR three_modes).
  - reflexivity.
  - cbn. lia.
  - reflexivity.
  - reflexivity.
Defined.

Lemma rebuild_selection_continuity_witness :
  exists st',
    @PopulateVSyncModeSelection declarations_in_order (global_state 0 1 false)
      = Returns tt st' /\
    (In VK_PRESENT_MODE_MAILBOX_KHR (vsync_mode_combobox_enum_map st') ->
     exists k : nat,
       selection_made (calls_between (global_state 0 1 false) st') = Some (Z.of_nat k) /\
       QComboBox.currentIndex (vsync_mode_combobox st') = Z.of_nat k /\
       nth_error (vsync_mode_combobox_enum_map st') k = Some VK_PRESENT_MODE_MAILBOX_KHR /\
       (forall j : nat, (k < j)%nat ->
          nth_error (vsync_mode_combobox_enum_map st') j
            <> Some VK_PRESENT_MODE_MAILBOX_KHR)) /\
    (~ In VK_PRESENT_MODE_MAILBOX_KHR (vsync_mode_combobox_enum_map st') ->
     selection_made (calls_between (global_state 0 1 false) st') = None /\
     (forall index,
         ~ In (QComboBox.call_setCurrentIndex index)
              (calls_between (global_state 0 1 false) st')) /\
     QComboBox.currentIndex (vsync_mode_combobox st') =
       match vsync_mode_combobox_enum_map st' with
       | [] => -1
       | _ :: _ =>
         if QComboBox.placeholder (vsync_mode_combobox (global_state 0 1 false))
         then -1 else 0
       end).
Proof.
  apply (@rebuild_selection_continuity declarations_in_order
           (global_state 0 1 false) 0 VK_PRESENT_MODE_MAILBOX_KHR default_present_modes).
  - reflexivity.
  - cbn. lia.
  - reflexivity.
  - reflexivity.
Defined.

(** C2 fails as stated: Mailbox was selected under Vulkan; rebuilt under
    OpenGL, which offers Immediate and FIFO, the box has no entry equal to
    Mailbox and the rebuild makes no [setCurrentIndex] call, yet the box
    ends with its first entry, Immediate, current: a commit then writes
    Immediate over the persisted FIFO. *)
Lemma rebuild_leaves_first_entry_selected :
  exists st' committed,
    @PopulateVSyncModeSelection declarations_in_order (global_state 0 1 false)
      = Returns tt st' /\
    @previous_mode declarations_in_order (global_state 0 1 false)
      = Some VK_PRESENT_MODE_MAILBOX_KHR /\
    ~ In VK_PRESENT_MODE_MAILBOX_KHR (vsync_mode_combobox_enum_map st') /\
    (forall index,
        ~ In (QComboBox.call_setCurrentIndex index)
             (calls_between (global_state 0 1 false) st')) /\
    QComboBox.currentIndex (vsync_mode_combobox st') = 0 /\
    nth_error (vsync_mode_combobox_enum_map st') 0 = Some VK_PRESENT_MODE_IMMEDIATE_KHR /\
    @ApplyConfiguration declarations_in_order st' = Returns tt committed /\
    Settings.GetValue (Settings.vsync_mode (values (global_state 0 1 false))) = 2 /\
    Settings.GetValue (Settings.vsync_mode (values committed)) = 0.
Proof.
  do 2 eexists. split; [lazy; reflexivity|].
  split; [reflexivity|]. split; [cbv; intuition discriminate|].
  split; [intros index Hcall; cbv in Hcall; intuition discriminate|].
  split; [reflexivity|]. split; [reflexivity|].
  split; [lazy; reflexivity|]. split; reflexivity.
Qed.

(** Mailbox was selected under Vulkan; rebuilt under OpenGL, which offers
    Immediate and FIFO, the box with a placeholder text has no current item
    and no [setCurrentIndex] call was made. *)
Lemma rebuild_without_previous_mode_selects_nothing :
  exists st',
    @PopulateVSyncModeSelection declarations_in_order (global_state 0 1 true)
      = Returns tt st' /\
    vsync_mode_combobox_enum_map st' = default_present_modes /\
    calls_between (global_state 0 1 true) st' =
      [QComboBox.call_setEnabled true; QComboBox.call_clear;
       QComboBox.call_insertItem 0 "Off"%string;
       QComboBox.call_insertItem 1 "On"%string] /\
    QComboBox.currentIndex (vsync_mode_combobox st') = -1.
Proof.
  eexists. split; [lazy; reflexivity|]. repeat split.
Qed.

Lemma rebuild_under_Null_only_disables_witness :
  exists st',
    @PopulateVSyncModeSelection declarations_in_order (global_state 2 1 false)
      = Returns tt st' /\
    QComboBox.enabled (vsync_mode_combobox st') = false /\
    calls_between (global_state 2 1 false) st' = [QComboBox.call_setEnabled false] /\
    vsync_mode_combobox_enum_map st' = three_modes /\
    QComboBox.items (vsync_mode_combobox st') = three_names /\
    QComboBox.currentIndex (vsync_mode_combobox st') = 1 /\
    device_present_modes st' = [three_modes].
Proof.
  apply (@rebuild_under_Null_only_disables declarations_in_order (global_state 2 1 false)).
  reflexivity.
Defined.

(** C3 fails as stated: the three modes offered under Vulkan are still
    offered after a rebuild under the Null backend. *)
Lemma rebuild_under_Null_keeps_offered_list :
  returned (@GetCurrentGraphicsBackend declarations_in_order (global_state 2 1 false))
    = Some (@RendererBackend_Null declarations_in_order) /\
  exists st',
    @PopulateVSyncModeSelection declarations_in_order (global_state 2 1 false)
      = Returns tt st' /\
    vsync_mode_combobox_enum_map st' = three_modes /\
    vsync_mode_combobox_enum_map st' <> [].
Proof.
  split; [reflexivity|].
  eexists. split; [reflexivity|]. split; [reflexivity|]. discriminate.
Qed.

(** C6. On a machine without a Vulkan device, with the Vulkan backend
    chosen, the rebuild indexes the empty device list at -1: its behaviour
    is undefined. *)
Theorem rebuild_without_device_is_undefined :
  returned (@GetCurrentGraphicsBackend declarations_in_order no_device_state)
    = Some (@RendererBackend_Vulkan declarations_in_order) /\
  QComboBox.currentIndex (vulkan_device_combobox no_device_state) = -1 /\
  device_present_modes no_device_state = [] /\
  @PopulateVSyncModeSelection declarations_in_order no_device_state = Undefined.
Proof.
  repeat split.
Qed.

Lemma rebuild_device_out_of_range_at_no_device :
  @PopulateVSyncModeSelection declarations_in_order no_device_state = Undefined.
Proof.
  apply (@rebuild_device_out_of_range declarations_in_order no_device_state).
  - reflexivity.
  - cbn. lia.
  - left. cbn. lia.
Defined.

(** ** The commit *)

Lemma commit_writes_vsync_only_in_global_mode_witness :
  (exists st',
      @ApplyConfiguration declarations_in_order (commit_state [write_shader_backend])
        = Returns tt st' /\
      st' = set_values (values st') (commit_state [write_shader_backend]) /\
      values st' =
        Settings.set_vsync_mode (setting 1 2 true)
          (write_shader_backend false (sample_values true)) /\
      Settings.GetValue (Settings.vsync_mode (values st')) = 1) /\
  @ApplyConfiguration declarations_in_order profile_state
    = Returns tt (set_values (sample_values false) profile_state).
Proof.
  pose proof (@commit_writes_vsync_only_in_global_mode declarations_in_order
                (commit_state [write_shader_backend])) as Hglobal.
  pose proof (@commit_writes_vsync_only_in_global_mode declarations_in_order
                profile_state) as Hprofile.
  cbn zeta in Hglobal, Hprofile.
  split.
  - apply (proj1 Hglobal eq_refl VK_PRESENT_MODE_MAILBOX_KHR).
    + cbn. lia.
    + reflexivity.
  - apply (proj2 Hprofile eq_refl).
Defined.

(** ** The settings store across a rebuild and the selection updates *)


Lemma selection_updates_frame_witness :
  @UpdateDeviceSelection declarations_in_order (-1) profile_vulkan_state
    = Returns tt profile_vulkan_state /\
  @UpdateShaderBackendSelection declarations_in_order (-1) profile_vulkan_state
    = Returns tt profile_vulkan_state /\
  exists backend,
    returned (@GetCurrentGraphicsBackend declarations_in_order profile_vulkan_state)
      = Some backend /\
    @UpdateDeviceSelection declarations_in_order 5 profile_vulkan_state =
      Returns tt (if backend =? 1
                  then set_vulkan_device (to_u32 5) profile_vulkan_state
                  else profile_vulkan_state) /\
    @UpdateShaderBackendSelection declarations_in_order 5 profile_vulkan_state =
      Returns tt (if backend =? 0
                  then set_shader_backend 5 profile_vulkan_state
                  else profile_vulkan_state).
Proof.
  destruct (@selection_updates_frame declarations_in_order profile_vulkan_state 5)
    as (Hdevice & Hshader & Hother).
  - unfold backend_flag_in_step. intros _. reflexivity.
  - split; [exact Hdevice|]. split; [exact Hshader|]. apply Hother. lia.
Defined.

(** The device update converts its index to the unsigned member: called
    with -2 under the Vulkan backend it stores 4294967294. *)
Lemma device_update_stores_unsigned :
  exists st',
    @UpdateDeviceSelection declarations_in_order (-2) (global_state 1 1 false)
      = Returns tt st' /\
    vulkan_device st' = 4294967294.
Proof.
  eexists. split; reflexivity.
Qed.

(** ** The round trip *)

Lemma backend_round_trip_witness :
  exists before under_opengl after : State,
    @PopulateVSyncModeSelection declarations_in_order (global_state 1 0 false)
      = Returns tt before /\
    @PopulateVSyncModeSelection declarations_in_order (set_api_index 0 before)
      = Returns tt under_opengl /\
    @PopulateVSyncModeSelection declarations_in_order (set_api_index 1 under_opengl)
      = Returns tt after /\
    vsync_mode_combobox_enum_map under_opengl = default_present_modes /\
    vsync_mode_combobox_enum_map after = vsync_mode_combobox_enum_map before /\
    QComboBox.items (vsync_mode_combobox after) =
      QComboBox.items (vsync_mode_combobox before) /\
    (In VK_PRESENT_MODE_IMMEDIATE_KHR (vsync_mode_combobox_enum_map before) ->
     In VK_PRESENT_MODE_IMMEDIATE_KHR (vsync_mode_combobox_enum_map under_opengl) ->
     QComboBox.currentIndex (vsync_mode_combobox after) =
       QComboBox.currentIndex (vsync_mode_combobox before)).
Proof.
  apply (@backend_round_trip declarations_in_order (global_state 1 0 false) 0
           VK_PRESENT_MODE_IMMEDIATE_KHR three_modes).
  - exact distinct_backends_in_order.
  - cbn. lia.
  - reflexivity.
  - reflexivity.
  - reflexivity.
  - reflexivity.
Defined.

(** C9 fails as stated: with Mailbox selected before the round trip, the
    box shows Immediate after it, the first item of the OpenGL list having
    become current on insertion; when the box has a placeholder text it
    shows FIFO, the persisted setting. *)
Lemma round_trip_loses_selection :
  (exists before after : State,
      @PopulateVSyncModeSelection declarations_in_order (global_state 1 1 false)
        = Returns tt before /\
      and_then (@PopulateVSyncModeSelection declarations_in_order (set_api_index 0 before))
               (fun under_opengl =>
                  @PopulateVSyncModeSelection declarations_in_order
                    (set_api_index 1 under_opengl))
        = Returns tt after /\
      vsync_mode_combobox_enum_map after = vsync_mode_combobox_enum_map before /\
      QComboBox.currentIndex (vsync_mode_combobox before) = 1 /\
      QComboBox.currentIndex (vsync_mode_combobox after) = 0) /\
  (exists before after : State,
      @PopulateVSyncModeSelection declarations_in_order (global_state 1 1 true)
        = Returns tt before /\
      and_then (@PopulateVSyncModeSelection declarations_in_order (set_api_index 0 before))
               (fun under_opengl =>
                  @PopulateVSyncModeSelection declarations_in_order
                    (set_api_index 1 under_opengl))
        = Returns tt after /\
      vsync_mode_combobox_enum_map after = vsync_mode_combobox_enum_map before /\
      QComboBox.currentIndex (vsync_mode_combobox before) = 1 /\
      QComboBox.currentIndex (vsync_mode_combobox after) = 2).
Proof.
  split; do 2 eexists;
    (split; [lazy; reflexivity|]); (split; [lazy; reflexivity|]); repeat split.
Qed.

(** * Further properties of the file *)

Section NamesAndInvariants.

Context `{Declarations}.

(** ** Which modes a rebuild can offer *)

(** Under a backend other than OpenGL a present mode has a name exactly
    when it is one of the four mapped modes, whatever the translations. *)
Lemma nameable_not_OpenGL (backend : Z) (mode : VkPresentModeKHR) :
  backend <> RendererBackend_OpenGL ->
  nameable backend mode = is_mapped mode.
Proof.
  intros Hbackend.
  unfold nameable, TranslateVSyncMode, is_mapped, mapped_present_modes.
  cbn [existsb].
  destruct (Z.eqb_spec backend RendererBackend_OpenGL) as [|_]; [contradiction|].
  destruct (mode =? VK_PRESENT_MODE_IMMEDIATE_KHR); [reflexivity|].
  destruct (mode =? VK_PRESENT_MODE_MAILBOX_KHR); [reflexivity|].
  destruct (mode =? VK_PRESENT_MODE_FIFO_KHR); [reflexivity|].
  destruct (mode =? VK_PRESENT_MODE_FIFO_RELAXED_KHR); reflexivity.
Qed.

Lemma is_mapped_In (mode : VkPresentModeKHR) :
  is_mapped mode = true <-> In mode mapped_present_modes.
Proof.
  unfold is_mapped. rewrite existsb_exists. split.
  - intros (m & Hin & Heq). apply Z.eqb_eq in Heq. now subst.
  - intros Hin. exists mode. split; [exact Hin|apply Z.eqb_refl].
Qed.

(** X1. Under the Vulkan backend, and under every backend value other than
    Null and OpenGL, a rebuild offers exactly the modes of its source list
    that are among the four mapped present modes, in source order and
    whatever the translation catalogue: a present mode the file has no case
    for is never offered, a mapped one always is. *)
Theorem rebuild_offers_mapped_modes (st : State) (backend : Z)
        (previous : VkPresentModeKHR) (source : list VkPresentModeKHR) :
  returned (GetCurrentGraphicsBackend st) = Some backend ->
  backend <> RendererBackend_Null ->
  backend <> RendererBackend_OpenGL ->
  previous_mode st = Some previous ->
  source_list backend st = Some source ->
  exists st',
    PopulateVSyncModeSelection st = Returns tt st' /\
    vsync_mode_combobox_enum_map st' = filter is_mapped source /\
    (forall mode, In mode (vsync_mode_combobox_enum_map st') <->
                  In mode source /\ In mode mapped_present_modes).
Proof.
  intros Hbackend Hnot_null Hnot_opengl Hprevious Hsource.
  destruct (PopulateVSyncModeSelection_returns st Hbackend Hnot_null Hprevious Hsource)
    as (st' & Hrun & Hmap & _).
  assert (Hfilter : filter (nameable backend) source = filter is_mapped source).
  { apply filter_ext. intros mode. now apply nameable_not_OpenGL. }
  exists st'. split; [exact Hrun|]. rewrite Hmap, Hfilter. split; [reflexivity|].
  intros mode. rewrite filter_In, is_mapped_In. reflexivity.
Qed.

(** X2. Under the OpenGL backend a rebuild offers Immediate and FIFO under
    the translated labels of Off and On, whatever the device box shows; a
    mode whose translated label is empty is left out. *)
Theorem rebuild_under_OpenGL_offers_Off_and_On (st : State)
        (previous : VkPresentModeKHR) :
  distinct_backends ->
  returned (GetCurrentGraphicsBackend st) = Some RendererBackend_OpenGL ->
  previous_mode st = Some previous ->
  exists st',
    PopulateVSyncModeSelection st = Returns tt st' /\
    vsync_mode_combobox_enum_map st' =
      ((if isEmpty (tr "Off") then [] else [VK_PRESENT_MODE_IMMEDIATE_KHR]) ++
       (if isEmpty (tr "On") then [] else [VK_PRESENT_MODE_FIFO_KHR]))%list /\
    QComboBox.items (vsync_mode_combobox st') =
      ((if isEmpty (tr "Off") then [] else [tr "Off"]) ++
       (if isEmpty (tr "On") then [] else [tr "On"]))%list.
Proof.
  intros Hdistinct Hbackend Hprevious.
  destruct (distinct_backends_inv Hdistinct) as (Hgv & Hgn & _).
  assert (Hsource : source_list RendererBackend_OpenGL st = Some default_present_modes).
  { unfold source_list.
    destruct (Z.eqb_spec RendererBackend_OpenGL RendererBackend_Vulkan);
      [contradiction|reflexivity]. }
  destruct (PopulateVSyncModeSelection_returns st Hbackend Hgn Hprevious Hsource)
    as (st' & Hrun & Hmap & _ & Hbox & _).
  destruct (@rebuilt_box _ RendererBackend_OpenGL previous default_present_modes
                         (vsync_mode_combobox st)) as (Hitems & _).
  cbn zeta in Hitems. rewrite <- Hbox in Hitems.
  exists st'. split; [exact Hrun|]. rewrite Hitems, Hmap.
  unfold default_present_modes, nameable, TranslateVSyncMode. cbn [filter].
  rewrite !Z.eqb_refl. cbn.
  destruct (isEmpty (tr "Off")), (isEmpty (tr "On")); cbn; rewrite ?Z.eqb_refl;
    split; reflexivity.
Qed.

(** ** The box and the enum map stay in step *)

Lemma Null_rebuild_keeps_in_step (st st' : State) :
  returned (GetCurrentGraphicsBackend st) = Some RendererBackend_Null ->
  PopulateVSyncModeSelection st = Returns tt st' ->
  in_step st -> in_step st'.
Proof.
  intros Hbackend Hrun Hstep.
  destruct (PopulateVSyncModeSelection_Null st Hbackend) as (v & _ & Hrun').
  rewrite Hrun' in Hrun. injection Hrun as <-. exact Hstep.
Qed.

(** X3. A rebuild that returns leaves the VSync box and the enum map in
    step, one item per entry and the current index at an entry or at -1:
    under a backend other than Null whatever they were before, under the
    Null backend if they were in step before.  The following rebuild then
    has a previous mode to read. *)
Theorem rebuild_leaves_box_and_map_in_step (st st' : State) (backend : Z) :
  returned (GetCurrentGraphicsBackend st) = Some backend ->
  PopulateVSyncModeSelection st = Returns tt st' ->
  backend <> RendererBackend_Null \/ in_step st ->
  in_step st' /\ exists previous, previous_mode st' = Some previous.
Proof.
  intros Hbackend Hrun Hcase.
  assert (Hstep : in_step st').
  { destruct (Z.eq_dec backend RendererBackend_Null) as [->|Hnot_null].
    - destruct Hcase as [Hne|Hstep]; [contradiction|].
      eapply Null_rebuild_keeps_in_step; eassumption.
    - destruct (previous_mode st) as [previous|] eqn:Hprevious;
        [|rewrite (PopulateVSyncModeSelection_no_previous st Hbackend Hnot_null Hprevious)
            in Hrun; discriminate].
      destruct (source_list backend st) as [source|] eqn:Hsource;
        [|rewrite (PopulateVSyncModeSelection_no_source st Hbackend Hnot_null Hsource)
            in Hrun; discriminate].
      destruct (PopulateVSyncModeSelection_returns st Hbackend Hnot_null Hprevious Hsource)
        as (st'' & Hrun' & Hmap & _ & Hbox & _).
      rewrite Hrun' in Hrun. injection Hrun as <-.
      destruct (@rebuilt_box _ backend previous source (vsync_mode_combobox st))
        as (Hitems & Hrange & _).
      cbn zeta in Hitems, Hrange. rewrite <- Hbox, <- Hmap in Hitems, Hrange.
      split; [|exact Hrange].
      unfold QComboBox.count. rewrite Hitems, length_map. reflexivity. }
  split; [exact Hstep|].
  apply previous_mode_defined. apply Hstep.
Qed.

End NamesAndInvariants.

Section SelectionAndCommit.

Context `{Declarations}.

(** ** One position per mode *)

(** X4. When the source list of a rebuild has no duplicates, neither has
    the offered list, and if the previous mode is offered the current index
    after the rebuild is the one position at which the offered list holds
    that mode. *)
Theorem rebuild_selects_the_only_position (st : State) (backend : Z)
        (previous : VkPresentModeKHR) (source : list VkPresentModeKHR) :
  returned (GetCurrentGraphicsBackend st) = Some backend ->
  backend <> RendererBackend_Null ->
  previous_mode st = Some previous ->
  source_list backend st = Some source ->
  NoDup source ->
  exists st',
    PopulateVSyncModeSelection st = Returns tt st' /\
    NoDup (vsync_mode_combobox_enum_map st') /\
    (In previous (vsync_mode_combobox_enum_map st') ->
     forall j : nat,
       nth_error (vsync_mode_combobox_enum_map st') j = Some previous <->
       QComboBox.currentIndex (vsync_mode_combobox st') = Z.of_nat j).
Proof.
  intros Hbackend Hnot_null Hprevious Hsource Hnodup.
  destruct (PopulateVSyncModeSelection_returns st Hbackend Hnot_null Hprevious Hsource)
    as (st' & Hrun & Hmap & _ & Hbox & _).
  destruct (@rebuilt_box _ backend previous source (vsync_mode_combobox st))
    as (_ & _ & Hselected).
  cbn zeta in Hselected. rewrite <- Hbox, <- Hmap in Hselected.
  assert (Hnodup' : NoDup (vsync_mode_combobox_enum_map st')).
  { rewrite Hmap. now apply NoDup_filter. }
  exists st'. split; [exact Hrun|]. split; [exact Hnodup'|].
  intros Hin j. destruct (Hselected Hin) as (k & _ & Hindex & Hnth).
  rewrite Hindex. split.
  - intros Hj. f_equal.
    apply (proj1 (NoDup_nth_error _) Hnodup'); [|congruence].
    apply nth_error_Some. congruence.
  - intros Heq. apply Nat2Z.inj in Heq. now subst j.
Qed.

(** ** Rebuilding twice *)

Lemma source_list_stable (backend : Z) (st st' : State) :
  vulkan_device_combobox st' = vulkan_device_combobox st ->
  device_present_modes st' = device_present_modes st ->
  source_list backend st' = source_list backend st.
Proof.
  intros Hbox Hmodes. unfold source_list. now rewrite Hbox, Hmodes.
Qed.

(** X5. A rebuild run again right after a rebuild, under a backend other
    than Null, returns and offers the same list under the same names; when
    the previous mode of the first rebuild is offered, the second leaves
    the VSync box exactly as the first left it. *)
Theorem rebuild_again_changes_nothing (st : State) (backend : Z)
        (previous : VkPresentModeKHR) (source : list VkPresentModeKHR) :
  returned (GetCurrentGraphicsBackend st) = Some backend ->
  backend <> RendererBackend_Null ->
  previous_mode st = Some previous ->
  source_list backend st = Some source ->
  exists first second : State,
    PopulateVSyncModeSelection st = Returns tt first /\
    PopulateVSyncModeSelection first = Returns tt second /\
    vsync_mode_combobox_enum_map second = vsync_mode_combobox_enum_map first /\
    QComboBox.items (vsync_mode_combobox second) =
      QComboBox.items (vsync_mode_combobox first) /\
    (In previous (vsync_mode_combobox_enum_map first) ->
     vsync_mode_combobox second = vsync_mode_combobox first).
Proof.
  intros Hbackend Hnot_null Hprevious Hsource.
  destruct (PopulateVSyncModeSelection_returns st Hbackend Hnot_null Hprevious Hsource)
    as (s1 & Hrun1 & Hmap1 & _ & Hbox1 & Hvalues1 & _ & _ & Hframe1).
  destruct Hframe1 as (Hmode1 & _ & _ & Hapi1 & Hdevice1 & Hmodes1 & _).
  destruct Hvalues1 as (Hvalue1 & _).
  destruct (@rebuilt_box _ backend previous source (vsync_mode_combobox st))
    as (Hitems1 & Hrange1 & Hselected1).
  cbn zeta in Hitems1, Hrange1, Hselected1.
  rewrite <- Hbox1, <- Hmap1 in Hitems1, Hrange1, Hselected1.
  assert (Hbackend1 : returned (GetCurrentGraphicsBackend s1) = Some backend).
  { rewrite <- Hbackend. apply backend_query_stable;
      [exact Hmode1 | now rewrite Hapi1 | exact Hvalue1]. }
  destruct (@previous_mode_defined _ s1 Hrange1) as (p1 & Hp1).
  assert (Hsource1 : source_list backend s1 = Some source).
  { rewrite <- Hsource. now apply source_list_stable. }
  destruct (PopulateVSyncModeSelection_returns s1 Hbackend1 Hnot_null Hp1 Hsource1)
    as (s2 & Hrun2 & Hmap2 & _ & Hbox2 & _).
  destruct (@rebuilt_box _ backend p1 source (vsync_mode_combobox s1))
    as (Hitems2 & _).
  cbn zeta in Hitems2. rewrite <- Hbox2, <- Hmap2 in Hitems2.
  exists s1, s2. split; [exact Hrun1|]. split; [exact Hrun2|].
  split; [congruence|]. split; [congruence|].
  intros Hin. destruct (Hselected1 Hin) as (k & _ & Hindex & Hnth).
  assert (Hsame : p1 = previous).
  { assert (Hat : previous_mode s1 = Some previous)
      by (eapply previous_mode_at; eassumption).
    congruence. }
  subst p1.
  destruct (@perform_all_loop_calls _ backend previous source 0
              (QComboBox.clear (QComboBox.setEnabled true (vsync_mode_combobox st))))
    as (_ & _ & Hplaceholder & _); [reflexivity | cbn; lia |].
  cbn zeta in Hplaceholder. rewrite <- Hbox1 in Hplaceholder.
  cbn in Hplaceholder.
  assert (Hcleared :
    QComboBox.clear (QComboBox.setEnabled true (vsync_mode_combobox s1)) =
    QComboBox.clear (QComboBox.setEnabled true (vsync_mode_combobox st))).
  { unfold QComboBox.clear, QComboBox.setEnabled. cbn. now rewrite Hplaceholder. }
  rewrite Hbox2, Hcleared. symmetry. exact Hbox1.
Qed.

End SelectionAndCommit.

Section CommitAndSeeding.

Context `{Declarations}.

(** ** The commit at its bounds *)

Lemma ApplyConfiguration_global (st : State) (mode : VkPresentModeKHR) :
  configuring_global st = true ->
  0 <= QComboBox.currentIndex (vsync_mode_combobox st) ->
  nth_error (vsync_mode_combobox_enum_map st)
            (Z.to_nat (QComboBox.currentIndex (vsync_mode_combobox st))) = Some mode ->
  ApplyConfiguration st =
  Returns tt
    (set_values
       (Settings.set_vsync_mode
          (Settings.SetValue (PresentModeToSetting mode)
             (Settings.vsync_mode (applied (apply_funcs st) (powered_on st) (values st))))
          (applied (apply_funcs st) (powered_on st) (values st)))
       st).
Proof.
  intros Hglobal Hindex Hmode.
  unfold ApplyConfiguration, bind, gets. rewrite run_apply_funcs_returns.
  cbn. rewrite Hglobal.
  rewrite vector_at_in_range with (a := mode) by assumption.
  reflexivity.
Qed.

Lemma ApplyConfiguration_out_of_range (st : State) :
  configuring_global st = true ->
  QComboBox.currentIndex (vsync_mode_combobox st) < 0 \/
  Z.of_nat (List.length (vsync_mode_combobox_enum_map st))
    <= QComboBox.currentIndex (vsync_mode_combobox st) ->
  ApplyConfiguration st = Undefined.
Proof.
  intros Hglobal Hout.
  unfold ApplyConfiguration, bind, gets. rewrite run_apply_funcs_returns.
  cbn. rewrite Hglobal.
  now rewrite vector_at_out_of_range.
Qed.

(** X6. In global configuration mode a commit with no current item in the
    VSync box, or with a current index past the enum map, indexes the enum
    map out of range: its behaviour is undefined. *)
Theorem commit_without_selection_is_undefined (st : State) :
  configuring_global st = true ->
  QComboBox.currentIndex (vsync_mode_combobox st) < 0 \/
  Z.of_nat (List.length (vsync_mode_combobox_enum_map st))
    <= QComboBox.currentIndex (vsync_mode_combobox st) ->
  ApplyConfiguration st = Undefined.
Proof.
  intros Hglobal Hout. now apply ApplyConfiguration_out_of_range.
Qed.

(** X7. A commit that returns in global configuration mode leaves one of
    the four defined values in the VSync setting, whatever present mode the
    enum map held at the current index and whatever the apply functions
    wrote before. *)
Theorem commit_leaves_a_defined_setting (st st' : State) :
  configuring_global st = true ->
  ApplyConfiguration st = Returns tt st' ->
  In (Settings.GetValue (Settings.vsync_mode (values st')))
     [VSyncMode_Immediate; VSyncMode_Mailbox; VSyncMode_FIFO; VSyncMode_FIFORelaxed].
Proof.
  intros Hglobal Hrun.
  destruct (Z.ltb_spec (QComboBox.currentIndex (vsync_mode_combobox st)) 0) as [Hneg|Hpos];
    [rewrite ApplyConfiguration_out_of_range in Hrun by tauto; discriminate|].
  destruct (nth_error (vsync_mode_combobox_enum_map st)
              (Z.to_nat (QComboBox.currentIndex (vsync_mode_combobox st))))
    as [mode|] eqn:Hnth.
  - rewrite (ApplyConfiguration_global st Hglobal Hpos Hnth) in Hrun.
    injection Hrun as <-. cbn. rewrite GetValue_SetValue.
    apply PresentModeToSetting_defined.
  - apply nth_error_None in Hnth.
    rewrite ApplyConfiguration_out_of_range in Hrun by (try assumption; lia).
    discriminate.
Qed.

(** ** Rebuild, then commit *)

(** X8. In global configuration mode, from a VSync box without a current
    item: when the persisted VSync setting is one of the four defined
    values and its present mode is offered by the rebuild, a rebuild
    followed by a commit returns and the setting reads as it did before. *)
Theorem rebuild_then_commit_keeps_setting (st : State) (backend : Z)
        (source : list VkPresentModeKHR) :
  configuring_global st = true ->
  returned (GetCurrentGraphicsBackend st) = Some backend ->
  backend <> RendererBackend_Null ->
  QComboBox.currentIndex (vsync_mode_combobox st) = -1 ->
  source_list backend st = Some source ->
  In (Settings.GetValue (Settings.vsync_mode (values st)))
     [VSyncMode_Immediate; VSyncMode_Mailbox; VSyncMode_FIFO; VSyncMode_FIFORelaxed] ->
  In (VSyncSettingToMode (Settings.GetValue (Settings.vsync_mode (values st))))
     (filter (nameable backend) source) ->
  exists rebuilt committed : State,
    PopulateVSyncModeSelection st = Returns tt rebuilt /\
    ApplyConfiguration rebuilt = Returns tt committed /\
    Settings.GetValue (Settings.vsync_mode (values committed)) =
      Settings.GetValue (Settings.vsync_mode (values st)).
Proof.
  intros Hglobal Hbackend Hnot_null Hfresh Hsource Hdefined Hoffered.
  set (s := Settings.GetValue (Settings.vsync_mode (values st))) in *.
  assert (Hprevious : previous_mode st = Some (VSyncSettingToMode s)).
  { unfold previous_mode. now rewrite Hfresh. }
  destruct (PopulateVSyncModeSelection_returns st Hbackend Hnot_null Hprevious Hsource)
    as (s1 & Hrun1 & Hmap1 & _ & Hbox1 & _ & _ & _ & Hframe1).
  destruct Hframe1 as (Hmode1 & _).
  destruct (@rebuilt_box _ backend (VSyncSettingToMode s) source (vsync_mode_combobox st))
    as (_ & _ & Hselected).
  cbn zeta in Hselected. rewrite <- Hbox1, <- Hmap1 in Hselected.
  rewrite <- Hmap1 in Hoffered.
  destruct (Hselected Hoffered) as (k & _ & Hindex & Hnth).
  assert (Hglobal1 : configuring_global s1 = true) by congruence.
  assert (Hpos : 0 <= QComboBox.currentIndex (vsync_mode_combobox s1)) by lia.
  assert (Hnth1 : nth_error (vsync_mode_combobox_enum_map s1)
                    (Z.to_nat (QComboBox.currentIndex (vsync_mode_combobox s1)))
                  = Some (VSyncSettingToMode s)).
  { now rewrite Hindex, Nat2Z.id. }
  exists s1. eexists. split; [exact Hrun1|].
  split; [exact (ApplyConfiguration_global s1 Hglobal1 Hpos Hnth1)|].
  cbn. rewrite GetValue_SetValue.
  unfold VSyncSettingToMode.
  destruct (Z.eqb_spec s VSyncMode_Immediate) as [->|n1]; [reflexivity|].
  destruct (Z.eqb_spec s VSyncMode_Mailbox) as [->|n2]; [reflexivity|].
  destruct (Z.eqb_spec s VSyncMode_FIFO) as [->|n3]; [reflexivity|].
  destruct (Z.eqb_spec s VSyncMode_FIFORelaxed) as [->|n4]; [reflexivity|].
  cbn in Hdefined. intuition congruence.
Qed.

(** X9. In global configuration mode, when the previous mode is not among
    the modes a rebuild offers and the rebuild offers at least one: in a
    box without a placeholder text the first offered mode becomes current
    and a commit writes its setting, replacing the previous choice; in a
    box with a placeholder text no item is current and the commit is
    undefined. *)
Theorem unoffered_mode_is_replaced_or_lost (st : State) (backend : Z)
        (previous first : VkPresentModeKHR) (source others : list VkPresentModeKHR) :
  configuring_global st = true ->
  returned (GetCurrentGraphicsBackend st) = Some backend ->
  backend <> RendererBackend_Null ->
  previous_mode st = Some previous ->
  source_list backend st = Some source ->
  filter (nameable backend) source = first :: others ->
  ~ In previous (first :: others) ->
  exists rebuilt : State,
    PopulateVSyncModeSelection st = Returns tt rebuilt /\
    (QComboBox.placeholder (vsync_mode_combobox st) = false ->
     QComboBox.currentIndex (vsync_mode_combobox rebuilt) = 0 /\
     exists committed : State,
       ApplyConfiguration rebuilt = Returns tt committed /\
       Settings.GetValue (Settings.vsync_mode (values committed))
         = PresentModeToSetting first) /\
    (QComboBox.placeholder (vsync_mode_combobox st) = true ->
     QComboBox.currentIndex (vsync_mode_combobox rebuilt) = -1 /\
     ApplyConfiguration rebuilt = Undefined).
Proof.
  intros Hglobal Hbackend Hnot_null Hprevious Hsource Hoffered Habsent.
  destruct (PopulateVSyncModeSelection_returns st Hbackend Hnot_null Hprevious Hsource)
    as (s1 & Hrun1 & Hmap1 & _ & Hbox1 & _ & _ & _ & Hframe1).
  destruct Hframe1 as (Hmode1 & _).
  assert (Hglobal1 : configuring_global s1 = true) by congruence.
  destruct (loop_calls_selection backend previous source 0) as [_ Hnone].
  rewrite Hoffered in Hnone. specialize (Hnone Habsent).
  pose proof (@perform_all_loop_calls_unselected _ backend previous source 0
                (QComboBox.clear (QComboBox.setEnabled true (vsync_mode_combobox st)))
                eq_refl ltac:(cbn; lia) Hnone) as Hindex.
  rewrite <- Hbox1, Hoffered in Hindex. cbn in Hindex.
  exists s1. split; [exact Hrun1|]. split.
  - intros Hplain. rewrite Hplain in Hindex. cbn in Hindex.
    split; [exact Hindex|].
    eexists. split.
    + apply (ApplyConfiguration_global s1 (mode := first) Hglobal1).
      * lia.
      * rewrite Hindex, Hmap1, Hoffered. reflexivity.
    + cbn. apply GetValue_SetValue.
  - intros Hplaceholder. rewrite Hplaceholder in Hindex. cbn in Hindex.
    split; [exact Hindex|].
    apply ApplyConfiguration_out_of_range; [exact Hglobal1|left; lia].
Qed.

(** ** Seeding the selection *)

Lemma seed_loop_first (modes : list VkPresentModeKHR) (vsync_mode : VkPresentModeKHR) :
  forall index : Z,
    (In vsync_mode modes ->
     exists k : nat,
       seed_loop modes vsync_mode index = index + Z.of_nat k /\
       nth_error modes k = Some vsync_mode /\
       (forall j : nat, (j < k)%nat -> nth_error modes j <> Some vsync_mode)) /\
    (~ In vsync_mode modes ->
     seed_loop modes vsync_mode index = index + Z.of_nat (List.length modes)).
Proof.
  induction modes as [|mode rest IH]; intros index; cbn [seed_loop].
  - split; [intros []|intros _; cbn; lia].
  - destruct (Z.eqb_spec mode vsync_mode) as [->|Hneq].
    + split; [intros _|intros Hno; exfalso; apply Hno; now left].
      exists 0%nat. split; [lia|]. split; [reflexivity|]. intros j Hlt. lia.
    + destruct (IH (index + 1)) as [IHin IHout]. split.
      * intros [Heq|Hin]; [contradiction|].
        destruct (IHin Hin) as (k & Hloop & Hnth & Hfirst).
        exists (S k). split; [lia|]. split; [exact Hnth|].
        intros [|j] Hlt; cbn [nth_error]; [congruence|]. apply Hfirst. lia.
      * intros Hno. rewrite IHout; [cbn [List.length]; lia|].
        intros Hin. apply Hno. now right.
Qed.

Lemma seed_vsync_selection_present (st : State) :
  configuring_global st = true ->
  In (VSyncSettingToMode (Settings.GetValue (Settings.vsync_mode (values st))))
     (vsync_mode_combobox_enum_map st) ->
  QComboBox.count (vsync_mode_combobox st)
    = Z.of_nat (List.length (vsync_mode_combobox_enum_map st)) ->
  exists k : nat,
    seed_vsync_selection st =
      Returns tt (call_vsync_mode_combobox (QComboBox.call_setCurrentIndex (Z.of_nat k)) st) /\
    QComboBox.currentIndex
      (vsync_mode_combobox
         (call_vsync_mode_combobox (QComboBox.call_setCurrentIndex (Z.of_nat k)) st))
      = Z.of_nat k /\
    nth_error (vsync_mode_combobox_enum_map st) k =
      Some (VSyncSettingToMode (Settings.GetValue (Settings.vsync_mode (values st)))) /\
    (forall j : nat, (j < k)%nat ->
       nth_error (vsync_mode_combobox_enum_map st) j <>
       Some (VSyncSettingToMode (Settings.GetValue (Settings.vsync_mode (values st))))).
Proof.
  unfold seed_vsync_selection, bind, gets, ret, modify.
  intros -> Hpresent Hcount.
  destruct (seed_loop_first (vsync_mode_combobox_enum_map st)
              (VSyncSettingToMode (Settings.GetValue (Settings.vsync_mode (values st)))) 0)
    as [Hin _].
  destruct (Hin Hpresent) as (k & Hloop & Hnth & Hfirst).
  assert (Hlt : (k < List.length (vsync_mode_combobox_enum_map st))%nat).
  { apply nth_error_Some. congruence. }
  rewrite Hloop.
  destruct (Z.ltb_spec (0 + Z.of_nat k)
                       (Z.of_nat (List.length (vsync_mode_combobox_enum_map st))));
    [|lia].
  exists k.
  replace (0 + Z.of_nat k) with (Z.of_nat k) by lia.
  split; [reflexivity|]. split; [|split; assumption].
  cbn. rewrite Hcount.
  destruct (Z.leb_spec 0 (Z.of_nat k)); [|lia].
  destruct (Z.ltb_spec (Z.of_nat k)
                       (Z.of_nat (List.length (vsync_mode_combobox_enum_map st))));
    [reflexivity|lia].
Qed.

(** X10. The seeding of the constructor does nothing in per-profile mode
    and nothing when the present mode of the persisted setting is not in
    the enum map; in global mode, with that mode in the enum map and the
    box holding one item per entry, it makes the first entry equal to that
    mode current and changes nothing else of the box, the enum map or the
    settings. *)
Theorem seeding_selects_first_entry (st : State) :
  (configuring_global st = false -> seed_vsync_selection st = Returns tt st) /\
  (configuring_global st = true ->
   ~ In (VSyncSettingToMode (Settings.GetValue (Settings.vsync_mode (values st))))
        (vsync_mode_combobox_enum_map st) ->
   seed_vsync_selection st = Returns tt st) /\
  (configuring_global st = true ->
   In (VSyncSettingToMode (Settings.GetValue (Settings.vsync_mode (values st))))
      (vsync_mode_combobox_enum_map st) ->
   QComboBox.count (vsync_mode_combobox st)
     = Z.of_nat (List.length (vsync_mode_combobox_enum_map st)) ->
   exists (k : nat) (st' : State),
     seed_vsync_selection st = Returns tt st' /\
     st' = call_vsync_mode_combobox (QComboBox.call_setCurrentIndex (Z.of_nat k)) st /\
     QComboBox.currentIndex (vsync_mode_combobox st') = Z.of_nat k /\
     nth_error (vsync_mode_combobox_enum_map st) k =
       Some (VSyncSettingToMode (Settings.GetValue (Settings.vsync_mode (values st)))) /\
     (forall j : nat, (j < k)%nat ->
        nth_error (vsync_mode_combobox_enum_map st) j <>
        Some (VSyncSettingToMode (Settings.GetValue (Settings.vsync_mode (values st)))))).
Proof.
  unfold seed_vsync_selection, bind, gets, ret, modify.
  split; [intros ->; reflexivity|]. split.
  - intros -> Habsent.
    destruct (seed_loop_first (vsync_mode_combobox_enum_map st)
                (VSyncSettingToMode (Settings.GetValue (Settings.vsync_mode (values st)))) 0)
      as [_ Hout].
    rewrite (Hout Habsent).
    destruct (Z.ltb_spec (0 + Z.of_nat (List.length (vsync_mode_combobox_enum_map st)))
                         (Z.of_nat (List.length (vsync_mode_combobox_enum_map st))));
      [lia|reflexivity].
  - intros Hglobal Hpresent Hcount.
    destruct (seed_vsync_selection_present st Hglobal Hpresent Hcount)
      as (k & Hrun & Hindex & Hnth & Hfirst).
    unfold seed_vsync_selection, bind, gets, ret, modify in Hrun.
    exists k. eexists. split; [exact Hrun|]. repeat split; assumption.
Qed.

End CommitAndSeeding.

Section DevicesAndLayout.

Context `{Declarations}.

Variable fromStdString : string -> QString.

(** ** Retrieving the devices *)

Lemma retrieve_loop_returns (rest : list DeviceRecord) :
  forall t : Tab,
  exists t',
    retrieve_loop fromStdString rest t = TabReturns tt t' /\
    vulkan_devices t' =
      (vulkan_devices t ++ map (fun record => fromStdString (name record)) rest)%list /\
    core t' =
      set_device_present_modes
        (device_present_modes (core t) ++ map vsync_support rest)%list (core t) /\
    expose_compute_option_calls t' =
      (expose_compute_option_calls t + List.length (filter has_broken_compute rest))%nat /\
    records t' = records t /\
    shader_backend_combobox t' = shader_backend_combobox t /\
    vulkan_device_widget t' = vulkan_device_widget t /\
    shader_backend_widget t' = shader_backend_widget t /\
    api_widget t' = api_widget t /\
    has_broken_vulkan t' = has_broken_vulkan t.
Proof.
  induction rest as [|record rest' IH]; intros t; cbn [retrieve_loop map filter].
  - exists t. unfold tret. rewrite !app_nil_r, Nat.add_0_r.
    repeat split. destruct t as [[] ? ? ? ? ? ? ? ?]; reflexivity.
  - unfold on_core, tbind, tmodify, tret.
    destruct (has_broken_compute record); cbn [List.length];
      match goal with
      | |- context [retrieve_loop _ _ ?s] =>
        destruct (IH s) as (t' & Hrun & Hdevices & Hcore & Hcalls & Hrest)
      end;
      exists t'; (split; [exact Hrun|]);
      rewrite Hdevices, Hcore, Hcalls; cbn;
      rewrite <- !app_assoc; cbn;
      repeat split; try tauto; try lia.
Qed.

Lemma RetrieveVulkanDevices_returns (t : Tab) :
  exists t',
    RetrieveVulkanDevices fromStdString t = TabReturns tt t' /\
    vulkan_devices t' = map (fun record => fromStdString (name record)) (records t) /\
    core t' = set_device_present_modes (map vsync_support (records t)) (core t) /\
    expose_compute_option_calls t' =
      (expose_compute_option_calls t +
       List.length (filter has_broken_compute (records t)))%nat /\
    records t' = records t /\
    shader_backend_combobox t' = shader_backend_combobox t /\
    vulkan_device_widget t' = vulkan_device_widget t /\
    shader_backend_widget t' = shader_backend_widget t /\
    api_widget t' = api_widget t /\
    has_broken_vulkan t' = has_broken_vulkan t.
Proof.
  unfold RetrieveVulkanDevices, on_core, tbind, tmodify, tgets. cbn.
  match goal with
  | |- context [retrieve_loop _ _ ?s] =>
    destruct (retrieve_loop_returns (records t) s)
      as (t' & Hrun & Hdevices & Hcore & Hcalls & Hrest)
  end.
  exists t'. split; [exact Hrun|].
  rewrite Hdevices, Hcore, Hcalls. cbn. repeat split; tauto.
Qed.

(** X11. [RetrieveVulkanDevices] discards what the two lists held and
    leaves one device name and one list of present modes per record, in the
    order of the records; the callback is called once for each record with
    broken compute, and nothing else of the tab changes. *)
Theorem RetrieveVulkanDevices_lists_every_record (t : Tab) :
  exists t',
    RetrieveVulkanDevices fromStdString t = TabReturns tt t' /\
    vulkan_devices t' = map (fun record => fromStdString (name record)) (records t) /\
    device_present_modes (core t') = map vsync_support (records t) /\
    core t' = set_device_present_modes (map vsync_support (records t)) (core t) /\
    expose_compute_option_calls t' =
      (expose_compute_option_calls t +
       List.length (filter has_broken_compute (records t)))%nat /\
    records t' = records t /\
    shader_backend_combobox t' = shader_backend_combobox t /\
    vulkan_device_widget t' = vulkan_device_widget t /\
    shader_backend_widget t' = shader_backend_widget t /\
    api_widget t' = api_widget t /\
    has_broken_vulkan t' = has_broken_vulkan t.
Proof.
  destruct (RetrieveVulkanDevices_returns t)
    as (t' & Hrun & Hdevices & Hcore & Hrest).
  exists t'. split; [exact Hrun|]. split; [exact Hdevices|].
  split; [now rewrite Hcore|]. split; [exact Hcore|]. exact Hrest.
Qed.

(** ** Filling the device box *)

Lemma addItem_all (devices : list QString) :
  forall cb : QComboBox.t,
    -1 <= QComboBox.currentIndex cb < QComboBox.count cb ->
    let cb' := fold_left (fun box device => addItem device box) devices cb in
    QComboBox.items cb' = (QComboBox.items cb ++ devices)%list /\
    QComboBox.enabled cb' = QComboBox.enabled cb /\
    QComboBox.placeholder cb' = QComboBox.placeholder cb /\
    QComboBox.currentIndex cb' =
      match devices with
      | [] => QComboBox.currentIndex cb
      | _ :: _ =>
        if (QComboBox.currentIndex cb <? 0) && (QComboBox.count cb =? 0)
           && negb (QComboBox.placeholder cb)
        then 0 else QComboBox.currentIndex cb
      end.
Proof.
  induction devices as [|device rest IH]; intros cb Hrange; cbn [fold_left].
  - cbn. rewrite app_nil_r. auto.
  - assert (Hadd : addItem device cb =
                   QComboBox.insertItem (QComboBox.count cb) device cb) by reflexivity.
    rewrite Hadd, insertItem_at_end by reflexivity.
    set (cb1 := {| QComboBox.enabled := QComboBox.enabled cb;
                   QComboBox.items := (QComboBox.items cb ++ [device])%list;
                   QComboBox.currentIndex := _;
                   QComboBox.placeholder := QComboBox.placeholder cb |}).
    assert (Hcount1 : QComboBox.count cb1 = QComboBox.count cb + 1).
    { unfold QComboBox.count. subst cb1. cbn. rewrite length_app. cbn. lia. }
    assert (Hcount : 0 <= QComboBox.count cb) by (unfold QComboBox.count; lia).
    assert (Hcur1 : QComboBox.currentIndex cb1 =
                    if (QComboBox.currentIndex cb <? 0) && (QComboBox.count cb =? 0)
                       && negb (QComboBox.placeholder cb)
                    then 0 else QComboBox.currentIndex cb).
    { subst cb1. cbn.
      destruct (Z.ltb_spec (QComboBox.currentIndex cb) 0);
        destruct (Z.eqb_spec (QComboBox.count cb) 0);
        destruct (QComboBox.placeholder cb); cbn [andb negb];
        try destruct (Z.leb_spec (QComboBox.count cb) (QComboBox.currentIndex cb));
        lia. }
    assert (Hrange1 : -1 <= QComboBox.currentIndex cb1 < QComboBox.count cb1).
    { rewrite Hcur1, Hcount1.
      destruct ((QComboBox.currentIndex cb <? 0) && (QComboBox.count cb =? 0)
                && negb (QComboBox.placeholder cb)); lia. }
    destruct (IH cb1 Hrange1) as (Hitems & Henabled & Hplaceholder & Hindex).
    cbn zeta in *. rewrite Hitems, Henabled, Hplaceholder, Hindex, Hcur1, Hcount1.
    assert (Hitems1 : QComboBox.items cb1 = (QComboBox.items cb ++ [device])%list)
      by reflexivity.
    assert (Henabled1 : QComboBox.enabled cb1 = QComboBox.enabled cb) by reflexivity.
    assert (Hplaceholder1 : QComboBox.placeholder cb1 = QComboBox.placeholder cb)
      by reflexivity.
    rewrite Hitems1, Henabled1, Hplaceholder1, <- app_assoc. clearbody cb1.
    repeat split.
    destruct rest; [reflexivity|].
    destruct (Z.ltb_spec (QComboBox.currentIndex cb) 0);
      destruct (Z.eqb_spec (QComboBox.count cb) 0);
      destruct (QComboBox.placeholder cb); cbn [andb negb];
      repeat match goal with
             | |- context [?a <? ?b] => destruct (Z.ltb_spec a b)
             | |- context [?a =? ?b] => destruct (Z.eqb_spec a b)
             end; cbn [andb negb]; lia.
Qed.

Lemma add_devices_returns (devices : list QString) :
  forall t : Tab,
    add_devices devices t =
    TabReturns tt
      (set_core
         (set_vulkan_device_combobox
            (fold_left (fun box device => addItem device box) devices
                       (vulkan_device_combobox (core t)))
            (core t))
         t).
Proof.
  induction devices as [|device rest IH]; intros t; cbn [add_devices fold_left].
  - unfold tret. destruct t as [[] ? ? ? ? ? ? ? ?]; reflexivity.
  - unfold on_core, tbind, tmodify. rewrite IH. reflexivity.
Qed.

(** X12. Run on an empty device box, [RetrieveVulkanDevices] followed by
    the constructor's loop over the device names leaves the box with one
    item per record, in record order, and [device_present_modes] with one
    entry per item: every index the box can show is an index of
    [device_present_modes].  The first device is current when there is one
    and the box has no placeholder text; otherwise no item is current. *)
Theorem device_box_lists_every_record (t : Tab) :
  QComboBox.items (vulkan_device_combobox (core t)) = [] ->
  QComboBox.currentIndex (vulkan_device_combobox (core t)) = -1 ->
  exists retrieved filled : Tab,
    RetrieveVulkanDevices fromStdString t = TabReturns tt retrieved /\
    fill_device_combobox retrieved = TabReturns tt filled /\
    QComboBox.items (vulkan_device_combobox (core filled)) =
      map (fun record => fromStdString (name record)) (records t) /\
    device_present_modes (core filled) = map vsync_support (records t) /\
    QComboBox.count (vulkan_device_combobox (core filled)) =
      Z.of_nat (List.length (device_present_modes (core filled))) /\
    QComboBox.currentIndex (vulkan_device_combobox (core filled)) =
      match records t with
      | [] => -1
      | _ :: _ =>
        if QComboBox.placeholder (vulkan_device_combobox (core t)) then -1 else 0
      end.
Proof.
  intros Hempty Hnone.
  destruct (RetrieveVulkanDevices_returns t)
    as (t1 & Hrun1 & Hdevices & Hcore & _).
  exists t1. eexists. split; [exact Hrun1|].
  unfold fill_device_combobox, tbind, tgets. rewrite add_devices_returns.
  split; [reflexivity|].
  rewrite Hdevices, Hcore. cbn.
  destruct (@addItem_all (map (fun record => fromStdString (name record)) (records t))
              (vulkan_device_combobox (core t)))
    as (Hitems & _ & _ & Hindex).
  { unfold QComboBox.count. rewrite Hempty, Hnone. cbn. lia. }
  cbn zeta in Hitems, Hindex. rewrite Hitems, Hindex, Hempty, Hnone.
  unfold QComboBox.count. rewrite Hitems, Hempty. cbn [app].
  rewrite !length_map. repeat split.
  destruct (records t); cbn; [reflexivity|].
  destruct (QComboBox.placeholder (vulkan_device_combobox (core t))); reflexivity.
Qed.

(** ** The layout update *)

Local Arguments GetCurrentGraphicsBackend : simpl never.

(** The state the layout update leaves: [entry] says whether the API box
    shows the use-global entry of a per-profile configuration, [device] and
    [shader] are the settings it stores in the members. *)
Lemma UpdateAPILayout_returns (t : Tab) :
  let entry := negb (configuring_global (core t)) &&
               (QComboBox.currentIndex (api_combobox (core t)) =? USE_GLOBAL_INDEX) in
  let device :=
    if entry then GetValue_global true (Settings.vulkan_device (values (core t)))
    else Settings.GetValue (Settings.vulkan_device (values (core t))) in
  let shader :=
    if entry then GetValue_global true (Settings.shader_backend (values (core t)))
    else Settings.GetValue (Settings.shader_backend (values (core t))) in
  exists (backend : Z) (t' : Tab),
    returned (GetCurrentGraphicsBackend (core t)) = Some backend /\
    UpdateAPILayout t = TabReturns tt t' /\
    (configuring_global (core t') = configuring_global (core t) /\
     powered_on (core t') = powered_on (core t) /\
     apply_funcs (core t') = apply_funcs (core t) /\
     api_combobox (core t') = api_combobox (core t) /\
     vsync_mode_combobox (core t') = vsync_mode_combobox (core t) /\
     vsync_mode_combobox_calls (core t') = vsync_mode_combobox_calls (core t) /\
     vsync_mode_combobox_enum_map (core t') = vsync_mode_combobox_enum_map (core t) /\
     device_present_modes (core t') = device_present_modes (core t)) /\
    (same_values_up_to_backend_flag (values (core t)) (values (core t')) /\
     (configuring_global (core t) = true -> values (core t') = values (core t))) /\
    (vulkan_device (core t') = device /\ shader_backend (core t') = shader) /\
    (QWidget.enabled (vulkan_device_widget t') = negb entry /\
     QWidget.enabled (shader_backend_widget t') = negb entry) /\
    vulkan_device_combobox (core t') =
      (if negb (backend =? RendererBackend_OpenGL) && (backend =? RendererBackend_Vulkan)
          && (to_int device <? QComboBox.count (vulkan_device_combobox (core t)))
       then QComboBox.setCurrentIndex (to_int device) (vulkan_device_combobox (core t))
       else vulkan_device_combobox (core t)) /\
    shader_backend_combobox t' =
      (if backend =? RendererBackend_OpenGL
       then QComboBox.setCurrentIndex (to_int shader) (shader_backend_combobox t)
       else shader_backend_combobox t) /\
    QWidget.visible (vulkan_device_widget t') =
      (if backend =? RendererBackend_OpenGL then false
       else if backend =? RendererBackend_Vulkan then true
       else if backend =? RendererBackend_Null then false
       else QWidget.visible (vulkan_device_widget t)) /\
    QWidget.visible (shader_backend_widget t') =
      (if backend =? RendererBackend_OpenGL then true
       else if backend =? RendererBackend_Vulkan then false
       else if backend =? RendererBackend_Null then false
       else QWidget.visible (shader_backend_widget t)) /\
    (records t' = records t /\
     vulkan_devices t' = vulkan_devices t /\
     expose_compute_option_calls t' = expose_compute_option_calls t /\
     api_widget t' = api_widget t /\
     has_broken_vulkan t' = has_broken_vulkan t).
Proof.
  cbv zeta.
  unfold UpdateAPILayout, on_core, tbind, tgets, tmodify, tret, lift.
  cbn beta iota.
  destruct (negb (configuring_global (core t)) &&
            (QComboBox.currentIndex (api_combobox (core t)) =? USE_GLOBAL_INDEX));
    cbn;
    match goal with
    | |- context [GetCurrentGraphicsBackend ?s] =>
      destruct (GetCurrentGraphicsBackend_returns s)
        as (backend & v & Hquery & Hvalues & Hglobal & _);
      assert (Hbackend : returned (GetCurrentGraphicsBackend (core t)) = Some backend)
        by (rewrite <- (@backend_query_stable _ (core t) s) by reflexivity;
            now rewrite Hquery);
      rewrite Hquery
    end;
    exists backend;
    (destruct (backend =? RendererBackend_OpenGL);
     [| destruct (backend =? RendererBackend_Vulkan);
        [ cbn;
          match goal with
          | |- context [if ?c then _ else _] => destruct c
          end
        | destruct (backend =? RendererBackend_Null) ] ]);
    eexists; (split; [exact Hbackend|]); (split; [reflexivity|]); cbn;
    unfold same_values_up_to_backend_flag in *; cbn in *;
    repeat split; tauto.
Qed.

Lemma setCurrentIndex_index (index : Z) (cb : QComboBox.t) :
  QComboBox.currentIndex (QComboBox.setCurrentIndex index cb) =
  if (0 <=? index) && (index <? QComboBox.count cb) then index else -1.
Proof. reflexivity. Qed.

(** X13. Under the Vulkan backend the layout update shows in the device
    box the device it stored when that device is an item of the box; a
    stored device past the items leaves the box as it is, and one that
    converts to a negative [int] passes the test against the count and
    leaves the box without a current item.  Under any other backend the
    device box is left as it is.  The items never change and the current
    index stays at an item or at -1. *)
Theorem layout_update_guards_the_device_index (t : Tab) :
  RendererBackend_OpenGL <> RendererBackend_Vulkan ->
  -1 <= QComboBox.currentIndex (vulkan_device_combobox (core t))
     < QComboBox.count (vulkan_device_combobox (core t)) ->
  exists (backend : Z) (t' : Tab),
    returned (GetCurrentGraphicsBackend (core t)) = Some backend /\
    UpdateAPILayout t = TabReturns tt t' /\
    vulkan_device (core t') = layout_device (core t) /\
    QComboBox.items (vulkan_device_combobox (core t')) =
      QComboBox.items (vulkan_device_combobox (core t)) /\
    -1 <= QComboBox.currentIndex (vulkan_device_combobox (core t'))
       < QComboBox.count (vulkan_device_combobox (core t')) /\
    (backend = RendererBackend_Vulkan ->
     0 <= to_int (layout_device (core t))
       < QComboBox.count (vulkan_device_combobox (core t)) ->
     QComboBox.currentIndex (vulkan_device_combobox (core t'))
       = to_int (layout_device (core t))) /\
    (backend = RendererBackend_Vulkan ->
     to_int (layout_device (core t)) < 0 ->
     QComboBox.currentIndex (vulkan_device_combobox (core t')) = -1) /\
    (backend = RendererBackend_Vulkan ->
     QComboBox.count (vulkan_device_combobox (core t)) <= to_int (layout_device (core t)) ->
     vulkan_device_combobox (core t') = vulkan_device_combobox (core t)) /\
    (backend <> RendererBackend_Vulkan ->
     vulkan_device_combobox (core t') = vulkan_device_combobox (core t)).
Proof.
  intros Hgv Hrange.
  destruct (UpdateAPILayout_returns t)
    as (backend & t' & Hbackend & Hrun & _ & _ & (Hdevice & _) & _ & Hbox & _).
  cbv zeta in Hdevice, Hbox.
  fold (at_use_global_entry (core t)) in Hdevice, Hbox.
  fold (layout_device (core t)) in Hdevice, Hbox.
  exists backend, t'. split; [exact Hbackend|]. split; [exact Hrun|].
  split; [exact Hdevice|]. rewrite Hbox.
  set (device := to_int (layout_device (core t))) in *.
  set (box := vulkan_device_combobox (core t)) in *.
  destruct (Z.eqb_spec backend RendererBackend_OpenGL) as [Hgl|Hngl];
    destruct (Z.eqb_spec backend RendererBackend_Vulkan) as [Hvk|Hnvk];
    cbn [negb andb];
    try (exfalso; congruence);
    try (repeat split; try reflexivity; try tauto; intros; congruence).
  destruct (Z.ltb_spec device (QComboBox.count box)) as [Hlt|Hge].
  - rewrite setCurrentIndex_index.
    assert (Hcount : QComboBox.count (QComboBox.setCurrentIndex device box)
                     = QComboBox.count box) by reflexivity.
    rewrite Hcount.
    destruct (Z.leb_spec 0 device); destruct (Z.ltb_spec device (QComboBox.count box));
      cbn [andb]; repeat split; try reflexivity; intros; try lia; congruence.
  - repeat split; try reflexivity; try tauto; intros; try lia.
Qed.

(** X14. After the layout update, with the three backends distinct: under
    OpenGL the shader-backend widget is visible and the device widget
    hidden, under Vulkan the device widget is visible and the
    shader-backend widget hidden, under Null both are hidden; under any
    other backend value both keep their visibility. *)
Theorem layout_update_shows_one_widget (t : Tab) :
  distinct_backends ->
  exists (backend : Z) (t' : Tab),
    returned (GetCurrentGraphicsBackend (core t)) = Some backend /\
    UpdateAPILayout t = TabReturns tt t' /\
    (backend = RendererBackend_OpenGL ->
     QWidget.visible (vulkan_device_widget t') = false /\
     QWidget.visible (shader_backend_widget t') = true) /\
    (backend = RendererBackend_Vulkan ->
     QWidget.visible (vulkan_device_widget t') = true /\
     QWidget.visible (shader_backend_widget t') = false) /\
    (backend = RendererBackend_Null ->
     QWidget.visible (vulkan_device_widget t') = false /\
     QWidget.visible (shader_backend_widget t') = false) /\
    (backend <> RendererBackend_OpenGL ->
     backend <> RendererBackend_Vulkan ->
     backend <> RendererBackend_Null ->
     QWidget.visible (vulkan_device_widget t') = QWidget.visible (vulkan_device_widget t) /\
     QWidget.visible (shader_backend_widget t') = QWidget.visible (shader_backend_widget t)).
Proof.
  intros Hdistinct.
  destruct (distinct_backends_inv Hdistinct) as (Hgv & Hgn & Hvn).
  destruct (UpdateAPILayout_returns t)
    as (backend & t' & Hbackend & Hrun & _ & _ & _ & _ & _ & _ & Hdevice & Hshader & _).
  exists backend, t'. split; [exact Hbackend|]. split; [exact Hrun|].
  rewrite Hdevice, Hshader.
  destruct (Z.eqb_spec backend RendererBackend_OpenGL);
    destruct (Z.eqb_spec backend RendererBackend_Vulkan);
    destruct (Z.eqb_spec backend RendererBackend_Null);
    repeat split; intros; try reflexivity; congruence.
Qed.

Lemma GetValue_global_true (s : Settings.SwitchableSetting) :
  GetValue_global true s = Settings.value s.
Proof.
  unfold GetValue_global. now rewrite orb_true_r.
Qed.

(** X15. At the use-global entry of a per-profile configuration the layout
    update stores the global values of the device and shader-backend
    settings in the members, also where an override is in force, and
    disables both widgets; in every other case it stores the values in
    force and enables both widgets. *)
Theorem layout_update_reads_global_values_at_use_global_entry (t : Tab) :
  exists t',
    UpdateAPILayout t = TabReturns tt t' /\
    (configuring_global (core t) = false ->
     QComboBox.currentIndex (api_combobox (core t)) = USE_GLOBAL_INDEX ->
     vulkan_device (core t') = Settings.value (Settings.vulkan_device (values (core t))) /\
     shader_backend (core t') = Settings.value (Settings.shader_backend (values (core t))) /\
     QWidget.enabled (vulkan_device_widget t') = false /\
     QWidget.enabled (shader_backend_widget t') = false) /\
    (configuring_global (core t) = true \/
     QComboBox.currentIndex (api_combobox (core t)) <> USE_GLOBAL_INDEX ->
     vulkan_device (core t')
       = Settings.GetValue (Settings.vulkan_device (values (core t))) /\
     shader_backend (core t')
       = Settings.GetValue (Settings.shader_backend (values (core t))) /\
     QWidget.enabled (vulkan_device_widget t') = true /\
     QWidget.enabled (shader_backend_widget t') = true).
Proof.
  destruct (UpdateAPILayout_returns t)
    as (backend & t' & _ & Hrun & _ & _ & (Hdevice & Hshader) & (Hon1 & Hon2) & _).
  cbv zeta in Hdevice, Hshader, Hon1, Hon2.
  exists t'. split; [exact Hrun|].
  rewrite Hdevice, Hshader, Hon1, Hon2. split.
  - intros -> ->. rewrite Z.eqb_refl. cbn. rewrite !GetValue_global_true. auto.
  - intros [->|Hother]; [cbn; auto|].
    destruct (Z.eqb_spec (QComboBox.currentIndex (api_combobox (core t))) USE_GLOBAL_INDEX);
      [contradiction|].
    rewrite andb_false_r. cbn. auto.
Qed.

(** ** The slot of the API box *)

Lemma previous_mode_stable (st st' : State) :
  vsync_mode_combobox st' = vsync_mode_combobox st ->
  vsync_mode_combobox_enum_map st' = vsync_mode_combobox_enum_map st ->
  Settings.vsync_mode (values st') = Settings.vsync_mode (values st) ->
  previous_mode st' = previous_mode st.
Proof.
  intros Hbox Hmap Hsetting. unfold previous_mode. now rewrite Hbox, Hmap, Hsetting.
Qed.

Lemma lift_returns {A : Type} (m : M A) (t : Tab) (a : A) (st : State) :
  m (core t) = Returns a st -> lift m t = TabReturns a (set_core st t).
Proof. intros Hrun. unfold lift. now rewrite Hrun. Qed.

Lemma lift_undefined {A : Type} (m : M A) (t : Tab) :
  m (core t) = Undefined -> lift m t = TabUndefined.
Proof. intros Hrun. unfold lift. now rewrite Hrun. Qed.

(** X16. When the API box changes to the Vulkan backend and the device the
    layout update stores is an item of the device box with its entry in
    [device_present_modes], the slot returns: the device box shows the
    stored device and the VSync box offers the nameable present modes of
    that device, whatever device the box showed before. *)
Theorem api_change_offers_modes_of_stored_device (t : Tab)
        (previous : VkPresentModeKHR) (modes : list VkPresentModeKHR) :
  RendererBackend_OpenGL <> RendererBackend_Vulkan ->
  RendererBackend_Vulkan <> RendererBackend_Null ->
  returned (GetCurrentGraphicsBackend (core t)) = Some RendererBackend_Vulkan ->
  previous_mode (core t) = Some previous ->
  0 <= to_int (layout_device (core t))
    < QComboBox.count (vulkan_device_combobox (core t)) ->
  nth_error (device_present_modes (core t))
            (Z.to_nat (to_int (layout_device (core t)))) = Some modes ->
  exists t',
    api_combobox_currentIndexChanged t = TabReturns tt t' /\
    vulkan_device (core t') = layout_device (core t) /\
    QComboBox.currentIndex (vulkan_device_combobox (core t'))
      = to_int (layout_device (core t)) /\
    vsync_mode_combobox_enum_map (core t') = filter (nameable RendererBackend_Vulkan) modes.
Proof.
  intros Hgv Hvn Hvulkan Hprevious Hdevice Hmodes.
  destruct (UpdateAPILayout_returns t)
    as (backend & t1 & Hbackend & Hrun1 & Hframe & (Hvalues & _) & (Hstored & _)
        & _ & Hbox & _).
  cbv zeta in Hstored, Hbox.
  fold (at_use_global_entry (core t)) in Hstored, Hbox.
  fold (layout_device (core t)) in Hstored, Hbox.
  rewrite Hvulkan in Hbackend. injection Hbackend as <-.
  destruct Hframe as (Hmode & _ & _ & Hapi & Hvsync & _ & Hmap & Hlist).
  destruct Hvalues as (Hvalue & _ & _ & _ & Hsetting).
  destruct (Z.eqb_spec RendererBackend_Vulkan RendererBackend_OpenGL) as [Heq|_];
    [congruence|].
  rewrite Z.eqb_refl in Hbox. cbn [negb andb] in Hbox.
  destruct (Z.ltb_spec (to_int (layout_device (core t)))
                       (QComboBox.count (vulkan_device_combobox (core t)))); [|lia].
  assert (Hindex : QComboBox.currentIndex (vulkan_device_combobox (core t1))
                   = to_int (layout_device (core t))).
  { rewrite Hbox, setCurrentIndex_index.
    destruct (Z.leb_spec 0 (to_int (layout_device (core t)))); [|lia].
    destruct (Z.ltb_spec (to_int (layout_device (core t)))
                         (QComboBox.count (vulkan_device_combobox (core t))));
      [reflexivity|lia]. }
  assert (Hquery1 : returned (GetCurrentGraphicsBackend (core t1))
                    = Some RendererBackend_Vulkan).
  { rewrite <- Hvulkan. apply backend_query_stable;
      [exact Hmode | now rewrite Hapi | exact Hvalue]. }
  assert (Hprevious1 : previous_mode (core t1) = Some previous).
  { rewrite <- Hprevious. now apply previous_mode_stable. }
  assert (Hsource1 : source_list RendererBackend_Vulkan (core t1) = Some modes).
  { unfold source_list. rewrite Z.eqb_refl, Hindex, Hlist.
    destruct (Z.leb_spec 0 (to_int (layout_device (core t)))); [exact Hmodes|lia]. }
  destruct (PopulateVSyncModeSelection_returns (core t1) Hquery1 Hvn Hprevious1 Hsource1)
    as (st' & Hrun2 & Hoffered & _ & _ & _ & _ & _ & Hframe2).
  destruct Hframe2 as (_ & _ & _ & _ & Hdevice2 & _ & Hmember2 & _).
  exists (set_core st' t1).
  unfold api_combobox_currentIndexChanged, tbind. rewrite Hrun1.
  rewrite (lift_returns _ t1 Hrun2). cbn [core set_core].
  split; [reflexivity|]. rewrite Hmember2, Hdevice2. repeat split; assumption.
Qed.

(** X17. When the API box changes to the Vulkan backend and the stored
    device converts to a negative [int], or is past the items of the device
    box while that box shows no item with an entry in
    [device_present_modes], the rebuild the slot ends with indexes
    [device_present_modes] out of range: the slot's behaviour is undefined. *)
Theorem api_change_without_device_is_undefined (t : Tab) :
  RendererBackend_OpenGL <> RendererBackend_Vulkan ->
  RendererBackend_Vulkan <> RendererBackend_Null ->
  returned (GetCurrentGraphicsBackend (core t)) = Some RendererBackend_Vulkan ->
  to_int (layout_device (core t)) < 0 \/
  (QComboBox.count (vulkan_device_combobox (core t)) <= to_int (layout_device (core t)) /\
   (QComboBox.currentIndex (vulkan_device_combobox (core t)) < 0 \/
    Z.of_nat (List.length (device_present_modes (core t)))
      <= QComboBox.currentIndex (vulkan_device_combobox (core t)))) ->
  api_combobox_currentIndexChanged t = TabUndefined.
Proof.
  intros Hgv Hvn Hvulkan Hcase.
  destruct (UpdateAPILayout_returns t)
    as (backend & t1 & Hbackend & Hrun1 & Hframe & (Hvalues & _) & _ & _ & Hbox & _).
  cbv zeta in Hbox.
  fold (at_use_global_entry (core t)) in Hbox.
  fold (layout_device (core t)) in Hbox.
  rewrite Hvulkan in Hbackend. injection Hbackend as <-.
  destruct Hframe as (Hmode & _ & _ & Hapi & _ & _ & _ & Hlist).
  destruct Hvalues as (Hvalue & _).
  destruct (Z.eqb_spec RendererBackend_Vulkan RendererBackend_OpenGL) as [Heq|_];
    [congruence|].
  rewrite Z.eqb_refl in Hbox. cbn [negb andb] in Hbox.
  assert (Hquery1 : returned (GetCurrentGraphicsBackend (core t1))
                    = Some RendererBackend_Vulkan).
  { rewrite <- Hvulkan. apply backend_query_stable;
      [exact Hmode | now rewrite Hapi | exact Hvalue]. }
  unfold api_combobox_currentIndexChanged, tbind. rewrite Hrun1.
  apply lift_undefined.
  apply rebuild_device_out_of_range; [exact Hquery1 | exact Hvn |].
  rewrite Hbox, Hlist.
  destruct (Z.ltb_spec (to_int (layout_device (core t)))
                       (QComboBox.count (vulkan_device_combobox (core t))))
    as [Hlt|Hge].
  - left. rewrite setCurrentIndex_index.
    destruct Hcase as [Hneg|(Hpast & _)]; [|lia].
    destruct (Z.leb_spec 0 (to_int (layout_device (core t)))); [lia|].
    cbn [andb]. lia.
  - destruct Hcase as [Hneg|(_ & Hout)]; [|exact Hout].
    assert (0 <= QComboBox.count (vulkan_device_combobox (core t)))
      by (unfold QComboBox.count; lia).
    lia.
Qed.

(** The layout update leaves the use-global flag of the renderer backend
    in step with the API box: the rebuild that follows it in the
    constructor and in the slot of the API box finds the flag so. *)
Lemma layout_update_leaves_flag_in_step (t t' : Tab) :
  UpdateAPILayout t = TabReturns tt t' ->
  backend_flag_in_step (core t').
Proof.
  unfold UpdateAPILayout, on_core, tbind, tgets, tmodify, tret, lift.
  cbn beta iota.
  destruct (negb (configuring_global (core t)) &&
            (QComboBox.currentIndex (api_combobox (core t)) =? USE_GLOBAL_INDEX));
    cbn;
    match goal with
    | |- context [GetCurrentGraphicsBackend ?s] =>
      destruct (GetCurrentGraphicsBackend_returns s)
        as (backend & v & Hquery & _);
      pose proof (@backend_query_leaves_flag_in_step _ _ _ _ Hquery) as Hflag;
      rewrite Hquery
    end;
    cbn;
    destruct (backend =? RendererBackend_OpenGL);
    [|destruct (backend =? RendererBackend_Vulkan);
      [match goal with
       | |- context [if ?c then _ else _] => destruct c
       end
      |destruct (backend =? RendererBackend_Null)]
     |
     |destruct (backend =? RendererBackend_Vulkan);
      [match goal with
       | |- context [if ?c then _ else _] => destruct c
       end
      |destruct (backend =? RendererBackend_Null)]];
    cbn; intros Hrun; injection Hrun as <-; exact Hflag.
Qed.

(** In the constructor and in the slot of the API box the rebuild follows
    the layout update: it leaves the settings store as the layout update
    left it. *)
Lemma rebuild_after_layout_update_keeps_store (t t1 : Tab) (st2 : State) :
  UpdateAPILayout t = TabReturns tt t1 ->
  PopulateVSyncModeSelection (core t1) = Returns tt st2 ->
  values st2 = values (core t1).
Proof.
  intros Hlayout Hrun.
  apply rebuild_keeps_store_in_step; [|exact Hrun].
  exact (@layout_update_leaves_flag_in_step t t1 Hlayout).
Qed.

(** ** The slot of the device box *)

Lemma UpdateDeviceSelection_returns (st : State) (device : Z) :
  device <> -1 ->
  exists (backend : Z) (v : Settings.Values),
    GetCurrentGraphicsBackend st = Returns backend (set_values v st) /\
    same_values_up_to_backend_flag (values st) v /\
    UpdateDeviceSelection device st =
      Returns tt (if backend =? RendererBackend_Vulkan
                  then set_vulkan_device (to_u32 device) (set_values v st)
                  else set_values v st).
Proof.
  intros Hdevice.
  destruct (GetCurrentGraphicsBackend_returns st)
    as (backend & v & Hquery & Hvalues & _).
  exists backend, v. split; [exact Hquery|]. split; [exact Hvalues|].
  unfold UpdateDeviceSelection.
  destruct (Z.eqb_spec device (-1)); [contradiction|].
  unfold bind. rewrite Hquery.
  destruct (backend =? RendererBackend_Vulkan); reflexivity.
Qed.

(** In the slot of the device box the rebuild follows the device update,
    which has asked for the backend: the rebuild leaves the settings
    store as the update left it. *)
Lemma rebuild_after_device_update_keeps_store (st st1 st2 : State) (device : Z) :
  device <> -1 ->
  UpdateDeviceSelection device st = Returns tt st1 ->
  PopulateVSyncModeSelection st1 = Returns tt st2 ->
  values st2 = values st1.
Proof.
  intros Hdevice Hupdate Hrun.
  apply rebuild_keeps_store_in_step; [|exact Hrun].
  destruct (UpdateDeviceSelection_returns st Hdevice)
    as (backend & v & Hquery & _ & Hupdate').
  rewrite Hupdate' in Hupdate. injection Hupdate as <-.
  pose proof (@backend_query_leaves_flag_in_step _ _ _ _ Hquery) as Hflag.
  destruct (backend =? RendererBackend_Vulkan); exact Hflag.
Qed.

(** X19. When an item of the device box is activated under the Vulkan
    backend and the device has its entry in [device_present_modes], the
    slot returns: the device is stored, converted to the unsigned member,
    which leaves a device below 2^32 as it is; the VSync box offers the
    nameable present modes of that device, and the mode selected before
    stays selected when the device offers it. *)
Theorem device_activation_offers_modes_of_device (t : Tab) (device : Z)
        (previous : VkPresentModeKHR) (modes : list VkPresentModeKHR) :
  RendererBackend_Vulkan <> RendererBackend_Null ->
  returned (GetCurrentGraphicsBackend (core t)) = Some RendererBackend_Vulkan ->
  previous_mode (core t) = Some previous ->
  QComboBox.currentIndex (vulkan_device_combobox (core t)) = device ->
  0 <= device ->
  nth_error (device_present_modes (core t)) (Z.to_nat device) = Some modes ->
  exists t',
    vulkan_device_combobox_activated device t = TabReturns tt t' /\
    vulkan_device (core t') = to_u32 device /\
    (device < 2 ^ 32 -> vulkan_device (core t') = device) /\
    vsync_mode_combobox_enum_map (core t') = filter (nameable RendererBackend_Vulkan) modes /\
    (In previous (filter (nameable RendererBackend_Vulkan) modes) ->
     exists k : nat,
       QComboBox.currentIndex (vsync_mode_combobox (core t')) = Z.of_nat k /\
       nth_error (vsync_mode_combobox_enum_map (core t')) k = Some previous).
Proof.
  intros Hvn Hvulkan Hprevious Hcurrent Hpos Hmodes.
  assert (Hdevice : device <> -1) by lia.
  destruct (UpdateDeviceSelection_returns (core t) Hdevice)
    as (backend & v & Hquery & Hvalues & Hrun1).
  rewrite Hquery in Hvulkan. cbn in Hvulkan. injection Hvulkan as ->.
  rewrite Z.eqb_refl in Hrun1.
  set (st1 := set_vulkan_device (to_u32 device) (set_values v (core t))) in *.
  destruct Hvalues as (Hvalue & _ & _ & _ & Hsetting).
  assert (Hquery1 : returned (GetCurrentGraphicsBackend st1) = Some RendererBackend_Vulkan).
  { replace (Some RendererBackend_Vulkan)
      with (returned (GetCurrentGraphicsBackend (core t))) by now rewrite Hquery.
    apply backend_query_stable; [reflexivity | reflexivity | exact Hvalue]. }
  assert (Hprevious1 : previous_mode st1 = Some previous).
  { rewrite <- Hprevious. apply previous_mode_stable; [reflexivity | reflexivity |].
    exact Hsetting. }
  assert (Hsource1 : source_list RendererBackend_Vulkan st1 = Some modes).
  { unfold source_list. rewrite Z.eqb_refl. subst st1. cbn. rewrite Hcurrent.
    destruct (Z.leb_spec 0 device); [exact Hmodes|lia]. }
  destruct (PopulateVSyncModeSelection_returns st1 Hquery1 Hvn Hprevious1 Hsource1)
    as (st2 & Hrun2 & Hmap2 & _ & Hbox2 & _ & _ & _ & Hframe2).
  destruct Hframe2 as (_ & _ & _ & _ & _ & _ & Hmember2 & _).
  destruct (@rebuilt_box _ RendererBackend_Vulkan previous modes (vsync_mode_combobox st1))
    as (_ & _ & Hselected).
  cbn zeta in Hselected. rewrite <- Hbox2 in Hselected.
  eexists.
  unfold vulkan_device_combobox_activated, tbind.
  rewrite (lift_returns _ t Hrun1).
  rewrite (lift_returns _ (set_core st1 t) Hrun2).
  split; [reflexivity|]. cbn [core set_core].
  split; [now rewrite Hmember2|].
  split; [intros Hsmall; rewrite Hmember2; apply Z.mod_small; lia|].
  split; [exact Hmap2|].
  intros Hin. destruct (Hselected Hin) as (k & _ & Hindex & Hnth).
  exists k. rewrite Hmap2. split; assumption.
Qed.

End DevicesAndLayout.

Section WiringProperties.

Variables vulkan_device_Id shader_backend_Id vsync_mode_Id : Z.
Variable CreateWidget : BasicSetting -> bool -> bool -> Created.

Local Abbreviation wire := (wire_setting vulkan_device_Id shader_backend_Id vsync_mode_Id CreateWidget).
Local Abbreviation create := (create_for vulkan_device_Id shader_backend_Id vsync_mode_Id CreateWidget).
Local Abbreviation configure :=
  (SetConfiguration vulkan_device_Id shader_backend_Id vsync_mode_Id CreateWidget).

(** ** The maps of [hold_graphics] *)

Lemma string_compare_refl (s : string) : String.compare s s = Eq.
Proof.
  pose proof (String.compare_antisym s s) as Hanti.
  destruct (String.compare s s); [reflexivity|discriminate|discriminate].
Qed.

Lemma lookup_assign (label key : string) (widget : nat) (m : label_map) :
  lookup label (assign key widget m) =
  if String.eqb label key then Some widget else lookup label m.
Proof.
  induction m as [|[k held] rest IH]; cbn [assign lookup]; [reflexivity|].
  destruct (String.compare key k) eqn:Hcompare; cbn [lookup].
  - apply String.compare_eq_iff in Hcompare. subst k.
    destruct (String.eqb label key); reflexivity.
  - reflexivity.
  - rewrite IH.
    destruct (String.eqb_spec label k) as [->|]; [|reflexivity].
    destruct (String.eqb_spec k key) as [->|]; [|reflexivity].
    rewrite string_compare_refl in Hcompare. discriminate.
Qed.

Lemma assign_keys_increase (key : string) (widget : nat) (m : label_map) :
  keys_increase m -> keys_increase (assign key widget m).
Proof.
  unfold keys_increase.
  induction m as [|[k held] rest IH]; intros Hsorted; cbn [assign].
  - repeat constructor.
  - apply Sorted_inv in Hsorted. destruct Hsorted as [Hrest Hhead].
    destruct (String.compare key k) eqn:Hcompare.
    + apply String.compare_eq_iff in Hcompare. subst k.
      constructor; [exact Hrest|].
      destruct rest; constructor. now apply HdRel_inv in Hhead.
    + constructor; [constructor; assumption|]. constructor. exact Hcompare.
    + constructor; [now apply IH|].
      assert (Hless : String.compare k key = Lt).
      { rewrite String.compare_antisym, Hcompare. reflexivity. }
      destruct rest as [|[k' held'] rest']; cbn [assign].
      * constructor. exact Hless.
      * apply HdRel_inv in Hhead. cbn [fst] in Hhead.
        destruct (String.compare key k'); constructor; cbn [fst]; assumption.
Qed.

(** ** The first loop *)

Lemma wire_setting_keeps_device_pointers (runtime_lock : bool)
      (state : Wiring * Held) (setting : BasicSetting) :
  vulkan_device_combobox_pointer (fst (wire runtime_lock state setting))
    = vulkan_device_combobox_pointer (fst state) /\
  vulkan_device_widget_pointer (fst (wire runtime_lock state setting))
    = vulkan_device_widget_pointer (fst state) /\
  graphics_layout (fst (wire runtime_lock state setting)) = graphics_layout (fst state).
Proof.
  destruct state as [w h]. unfold wire_setting.
  destruct (created_widget (create setting runtime_lock)); [|cbn; auto].
  destruct (Id setting =? vulkan_device_Id); [cbn; auto|].
  destruct (Id setting =? shader_backend_Id); [cbn; auto|].
  destruct (Id setting =? vsync_mode_Id); cbn; auto.
Qed.

Lemma fold_wire_keeps_device_pointers (runtime_lock : bool) (settings : list BasicSetting) :
  forall state : Wiring * Held,
    vulkan_device_combobox_pointer (fst (fold_left (wire runtime_lock) settings state))
      = vulkan_device_combobox_pointer (fst state) /\
    vulkan_device_widget_pointer (fst (fold_left (wire runtime_lock) settings state))
      = vulkan_device_widget_pointer (fst state) /\
    graphics_layout (fst (fold_left (wire runtime_lock) settings state))
      = graphics_layout (fst state).
Proof.
  induction settings as [|setting rest IH]; intros state; cbn [fold_left]; [auto|].
  destruct (IH (wire runtime_lock state setting)) as (Hbox & Hwidget & Hlayout).
  destruct (wire_setting_keeps_device_pointers runtime_lock state setting)
    as (Hbox1 & Hwidget1 & Hlayout1).
  rewrite Hbox, Hwidget, Hlayout. auto.
Qed.

(** The loops that add the held widgets change the layouts only. *)
Lemma add_graphics_widgets (entries : label_map) :
  forall w : Wiring,
    let w' := fold_left (fun layout entry => graphics_layout_addWidget (snd entry) layout)
                        entries w in
    graphics_layout w' = (graphics_layout w ++ map snd entries)%list /\
    api_layout w' = api_layout w /\
    api_combobox_pointer w' = api_combobox_pointer w /\
    vulkan_device_combobox_pointer w' = vulkan_device_combobox_pointer w /\
    vulkan_device_widget_pointer w' = vulkan_device_widget_pointer w.
Proof.
  induction entries as [|entry rest IH]; intros w; cbn [fold_left map].
  - cbn. rewrite app_nil_r. auto.
  - destruct (IH (graphics_layout_addWidget (snd entry) w))
      as (Hgraphics & Hapi & Hpointer & Hbox & Hwidget).
    cbn zeta in *. rewrite Hgraphics, Hapi, Hpointer, Hbox, Hwidget. cbn.
    rewrite <- app_assoc. auto.
Qed.

Lemma add_api_widgets (widgets : list nat) :
  forall w : Wiring,
    let w' := fold_left (fun layout widget => api_layout_addWidget widget layout)
                        widgets w in
    api_layout w' = (api_layout w ++ widgets)%list /\
    graphics_layout w' = graphics_layout w /\
    api_combobox_pointer w' = api_combobox_pointer w /\
    vulkan_device_combobox_pointer w' = vulkan_device_combobox_pointer w /\
    vulkan_device_widget_pointer w' = vulkan_device_widget_pointer w.
Proof.
  induction widgets as [|widget rest IH]; intros w; cbn [fold_left].
  - cbn. rewrite app_nil_r. auto.
  - destruct (IH (api_layout_addWidget widget w))
      as (Hapi & Hgraphics & Hpointer & Hbox & Hwidget).
    cbn zeta in *. rewrite Hapi, Hgraphics, Hpointer, Hbox, Hwidget. cbn.
    rewrite <- app_assoc. auto.
Qed.

Lemma SetConfiguration_unfold (settings : list BasicSetting) (powered : bool) (w : Wiring) :
  configure settings powered w =
  fold_left (fun layout widget => api_layout_addWidget widget layout)
    (hold_api (snd (fold_left (wire (negb powered)) settings
        (w, {| hold_graphics_false := []; hold_graphics_true := []; hold_api := [] |}))))
    (fold_left (fun layout entry => graphics_layout_addWidget (snd entry) layout)
       (hold_graphics_false (snd (fold_left (wire (negb powered)) settings
           (w, {| hold_graphics_false := []; hold_graphics_true := []; hold_api := [] |})))
        ++ hold_graphics_true (snd (fold_left (wire (negb powered)) settings
           (w, {| hold_graphics_false := []; hold_graphics_true := []; hold_api := [] |}))))%list
       (fst (fold_left (wire (negb powered)) settings
           (w, {| hold_graphics_false := []; hold_graphics_true := []; hold_api := [] |})))).
Proof.
  unfold SetConfiguration.
  destruct (fold_left (wire (negb powered)) settings
              (w, {| hold_graphics_false := []; hold_graphics_true := []; hold_api := [] |}))
    as [w1 h].
  reflexivity.
Qed.

(** What the first loop has done after the settings seen so far. *)
Lemma fold_wire_app (runtime_lock : bool) (settings : list BasicSetting)
      (setting : BasicSetting) (state : Wiring * Held) :
  fold_left (wire runtime_lock) (settings ++ [setting])%list state =
  wire runtime_lock (fold_left (wire runtime_lock) settings state) setting.
Proof.
  rewrite fold_left_app. reflexivity.
Qed.

Lemma fold_wire_graphics (runtime_lock : bool) (w : Wiring) (settings : list BasicSetting) :
  let h := snd (fold_left (wire runtime_lock) settings
             (w, {| hold_graphics_false := []; hold_graphics_true := []; hold_api := [] |})) in
  keys_increase (hold_graphics_false h) /\
  keys_increase (hold_graphics_true h) /\
  (forall label,
      lookup label (hold_graphics_false h)
      = held_widget vulkan_device_Id shader_backend_Id vsync_mode_Id CreateWidget
                    settings runtime_lock false label) /\
  (forall label,
      lookup label (hold_graphics_true h)
      = held_widget vulkan_device_Id shader_backend_Id vsync_mode_Id CreateWidget
                    settings runtime_lock true label).
Proof.
  induction settings as [|setting settings IH] using rev_ind.
  - cbn. repeat split; constructor.
  - cbv zeta in *. rewrite fold_wire_app.
    destruct (fold_left (wire runtime_lock) settings _) as [w1 h1].
    cbn [snd] in IH. destruct IH as (Hfalse & Htrue & Hlookup_false & Hlookup_true).
    unfold held_widget in *. rewrite rev_unit. cbn [find].
    unfold wire_setting, held_in_graphics.
    destruct (created_widget (create setting runtime_lock)) as [widget|] eqn:Hwidget;
      [|cbn [snd andb]; auto].
    destruct (Id setting =? vulkan_device_Id); [cbn [snd andb negb]; auto|].
    destruct (Id setting =? shader_backend_Id); [cbn [snd andb negb]; auto|].
    assert (Hassign :
      let h := hold_graphics_assign (IsEnum setting) (GetLabel setting) widget h1 in
      keys_increase (hold_graphics_false h) /\
      keys_increase (hold_graphics_true h) /\
      (forall label,
          lookup label (hold_graphics_false h)
          = match
              (if true && negb false && negb false && Bool.eqb (IsEnum setting) false
                  && String.eqb (GetLabel setting) label
               then Some setting
               else find (fun setting0 =>
                            match created_widget (create setting0 runtime_lock) with
                            | Some _ => negb (Id setting0 =? vulkan_device_Id)
                                        && negb (Id setting0 =? shader_backend_Id)
                            | None => false
                            end && Bool.eqb (IsEnum setting0) false
                            && String.eqb (GetLabel setting0) label) (rev settings))
            with
            | Some setting0 => created_widget (create setting0 runtime_lock)
            | None => None
            end) /\
      (forall label,
          lookup label (hold_graphics_true h)
          = match
              (if true && negb false && negb false && Bool.eqb (IsEnum setting) true
                  && String.eqb (GetLabel setting) label
               then Some setting
               else find (fun setting0 =>
                            match created_widget (create setting0 runtime_lock) with
                            | Some _ => negb (Id setting0 =? vulkan_device_Id)
                                        && negb (Id setting0 =? shader_backend_Id)
                            | None => false
                            end && Bool.eqb (IsEnum setting0) true
                            && String.eqb (GetLabel setting0) label) (rev settings))
            with
            | Some setting0 => created_widget (create setting0 runtime_lock)
            | None => None
            end)).
    { unfold hold_graphics_assign.
      destruct (IsEnum setting); cbn [hold_graphics_false hold_graphics_true andb negb Bool.eqb].
      - repeat split; auto using assign_keys_increase.
        intros label. rewrite lookup_assign, Hlookup_true.
        destruct (String.eqb_spec label (GetLabel setting)) as [->|Hdiffer].
        + rewrite String.eqb_refl. symmetry. exact Hwidget.
        + destruct (String.eqb_spec (GetLabel setting) label) as [Hsame|]; [|reflexivity].
          symmetry in Hsame. contradiction.
      - repeat split; auto using assign_keys_increase.
        intros label. rewrite lookup_assign, Hlookup_false.
        destruct (String.eqb_spec label (GetLabel setting)) as [->|Hdiffer].
        + rewrite String.eqb_refl. symmetry. exact Hwidget.
        + destruct (String.eqb_spec (GetLabel setting) label) as [Hsame|]; [|reflexivity].
          symmetry in Hsame. contradiction. }
    cbn [andb negb] in Hassign |- *.
    destruct (Id setting =? vsync_mode_Id); cbn [snd]; exact Hassign.
Qed.

Lemma fold_wire_api (runtime_lock : bool) (w : Wiring) (settings : list BasicSetting) :
  let state := fold_left (wire runtime_lock) settings
                 (w, {| hold_graphics_false := []; hold_graphics_true := []; hold_api := [] |}) in
  api_layout (fst state)
  = (api_layout w
     ++ widgets_of vulkan_device_Id shader_backend_Id vsync_mode_Id CreateWidget
          (fun setting => Id setting =? vulkan_device_Id) runtime_lock settings)%list /\
  hold_api (snd state)
  = rev (widgets_of vulkan_device_Id shader_backend_Id vsync_mode_Id CreateWidget
           (fun setting => negb (Id setting =? vulkan_device_Id)
                           && (Id setting =? shader_backend_Id))
           runtime_lock settings) /\
  api_combobox_pointer (fst state)
  = match find (fun setting =>
                  (Id setting =? vulkan_device_Id)
                  && match created_widget (create setting runtime_lock) with
                     | Some _ => true
                     | None => false
                     end)
               (rev settings) with
    | Some setting => created_extra (create setting runtime_lock)
    | None => api_combobox_pointer w
    end.
Proof.
  induction settings as [|setting settings IH] using rev_ind.
  - cbn. rewrite app_nil_r. auto.
  - cbv zeta in *. rewrite fold_wire_app.
    destruct (fold_left (wire runtime_lock) settings _) as [w1 h1].
    cbn [fst snd] in IH. destruct IH as (Hlayout & Hhold & Hpointer).
    unfold widgets_of in *. rewrite !flat_map_app, rev_unit. cbn [flat_map find].
    rewrite !app_nil_r, rev_app_distr, app_assoc, <- Hlayout, <- Hhold.
    unfold wire_setting.
    destruct (created_widget (create setting runtime_lock)) as [widget|].
    + destruct (Id setting =? vulkan_device_Id).
      * cbn. auto.
      * destruct (Id setting =? shader_backend_Id); [cbn; rewrite app_nil_r; auto|].
        destruct (Id setting =? vsync_mode_Id);
          unfold hold_graphics_assign; destruct (IsEnum setting);
          cbn; rewrite app_nil_r; auto.
    + destruct (Id setting =? vulkan_device_Id);
        [|destruct (Id setting =? shader_backend_Id)];
        cbn; rewrite app_nil_r; auto.
Qed.

(** The device members come out of [SetConfiguration] as they went in. *)
Lemma SetConfiguration_keeps_device_pointers
      (settings : list BasicSetting) (powered : bool) (w : Wiring) :
  vulkan_device_combobox_pointer (configure settings powered w)
  = vulkan_device_combobox_pointer w /\
  vulkan_device_widget_pointer (configure settings powered w)
  = vulkan_device_widget_pointer w.
Proof.
  rewrite SetConfiguration_unfold.
  destruct (fold_wire_keeps_device_pointers (negb powered) settings
              (w, {| hold_graphics_false := []; hold_graphics_true := []; hold_api := [] |}))
    as (Hbox & Hwidget & _).
  cbn [fst] in Hbox, Hwidget.
  match goal with
  | |- context [fold_left _ ?widgets (fold_left ?f ?entries ?w1)] =>
    destruct (add_api_widgets widgets (fold_left f entries w1))
      as (_ & _ & _ & Hbox2 & Hwidget2);
    destruct (add_graphics_widgets entries w1)
      as (_ & _ & _ & Hbox1 & Hwidget1)
  end.
  cbv zeta in *.
  rewrite Hbox2, Hwidget2, Hbox1, Hwidget1, Hbox, Hwidget. auto.
Qed.

(** X20.  [SetConfiguration] never assigns [vulkan_device_combobox] nor
    [vulkan_device_widget], whatever the settings of the category and
    whatever [CreateWidget] returns: the branch that would assign them
    tests the identity the branch before it has tested.  The widget of a
    setting with the device identity is wired as the API box instead:
    [api_combobox] ends as the extra of the last such setting that has a
    widget, and is left as it was when there is none. *)
Theorem SetConfiguration_never_assigns_device_box
        (settings : list BasicSetting) (powered : bool) (w : Wiring) :
  vulkan_device_combobox_pointer (configure settings powered w)
  = vulkan_device_combobox_pointer w /\
  vulkan_device_widget_pointer (configure settings powered w)
  = vulkan_device_widget_pointer w /\
  api_combobox_pointer (configure settings powered w)
  = match find (fun setting =>
                  (Id setting =? vulkan_device_Id)
                  && match created_widget (create setting (negb powered)) with
                     | Some _ => true
                     | None => false
                     end)
               (rev settings) with
    | Some setting => created_extra (create setting (negb powered))
    | None => api_combobox_pointer w
    end.
Proof.
  rewrite SetConfiguration_unfold.
  destruct (fold_wire_keeps_device_pointers (negb powered) settings
              (w, {| hold_graphics_false := []; hold_graphics_true := []; hold_api := [] |}))
    as (Hbox & Hwidget & _).
  destruct (fold_wire_api (negb powered) w settings) as (_ & _ & Hpointer).
  cbv zeta in Hpointer. cbn [fst] in Hbox, Hwidget.
  match goal with
  | |- context [fold_left _ ?widgets (fold_left ?f ?entries ?w1)] =>
    destruct (add_api_widgets widgets (fold_left f entries w1))
      as (_ & _ & Hpointer2 & Hbox2 & Hwidget2);
    destruct (add_graphics_widgets entries w1)
      as (_ & _ & Hpointer1 & Hbox1 & Hwidget1)
  end.
  cbv zeta in *.
  rewrite Hbox2, Hwidget2, Hpointer2, Hbox1, Hwidget1, Hpointer1, Hbox, Hwidget, Hpointer.
  auto.
Qed.

(** X21.  The graphics layout receives, after what it held, the widgets
    of two maps: that of the settings that are no enumeration first,
    then that of the enumerations, each in strictly increasing order of
    the labels.  Under a label either map holds the widget of the last
    setting of the category with this label and kind that has a widget
    and is neither the device nor the shader-backend setting: an earlier
    setting with the same label and kind has been replaced in the map. *)
Theorem SetConfiguration_graphics_layout_by_label
        (settings : list BasicSetting) (powered : bool) (w : Wiring) :
  exists plain enums : label_map,
    graphics_layout (configure settings powered w)
    = (graphics_layout w ++ map snd plain ++ map snd enums)%list /\
    keys_increase plain /\
    keys_increase enums /\
    (forall label,
        lookup label plain
        = held_widget vulkan_device_Id shader_backend_Id vsync_mode_Id CreateWidget
                      settings (negb powered) false label) /\
    (forall label,
        lookup label enums
        = held_widget vulkan_device_Id shader_backend_Id vsync_mode_Id CreateWidget
                      settings (negb powered) true label).
Proof.
  rewrite SetConfiguration_unfold.
  destruct (fold_wire_keeps_device_pointers (negb powered) settings
              (w, {| hold_graphics_false := []; hold_graphics_true := []; hold_api := [] |}))
    as (_ & _ & Hlayout).
  destruct (fold_wire_graphics (negb powered) w settings)
    as (Hplain & Henums & Hlookup_plain & Hlookup_enums).
  cbv zeta in *. cbn [fst] in Hlayout.
  match goal with
  | |- context [fold_left _ ?widgets (fold_left ?f ?entries ?w1)] =>
    destruct (add_api_widgets widgets (fold_left f entries w1)) as (_ & Hgraphics2 & _);
    destruct (add_graphics_widgets entries w1) as (Hgraphics1 & _)
  end.
  cbv zeta in *.
  eexists _, _. split; [|split; [exact Hplain|split; [exact Henums|split; assumption]]].
  rewrite Hgraphics2, Hgraphics1, Hlayout, map_app. reflexivity.
Qed.

(** X22.  The API layout receives, after what it held, the widgets of
    the settings with the device identity in the order of the category,
    then the widgets of the shader-backend setting in reverse order of
    the category, [hold_api] being filled at its front. *)
Theorem SetConfiguration_api_layout_order
        (settings : list BasicSetting) (powered : bool) (w : Wiring) :
  api_layout (configure settings powered w)
  = (api_layout w
     ++ widgets_of vulkan_device_Id shader_backend_Id vsync_mode_Id CreateWidget
          (fun setting => Id setting =? vulkan_device_Id) (negb powered) settings
     ++ rev (widgets_of vulkan_device_Id shader_backend_Id vsync_mode_Id CreateWidget
               (fun setting => negb (Id setting =? vulkan_device_Id)
                               && (Id setting =? shader_backend_Id))
               (negb powered) settings))%list.
Proof.
  rewrite SetConfiguration_unfold.
  destruct (fold_wire_api (negb powered) w settings) as (Hlayout & Hhold & _).
  cbv zeta in *.
  match goal with
  | |- context [fold_left _ ?widgets (fold_left ?f ?entries ?w1)] =>
    destruct (add_api_widgets widgets (fold_left f entries w1)) as (Hapi2 & _);
    destruct (add_graphics_widgets entries w1) as (_ & Hapi1 & _)
  end.
  cbv zeta in *.
  rewrite Hapi2, Hapi1, Hlayout, Hhold, app_assoc. reflexivity.
Qed.

End WiringProperties.

Section QueryAndRestriction.

Context `{Declarations}.

(** X23.  The backend query is idempotent: asked again in the state it
    left, it returns the same backend and leaves that state as it is.  In
    global configuration mode the query changes nothing and returns the
    index of the API box; in per-profile mode it returns, at the
    use-global entry, the global value of the renderer-backend setting
    whatever override is stored, and at any other entry the index less
    the use-global offset, the use-global flag of the setting being left
    set at the use-global entry and cleared at the others. *)
Theorem backend_query_is_idempotent (st : State) :
  exists (backend : Z) (st1 : State),
    GetCurrentGraphicsBackend st = Returns backend st1 /\
    GetCurrentGraphicsBackend st1 = Returns backend st1 /\
    (configuring_global st = true ->
     backend = QComboBox.currentIndex (api_combobox st) /\ st1 = st) /\
    (configuring_global st = false ->
     QComboBox.currentIndex (api_combobox st) = USE_GLOBAL_INDEX ->
     backend = Settings.value (Settings.renderer_backend (values st)) /\
     Settings.use_global (Settings.renderer_backend (values st1)) = true) /\
    (configuring_global st = false ->
     QComboBox.currentIndex (api_combobox st) <> USE_GLOBAL_INDEX ->
     backend = QComboBox.currentIndex (api_combobox st) - USE_GLOBAL_OFFSET /\
     Settings.use_global (Settings.renderer_backend (values st1)) = false).
Proof.
  unfold GetCurrentGraphicsBackend, bind, gets, modify, ret.
  destruct (configuring_global st) eqn:Hglobal.
  - exists (QComboBox.currentIndex (api_combobox st)), st.
    rewrite Hglobal. repeat split; try reflexivity; discriminate.
  - destruct (Z.eqb_spec (QComboBox.currentIndex (api_combobox st)) USE_GLOBAL_INDEX)
      as [Hentry|Hentry].
    + do 2 eexists. split; [reflexivity|].
      cbn [configuring_global api_combobox set_values]. rewrite Hglobal, Hentry, Z.eqb_refl.
      repeat split; try reflexivity; try discriminate; contradiction.
    + do 2 eexists. split; [reflexivity|].
      cbn [configuring_global api_combobox set_values]. rewrite Hglobal.
      destruct (Z.eqb_spec (QComboBox.currentIndex (api_combobox st)) USE_GLOBAL_INDEX)
        as [Hsame|_]; [contradiction|].
      repeat split; try reflexivity; try discriminate; contradiction.
Qed.

(** X24.  The restriction at the end of the constructor enables nothing:
    the API box and the API widget are enabled after it only if they were
    before.  Without a broken Vulkan installation it leaves the tab as it
    is; with one it disables the API box in either configuration mode,
    and the API widget in per-profile mode only. *)
Theorem restriction_only_disables (t : Tab) :
  exists t',
    restrict_api_widgets t = TabReturns tt t' /\
    (QComboBox.enabled (api_combobox (core t')) = true ->
     QComboBox.enabled (api_combobox (core t)) = true /\ has_broken_vulkan t = false) /\
    (QWidget.enabled (api_widget t') = true -> QWidget.enabled (api_widget t) = true) /\
    (has_broken_vulkan t = false -> t' = t) /\
    (has_broken_vulkan t = true ->
     QComboBox.enabled (api_combobox (core t')) = false /\
     QWidget.enabled (api_widget t')
       = (configuring_global (core t) && QWidget.enabled (api_widget t))%bool) /\
    QComboBox.items (api_combobox (core t')) = QComboBox.items (api_combobox (core t)) /\
    QComboBox.currentIndex (api_combobox (core t'))
      = QComboBox.currentIndex (api_combobox (core t)).
Proof.
  eexists. split; [reflexivity|].
  destruct t as [st ? ? ? ? ? ? [widget_enabled ?] broken].
  destruct st as [global ? ? ? [box_enabled ? ? ?] ? ? ? ? ? ? ?].
  cbn. destruct broken, global, box_enabled, widget_enabled; cbn;
    repeat split; try reflexivity; try discriminate; intros; try discriminate;
    try reflexivity; auto using andb_true_r.
Qed.

End QueryAndRestriction.

Section ConstructorProperties.

Context `{Declarations}.

Variable fromStdString : string -> QString.
Variables vulkan_device_Id shader_backend_Id vsync_mode_Id : Z.
Variable CreateWidget : BasicSetting -> bool -> bool -> Created.

Lemma tbind_returns {A B : Type} (m : MT A) (k : A -> MT B) (t t' : Tab) (a : A) :
  m t = TabReturns a t' -> tbind m k t = k a t'.
Proof. intros Hrun. unfold tbind. now rewrite Hrun. Qed.

(** X18.  The constructor calls through a member it never assigns: when
    [vulkan_device_widget] names no widget as the body starts, it names
    none after [SetConfiguration] either, whatever the settings of the
    category and whatever [CreateWidget] returns, and the layout update
    at line 95 calls [setEnabled] through it (line 329 or 334), if the
    loop at lines 88-90 has not already called through the unassigned
    device box: the behaviour of the constructor is undefined on every
    tab. *)
Theorem constructor_calls_through_unassigned_device_widget
        (settings : list BasicSetting) (members : Wiring) (t : Tab) :
  vulkan_device_widget_pointer members = None ->
  constructor fromStdString vulkan_device_Id shader_backend_Id vsync_mode_Id
              CreateWidget settings members t = TabUndefined.
Proof.
  intros Hnull. unfold constructor.
  set (t0 := set_core (set_vulkan_device
                         (Settings.GetValue (Settings.vulkan_device (values (core t))))
                         (core t)) t).
  rewrite tbind_returns with (a := tt) (t' := t0) by reflexivity.
  destruct (RetrieveVulkanDevices_returns fromStdString t0) as (t1 & Hrun1 & _).
  rewrite tbind_returns with (a := tt) (t' := t1) by exact Hrun1.
  rewrite tbind_returns with (a := powered_on (core t1)) (t' := t1) by reflexivity.
  cbv zeta.
  set (w := SetConfiguration vulkan_device_Id shader_backend_Id vsync_mode_Id
                             CreateWidget settings (powered_on (core t1)) members).
  assert (Hw : vulkan_device_widget_pointer w = None).
  { subst w.
    destruct (SetConfiguration_keeps_device_pointers vulkan_device_Id shader_backend_Id
                vsync_mode_Id CreateWidget settings (powered_on (core t1)) members)
      as (_ & Hwidget).
    rewrite Hwidget. exact Hnull. }
  set (t2 := set_core (set_apply_funcs (wired_apply_funcs w) (core t1)) t1).
  rewrite tbind_returns with (a := tt) (t' := t2) by reflexivity.
  rewrite tbind_returns with (a := vulkan_devices t2) (t' := t2) by reflexivity.
  unfold tbind at 1.
  destruct (add_devices_through (vulkan_device_combobox_pointer w) (vulkan_devices t2) t2)
    as [[] t3|]; [|reflexivity].
  unfold tbind at 1. unfold UpdateAPILayout_through, through at 1.
  rewrite Hw. reflexivity.
Qed.

End ConstructorProperties.

(** * The further properties on concrete tabs

    Under [declarations_in_order], on the concrete states and tabs. *)

Lemma rebuild_offers_mapped_modes_witness :
  exists st',
    @PopulateVSyncModeSelection declarations_in_order (global_state 1 1 false)
      = Returns tt st' /\
    vsync_mode_combobox_enum_map st' = filter is_mapped three_modes /\
    (forall mode, In mode (vsync_mode_combobox_enum_map st') <->
                  In mode three_modes /\ In mode mapped_present_modes).
Proof.
  apply (@rebuild_offers_mapped_modes declarations_in_order
           (global_state 1 1 false) 1 VK_PRESENT_MODE_MAILBOX_KHR three_modes).
  - reflexivity.
  - cbn. lia.
  - cbn. lia.
  - reflexivity.
  - reflexivity.
Defined.

Lemma rebuild_under_OpenGL_offers_Off_and_On_witness :
  exists st',
    @PopulateVSyncModeSelection declarations_in_order (global_state 0 1 false)
      = Returns tt st' /\
    vsync_mode_combobox_enum_map st' =
      [VK_PRESENT_MODE_IMMEDIATE_KHR; VK_PRESENT_MODE_FIFO_KHR] /\
    QComboBox.items (vsync_mode_combobox st') = ["Off"; "On"]%string.
Proof.
  apply (@rebuild_under_OpenGL_offers_Off_and_On declarations_in_order
           (global_state 0 1 false) VK_PRESENT_MODE_MAILBOX_KHR).
  - exact distinct_backends_in_order.
  - reflexivity.
  - reflexivity.
Defined.

Lemma rebuild_leaves_box_and_map_in_step_witness :
  exists st',
    @PopulateVSyncModeSelection declarations_in_order (global_state 1 1 false)
      = Returns tt st' /\
    in_step st' /\ exists previous, @previous_mode declarations_in_order st' = Some previous.
Proof.
  eexists. split; [lazy; reflexivity|].
  eapply (@rebuild_leaves_box_and_map_in_step declarations_in_order
            (global_state 1 1 false) _ 1).
  - reflexivity.
  - lazy. reflexivity.
  - left. cbn. lia.
Defined.

Lemma rebuild_selects_the_only_position_witness :
  exists st',
    @PopulateVSyncModeSelection declarations_in_order (global_state 1 1 false)
      = Returns tt st' /\
    NoDup (vsync_mode_combobox_enum_map st') /\
    (In VK_PRESENT_MODE_MAILBOX_KHR (vsync_mode_combobox_enum_map st') ->
     forall j : nat,
       nth_error (vsync_mode_combobox_enum_map st') j = Some VK_PRESENT_MODE_MAILBOX_KHR <->
       QComboBox.currentIndex (vsync_mode_combobox st') = Z.of_nat j).
Proof.
  apply (@rebuild_selects_the_only_position declarations_in_order
           (global_state 1 1 false) 1 VK_PRESENT_MODE_MAILBOX_KHR three_modes).
  - reflexivity.
  - cbn. lia.
  - reflexivity.
  - reflexivity.
  - unfold three_modes. repeat constructor; cbv; intuition discriminate.
Defined.

Lemma rebuild_again_changes_nothing_witness :
  exists first second : State,
    @PopulateVSyncModeSelection declarations_in_order (global_state 1 1 false)
      = Returns tt first /\
    @PopulateVSyncModeSelection declarations_in_order first = Returns tt second /\
    vsync_mode_combobox_enum_map second = vsync_mode_combobox_enum_map first /\
    QComboBox.items (vsync_mode_combobox second) =
      QComboBox.items (vsync_mode_combobox first) /\
    (In VK_PRESENT_MODE_MAILBOX_KHR (vsync_mode_combobox_enum_map first) ->
     vsync_mode_combobox second = vsync_mode_combobox first).
Proof.
  apply (@rebuild_again_changes_nothing declarations_in_order
           (global_state 1 1 false) 1 VK_PRESENT_MODE_MAILBOX_KHR three_modes).
  - reflexivity.
  - cbn. lia.
  - reflexivity.
  - reflexivity.
Defined.

Lemma commit_without_selection_is_undefined_witness :
  @ApplyConfiguration declarations_in_order (global_state 1 (-1) false) = Undefined.
Proof.
  apply (@commit_without_selection_is_undefined declarations_in_order (global_state 1 (-1) false)).
  - reflexivity.
  - left. cbn. lia.
Defined.

Lemma commit_leaves_a_defined_setting_witness :
  exists st',
    @ApplyConfiguration declarations_in_order (commit_state [write_shader_backend]) = Returns tt st' /\
    In (Settings.GetValue (Settings.vsync_mode (values st')))
       [@VSyncMode_Immediate declarations_in_order; @VSyncMode_Mailbox declarations_in_order;
        @VSyncMode_FIFO declarations_in_order; @VSyncMode_FIFORelaxed declarations_in_order].
Proof.
  eexists. split; [lazy; reflexivity|].
  eapply (@commit_leaves_a_defined_setting declarations_in_order
            (commit_state [write_shader_backend])).
  - reflexivity.
  - lazy. reflexivity.
Defined.

Lemma rebuild_then_commit_keeps_setting_witness :
  exists rebuilt committed : State,
    @PopulateVSyncModeSelection declarations_in_order (global_state 1 (-1) false)
      = Returns tt rebuilt /\
    @ApplyConfiguration declarations_in_order rebuilt = Returns tt committed /\
    Settings.GetValue (Settings.vsync_mode (values committed)) = 2.
Proof.
  apply (@rebuild_then_commit_keeps_setting declarations_in_order
           (global_state 1 (-1) false) 1 three_modes).
  - reflexivity.
  - reflexivity.
  - cbn. lia.
  - reflexivity.
  - reflexivity.
  - cbn. lia.
  - vm_compute. auto.
Defined.

Lemma unoffered_mode_is_replaced_or_lost_witness :
  exists rebuilt : State,
    @PopulateVSyncModeSelection declarations_in_order (global_state 0 1 false)
      = Returns tt rebuilt /\
    (QComboBox.placeholder (vsync_mode_combobox (global_state 0 1 false)) = false ->
     QComboBox.currentIndex (vsync_mode_combobox rebuilt) = 0 /\
     exists committed : State,
       @ApplyConfiguration declarations_in_order rebuilt = Returns tt committed /\
       Settings.GetValue (Settings.vsync_mode (values committed))
         = @PresentModeToSetting declarations_in_order VK_PRESENT_MODE_IMMEDIATE_KHR) /\
    (QComboBox.placeholder (vsync_mode_combobox (global_state 0 1 false)) = true ->
     QComboBox.currentIndex (vsync_mode_combobox rebuilt) = -1 /\
     @ApplyConfiguration declarations_in_order rebuilt = Undefined).
Proof.
  apply (@unoffered_mode_is_replaced_or_lost declarations_in_order
           (global_state 0 1 false) 0 VK_PRESENT_MODE_MAILBOX_KHR
           VK_PRESENT_MODE_IMMEDIATE_KHR default_present_modes [VK_PRESENT_MODE_FIFO_KHR]).
  - reflexivity.
  - reflexivity.
  - cbn. lia.
  - reflexivity.
  - reflexivity.
  - reflexivity.
  - cbv. intuition discriminate.
Defined.

Lemma seeding_selects_first_entry_witness :
  exists (k : nat) (st' : State),
    @seed_vsync_selection declarations_in_order (global_state 1 (-1) false)
      = Returns tt st' /\
    st' = call_vsync_mode_combobox (QComboBox.call_setCurrentIndex (Z.of_nat k))
            (global_state 1 (-1) false) /\
    QComboBox.currentIndex (vsync_mode_combobox st') = Z.of_nat k /\
    nth_error three_modes k = Some VK_PRESENT_MODE_FIFO_KHR /\
    (forall j : nat, (j < k)%nat ->
       nth_error three_modes j <> Some VK_PRESENT_MODE_FIFO_KHR).
Proof.
  apply (proj2 (proj2 (@seeding_selects_first_entry declarations_in_order
                         (global_state 1 (-1) false)))).
  - reflexivity.
  - vm_compute. auto.
  - reflexivity.
Defined.

Lemma device_box_lists_every_record_witness :
  exists retrieved filled : Tab,
    RetrieveVulkanDevices (fun s => s) fresh_tab = TabReturns tt retrieved /\
    fill_device_combobox retrieved = TabReturns tt filled /\
    QComboBox.items (vulkan_device_combobox (core filled)) = ["GPU 0"; "GPU 1"]%string /\
    device_present_modes (core filled)
      = [three_modes; [VK_PRESENT_MODE_FIFO_KHR; VK_PRESENT_MODE_FIFO_RELAXED_KHR]] /\
    QComboBox.count (vulkan_device_combobox (core filled)) =
      Z.of_nat (List.length (device_present_modes (core filled))) /\
    QComboBox.currentIndex (vulkan_device_combobox (core filled)) = 0.
Proof.
  apply (@device_box_lists_every_record (fun s => s) fresh_tab).
  - reflexivity.
  - reflexivity.
Defined.

Lemma layout_update_guards_the_device_index_witness :
  exists (backend : Z) (t' : Tab),
    returned (@GetCurrentGraphicsBackend declarations_in_order (core vulkan_tab))
      = Some backend /\
    @UpdateAPILayout declarations_in_order vulkan_tab = TabReturns tt t' /\
    QComboBox.currentIndex (vulkan_device_combobox (core t')) = 0.
Proof.
  destruct (@layout_update_guards_the_device_index declarations_in_order vulkan_tab)
    as (backend & t' & Hquery & Hrun & _ & _ & _ & Hinside & _).
  - cbn. lia.
  - cbn. lia.
  - exists backend, t'. split; [exact Hquery|]. split; [exact Hrun|].
    rewrite Hinside.
    + reflexivity.
    + vm_compute in Hquery. injection Hquery as <-. reflexivity.
    + vm_compute. split; [discriminate|reflexivity].
Defined.

Lemma layout_update_shows_one_widget_witness :
  exists (backend : Z) (t' : Tab),
    returned (@GetCurrentGraphicsBackend declarations_in_order (core vulkan_tab))
      = Some backend /\
    @UpdateAPILayout declarations_in_order vulkan_tab = TabReturns tt t' /\
    QWidget.visible (vulkan_device_widget t') = true /\
    QWidget.visible (shader_backend_widget t') = false.
Proof.
  destruct (@layout_update_shows_one_widget declarations_in_order vulkan_tab)
    as (backend & t' & Hquery & Hrun & _ & Hvulkan & _).
  - exact distinct_backends_in_order.
  - exists backend, t'. split; [exact Hquery|]. split; [exact Hrun|].
    apply Hvulkan. vm_compute in Hquery. injection Hquery as <-. reflexivity.
Defined.

Lemma layout_update_reads_global_values_at_use_global_entry_witness :
  exists t',
    @UpdateAPILayout declarations_in_order profile_tab = TabReturns tt t' /\
    vulkan_device (core t')
      = Settings.value (Settings.vulkan_device (values (core profile_tab))) /\
    shader_backend (core t')
      = Settings.value (Settings.shader_backend (values (core profile_tab))) /\
    QWidget.enabled (vulkan_device_widget t') = false /\
    QWidget.enabled (shader_backend_widget t') = false.
Proof.
  destruct (@layout_update_reads_global_values_at_use_global_entry
              declarations_in_order profile_tab) as (t' & Hrun & Hentry & _).
  exists t'. split; [exact Hrun|]. apply Hentry; reflexivity.
Defined.

Lemma api_change_offers_modes_of_stored_device_witness :
  exists t',
    @api_combobox_currentIndexChanged declarations_in_order vulkan_tab = TabReturns tt t' /\
    vulkan_device (core t') = 0 /\
    QComboBox.currentIndex (vulkan_device_combobox (core t')) = 0 /\
    vsync_mode_combobox_enum_map (core t') = three_modes.
Proof.
  apply (@api_change_offers_modes_of_stored_device declarations_in_order vulkan_tab
           VK_PRESENT_MODE_MAILBOX_KHR three_modes).
  - cbn. lia.
  - cbn. lia.
  - reflexivity.
  - reflexivity.
  - vm_compute. split; [discriminate|reflexivity].
  - reflexivity.
Defined.

Lemma api_change_without_device_is_undefined_witness :
  @api_combobox_currentIndexChanged declarations_in_order fresh_tab = TabUndefined.
Proof.
  apply (@api_change_without_device_is_undefined declarations_in_order fresh_tab).
  - cbn. lia.
  - cbn. lia.
  - reflexivity.
  - right. split; [vm_compute; discriminate|]. left. cbn. lia.
Defined.

Lemma device_activation_offers_modes_of_device_witness :
  exists t',
    @vulkan_device_combobox_activated declarations_in_order 0 vulkan_tab
      = TabReturns tt t' /\
    vulkan_device (core t') = to_u32 0 /\
    (0 < 2 ^ 32 -> vulkan_device (core t') = 0) /\
    vsync_mode_combobox_enum_map (core t') = three_modes /\
    (In VK_PRESENT_MODE_MAILBOX_KHR three_modes ->
     exists k : nat,
       QComboBox.currentIndex (vsync_mode_combobox (core t')) = Z.of_nat k /\
       nth_error (vsync_mode_combobox_enum_map (core t')) k
         = Some VK_PRESENT_MODE_MAILBOX_KHR).
Proof.
  apply (@device_activation_offers_modes_of_device declarations_in_order vulkan_tab 0
           VK_PRESENT_MODE_MAILBOX_KHR three_modes).
  - cbn. lia.
  - reflexivity.
  - reflexivity.
  - reflexivity.
  - lia.
  - reflexivity.
Defined.

Lemma backend_query_is_idempotent_witness :
  exists (backend : Z) (st1 : State),
    @GetCurrentGraphicsBackend declarations_in_order profile_state = Returns backend st1 /\
    @GetCurrentGraphicsBackend declarations_in_order st1 = Returns backend st1 /\
    backend = 1 /\
    Settings.use_global (Settings.renderer_backend (values st1)) = true.
Proof.
  destruct (@backend_query_is_idempotent declarations_in_order profile_state)
    as (backend & st1 & Hfirst & Hsecond & _ & Hentry & _).
  exists backend, st1. split; [exact Hfirst|]. split; [exact Hsecond|].
  apply Hentry; reflexivity.
Defined.

(** With Vulkan broken, in per-profile mode, both the API box and the API
    widget are disabled. *)
Lemma restriction_only_disables_witness :
  exists t',
    restrict_api_widgets profile_tab = TabReturns tt t' /\
    QComboBox.enabled (api_combobox (core t')) = false /\
    QWidget.enabled (api_widget t') = false.
Proof.
  destruct (restriction_only_disables profile_tab)
    as (t' & Hrun & _ & _ & _ & Hbroken & _).
  exists t'. split; [exact Hrun|]. apply Hbroken. reflexivity.
Defined.

Lemma constructor_calls_through_unassigned_device_widget_witness :
  @constructor declarations_in_order (fun s => s) 10 11 12 widget_by_Id
     renderer_settings unwired fresh_tab = TabUndefined.
Proof.
  apply (@constructor_calls_through_unassigned_device_widget declarations_in_order
           (fun s => s) 10 11 12 widget_by_Id renderer_settings unwired fresh_tab).
  reflexivity.
Defined.

(** Had every member named a widget as the body starts, the constructor
    would return on the machine with two devices: the device box would
    show the persisted device and the VSync box its three modes with the
    persisted one, FIFO, current. *)
Lemma constructor_returns_on_assigned_members :
  exists (w : Wiring) (t' : Tab),
    @constructor declarations_in_order (fun s => s) 10 11 12 widget_by_Id
       renderer_settings assigned fresh_tab = TabReturns w t' /\
    QComboBox.items (vulkan_device_combobox (core t')) = ["GPU 0"; "GPU 1"]%string /\
    QComboBox.currentIndex (vulkan_device_combobox (core t')) = 0 /\
    vsync_mode_combobox_enum_map (core t') = three_modes /\
    QComboBox.currentIndex (vsync_mode_combobox (core t')) = 2.
Proof.
  do 2 eexists. split; [lazy; reflexivity|]. repeat split.
Qed.

(** ** The wiring of the sample category

    The device setting's widget is wired as the API box and placed first
    in the API layout; the device pointers stay null; the graphics layout
    has the plain setting, then the enumerations by label. *)
Lemma SetConfiguration_wires_sample_category :
  SetConfiguration 10 11 12 widget_by_Id renderer_settings false unwired =
  {| api_layout := [10; 11]%nat;
     graphics_layout := [13; 14; 12]%nat;
     wired_apply_funcs := [];
     api_combobox_pointer := Some 110%nat;
     vulkan_device_combobox_pointer := None;
     vulkan_device_widget_pointer := None;
     shader_backend_combobox_pointer := Some 111%nat;
     shader_backend_widget_pointer := Some 11%nat;
     vsync_mode_combobox_pointer := Some 112%nat |}.
Proof.
  reflexivity.
Qed.
